(** * The v210 encoder of libavcodec (v210enc.c), embedded in Rocq

    The encoder packs planar YUV frames (8-bit 4:2:2, 8-bit 4:2:0 or 10-bit
    4:2:2) into the v210 wire format: little-endian 32-bit words that each
    hold three 10-bit fields.

    Conventions of the embedding:
    - C [int], [ptrdiff_t] and [uint32_t] values are integers of [Z]: every
      value stored into [val] is below [2^30] (see [word3_bound]), so the
      [uint32_t] never wraps, and the sizes computed from the frame
      dimensions are taken not to overflow an [int], which the library checks
      before a codec is opened ([int_stride] is the stride with every step
      checked: it is that of the model for widths up to 268435440, see
      [int_stride_in]); [/] and [%] are [Z.quot] and [Z.rem], and a division
      by 0 is undefined;
    - a plane is the array a sample pointer ranges over, given as a map from
      element offset (relative to [pic->data[i]]) to sample; a pointer into
      it is an offset;
    - the packet buffer is a list of bytes and [dst] an offset into it; a
      store outside the buffer is undefined in C and yields [None] here;
    - loops run on fuel and yield [None] when it runs out, so [Some] always
      means the loop left through its own condition. *)

From Stdlib Require Import ZArith List Lia Bool.
Import ListNotations.
Local Open Scope Z_scope.

Notation "x <- a ;; b" :=
  (match a with Some x => b | None => None end)
  (at level 61, a at next level, right associativity).

(** ** Memory *)

Definition plane := Z -> Z.

(** [l[n] = b], defined inside the list only. *)
Fixpoint upd (l : list Z) (n : nat) (b : Z) : list Z :=
  match l, n with
  | [], _ => []
  | _ :: t, O => b :: t
  | x :: t, S k => x :: upd t k b
  end.

Definition store8 (buf : list Z) (off : Z) (b : Z) : option (list Z) :=
  if (0 <=? off) && (off <? Z.of_nat (length buf))
  then Some (upd buf (Z.to_nat off) b)
  else None.

(** Modelled from the spec: [AV_WL32] of libavutil/intreadwrite.h is not among
    the sources; the spec fixes it as the little-endian store of a 32-bit
    word, least significant byte first. *)
Definition le32 (w : Z) : list Z :=
  [Z.land w 255; Z.land (Z.shiftr w 8) 255;
   Z.land (Z.shiftr w 16) 255; Z.land (Z.shiftr w 24) 255].

Definition AV_WL32 (buf : list Z) (p : Z) (w : Z) : option (list Z) :=
  b1 <- store8 buf p (Z.land w 255) ;;
  b2 <- store8 b1 (p + 1) (Z.land (Z.shiftr w 8) 255) ;;
  b3 <- store8 b2 (p + 2) (Z.land (Z.shiftr w 16) 255) ;;
  store8 b3 (p + 3) (Z.land (Z.shiftr w 24) 255).

Fixpoint memset_bytes (n : nat) (buf : list Z) (p : Z) (c : Z)
  : option (list Z) :=
  match n with
  | O => Some buf
  | S k => b <- store8 buf p c ;; memset_bytes k b (p + 1) c
  end.

(** [memset(p, c, n)]: [n] is converted to [size_t], so a negative [int]
    would ask for more bytes than any buffer holds. *)
Definition memset (buf : list Z) (p : Z) (c : Z) (n : Z) : option (list Z) :=
  if n <? 0 then None else memset_bytes (Z.to_nat n) buf p (Z.land c 255).

(** ** Clipping *)

(** Modelled from the spec: [av_clip] of libavutil/common.h is not among the
    sources; the spec gives [clip(v) = max(lo, min(hi, v))]. *)
Definition av_clip (a amin amax : Z) : Z := Z.max amin (Z.min amax a).

Definition CLIP (x : Z) : Z := av_clip x 4 1019.
Definition CLIP8 (x : Z) : Z := av_clip x 1 254.

(** ** Loops *)

(** [for (; cond(i); i = next(i)) body], returning the final [i] too. *)
Fixpoint for_loop {S : Type} (fuel : nat) (cond : Z -> bool) (next : Z -> Z)
    (body : Z -> S -> option S) (i : Z) (s : S) : option (Z * S) :=
  match fuel with
  | O => None
  | Datatypes.S k =>
      if cond i
      then s' <- body i s ;; for_loop k cond next body (next i) s'
      else Some (i, s)
  end.

(** Fuel for a loop counting from [lo] up to [hi]. *)
Definition fuel_for (lo hi : Z) : nat := S (Z.to_nat (hi - lo)).

(** ** Local variables of the packing code *)

Record state := mkState {
  st_y : Z; st_u : Z; st_v : Z;   (* sample pointers *)
  st_val : Z;                     (* uint32_t val *)
  st_dst : Z;                     (* output pointer *)
  st_buf : list Z                 (* the packet buffer *)
}.

(** The pointer variable a macro argument names. *)
Inductive ptr := Py | Pu | Pv.

Section Planes.

(** The arrays behind [y], [u] and [v]. *)
Variables Yp Up Vp : plane.

(** [*p++] *)
Definition deref_inc (p : ptr) (s : state) : Z * state :=
  match p with
  | Py => (Yp (st_y s),
           mkState (st_y s + 1) (st_u s) (st_v s) (st_val s) (st_dst s)
             (st_buf s))
  | Pu => (Up (st_u s),
           mkState (st_y s) (st_u s + 1) (st_v s) (st_val s) (st_dst s)
             (st_buf s))
  | Pv => (Vp (st_v s),
           mkState (st_y s) (st_u s) (st_v s + 1) (st_val s) (st_dst s)
             (st_buf s))
  end.

Definition set_val (x : Z) (s : state) : state :=
  mkState (st_y s) (st_u s) (st_v s) x (st_dst s) (st_buf s).

(** [AV_WL32(dst, val); dst += 4;] *)
Definition flush_val (s : state) : option state :=
  b <- AV_WL32 (st_buf s) (st_dst s) (st_val s) ;;
  Some (mkState (st_y s) (st_u s) (st_v s) (st_val s) (st_dst s + 4) b).

Definition WRITE_PIXELS (a b c : ptr) (s : state) : option state :=
  let (xa, s) := deref_inc a s in
  let s := set_val (CLIP xa) s in
  let (xb, s) := deref_inc b s in
  let (xc, s) := deref_inc c s in
  let s := set_val (Z.lor (st_val s)
                      (Z.lor (Z.shiftl (CLIP xb) 10)
                             (Z.shiftl (CLIP xc) 20))) s in
  flush_val s.

Definition WRITE_PIXELS8 (a b c : ptr) (s : state) : option state :=
  let (xa, s) := deref_inc a s in
  let s := set_val (Z.shiftl (CLIP8 xa) 2) s in
  let (xb, s) := deref_inc b s in
  let (xc, s) := deref_inc c s in
  let s := set_val (Z.lor (st_val s)
                      (Z.lor (Z.shiftl (CLIP8 xb) 12)
                             (Z.shiftl (CLIP8 xc) 22))) s in
  flush_val s.

(** The six-sample group: four words. *)
Definition group6 (s : state) : option state :=
  s <- WRITE_PIXELS Pu Py Pv s ;;
  s <- WRITE_PIXELS Py Pu Py s ;;
  s <- WRITE_PIXELS Pv Py Pu s ;;
  WRITE_PIXELS Py Pv Py s.

Definition group6_8 (s : state) : option state :=
  s <- WRITE_PIXELS8 Pu Py Pv s ;;
  s <- WRITE_PIXELS8 Py Pu Py s ;;
  s <- WRITE_PIXELS8 Pv Py Pu s ;;
  WRITE_PIXELS8 Py Pv Py s.

(** The body of [v210_planar_pack_8_c]'s loop: two groups, unrolled. *)
Definition group12_8 (s : state) : option state :=
  s <- group6_8 s ;; group6_8 s.

(** The loop of [v210_planar_pack_10_c], with the function's locals as the
    state: [y], [u], [v] and [dst] are its by-value parameters. *)
Definition v210_planar_pack_10_loop (s : state) (width : Z)
  : option (Z * state) :=
  for_loop (fuel_for 0 width) (fun i => i <? width - 5) (fun i => i + 6)
    (fun _ => group6) 0 s.

Definition v210_planar_pack_8_loop (s : state) (width : Z)
  : option (Z * state) :=
  for_loop (fuel_for 0 width) (fun i => i <? width - 11) (fun i => i + 12)
    (fun _ => group12_8) 0 s.

End Planes.

(** A bulk packer: the three planes, the by-value pointers [y], [u], [v] and
    [dst], the packet buffer and the sample count; its only effect is on the
    buffer. *)
Definition pack_line_fn : Type :=
  plane -> plane -> plane -> Z -> Z -> Z -> Z -> list Z -> Z -> option (list Z).

Definition v210_planar_pack_8_c : pack_line_fn :=
  fun Yp Up Vp y u v dst buf width =>
    r <- v210_planar_pack_8_loop Yp Up Vp (mkState y u v 0 dst buf) width ;;
    Some (st_buf (snd r)).

Definition v210_planar_pack_10_c : pack_line_fn :=
  fun Yp Up Vp y u v dst buf width =>
    r <- v210_planar_pack_10_loop Yp Up Vp (mkState y u v 0 dst buf) width ;;
    Some (st_buf (snd r)).

(** ** Codec structures *)

(** v210enc.h is not among the sources; the fields are the ones
    [ff_v210enc_init] assigns. *)
Record V210EncContext := mkV210EncContext {
  pack_line_8 : pack_line_fn;
  pack_line_10 : pack_line_fn;
  sample_factor_8 : Z;
  sample_factor_10 : Z
}.

Inductive AVPixelFormat :=
| AV_PIX_FMT_YUV422P10
| AV_PIX_FMT_YUV422P
| AV_PIX_FMT_YUV420P
| AV_PIX_FMT_NONE.   (* the list terminator; stands for any other format *)

(** [ff_v210_encoder.pix_fmts] *)
Definition pix_fmts : list AVPixelFormat :=
  [AV_PIX_FMT_YUV422P10; AV_PIX_FMT_YUV422P; AV_PIX_FMT_YUV420P].

Inductive AVFrameSideDataType :=
| AV_FRAME_DATA_A53_CC
| AV_FRAME_DATA_AFD
| AV_FRAME_DATA_BARDATA
| AV_FRAME_DATA_PIPELINE_STATS
| AV_FRAME_DATA_SEI_UNREGISTERED.

Inductive AVPacketSideDataType :=
| AV_PKT_DATA_ORIG_PTS
| AV_PKT_DATA_A53_CC
| AV_PKT_DATA_AFD
| AV_PKT_DATA_BARDATA
| AV_PKT_DATA_PIPELINE_STATS
| AV_PKT_DATA_SEI_UNREGISTERED.

Record AVFrame := mkAVFrame {
  format : AVPixelFormat;
  interlaced_frame : Z;
  data : Z -> plane;            (* data[i], as an array of samples *)
  linesize : Z -> Z;            (* linesize[i], in bytes *)
  pkt_pts : Z;
  (* av_frame_get_side_data: the payload of an entry, if there is one *)
  frame_side_data : AVFrameSideDataType -> option (list Z)
}.

Record AVPacket := mkAVPacket {
  pkt_data : list Z;
  flags : Z;
  pkt_side_data : list (AVPacketSideDataType * list Z)
}.

Record AVCodecContext := mkAVCodecContext {
  width : Z;
  height : Z;
  pict_type : Z;                (* coded_frame->pict_type *)
  bits_per_coded_sample : Z;
  bit_rate : Z;
  priv_data : V210EncContext
}.

Definition EINVAL : Z := 22.
Definition ENOMEM : Z := 12.
Definition AVERROR (e : Z) : Z := - e.
Definition AV_PICTURE_TYPE_I : Z := 1.
Definition AV_PKT_FLAG_KEY : Z := 1.

(** ** Initialisation *)

Section Init.

(** What the build and the rest of the library supply. *)
Variable ARCH_X86 : bool.
Variable ff_v210enc_init_x86 : V210EncContext -> V210EncContext.
Variable FF_API_CODED_FRAME : bool.
Variable ff_guess_coded_bitrate : AVCodecContext -> Z.

Definition ff_v210enc_init (s : V210EncContext) : V210EncContext :=
  let s := mkV210EncContext v210_planar_pack_8_c v210_planar_pack_10_c 1 1 in
  if ARCH_X86 then ff_v210enc_init_x86 s else s.

(** Returns the status and the context as [encode_init] leaves it. *)
Definition encode_init (avctx : AVCodecContext) : Z * AVCodecContext :=
  if negb (Z.land (width avctx) 1 =? 0)
  then (AVERROR EINVAL, avctx)
  else
    let pt :=
      if FF_API_CODED_FRAME then AV_PICTURE_TYPE_I else pict_type avctx in
    let s := ff_v210enc_init (priv_data avctx) in
    let avctx := mkAVCodecContext (width avctx) (height avctx) pt 20
                   (bit_rate avctx) s in
    (0, mkAVCodecContext (width avctx) (height avctx) pt 20
          (Z.quot (ff_guess_coded_bitrate avctx * 16) 15) s).

End Init.

(** ** Encoding a frame *)

Definition aligned_width_of (w : Z) : Z := Z.quot (w + 47) 48 * 48.
Definition stride_of (w : Z) : Z := Z.quot (aligned_width_of w * 8) 3.
Definition line_padding_of (w : Z) : Z :=
  stride_of w - Z.quot (w * 8 + 11) 12 * 4.

(** The range of a C [int].  An [int] expression whose value leaves it is
    undefined: [int_of] is the value of an expression that has to fit. *)
Definition INT_MAX : Z := 2147483647.
Definition INT_MIN : Z := -2147483648.

Definition int_of (x : Z) : option Z :=
  if (INT_MIN <=? x) && (x <=? INT_MAX) then Some x else None.

(** The stride with every step of its computation kept in an [int]:
    [aligned_width = ((width + 47) / 48) * 48] and
    [stride = aligned_width * 8 / 3]. *)
Definition int_stride (w : Z) : option Z :=
  a <- int_of (w + 47) ;;
  aligned_width <- int_of (Z.quot a 48 * 48) ;;
  b <- int_of (aligned_width * 8) ;;
  Some (Z.quot b 3).

(** The result of [encode_frame]: its return value, the packet and
    [*got_packet] as the call leaves them. *)
Record outcome := mkOutcome {
  ret : Z;
  pkt : AVPacket;
  got_packet : Z
}.

Section Encode.

(** The allocators, which are not among the sources.  [ff_alloc_packet2] is
    handed the packet and the size: it answers with a status and the packet
    as it leaves it, the data and whatever else it has made of the flags and
    the side data.  [av_packet_new_side_data] answers whether the new entry
    could be allocated; when it could, the entry is added after those the
    packet has and the code fills it. *)
Variable ff_alloc_packet2 : AVPacket -> Z -> Z -> Z * AVPacket.
Variable av_packet_new_side_data : AVPacketSideDataType -> Z -> bool.

Variable avctx : AVCodecContext.
Variable pic : AVFrame.

Let s := priv_data avctx.
Let line_padding := line_padding_of (width avctx).

(** The scalar tail of a 10-bit row, from the remainder boundary [w]. *)
Definition tail_10 (w : Z) (st : state) : option state :=
  let Yp := data pic 0 in
  let Up := data pic 1 in
  let Vp := data pic 2 in
  st <- (if w <? width avctx - 1 then
           st <- WRITE_PIXELS Yp Up Vp Pu Py Pv st ;;
           let (xy, st) := deref_inc Yp Up Vp Py st in
           let st := set_val (CLIP xy) st in
           if w =? width avctx - 2 then flush_val st else Some st
         else Some st) ;;
  if w <? width avctx - 3 then
    let (xu, st) := deref_inc Yp Up Vp Pu st in
    let (xy, st) := deref_inc Yp Up Vp Py st in
    let st := set_val (Z.lor (st_val st)
                (Z.lor (Z.shiftl (CLIP xu) 10)
                       (Z.shiftl (CLIP xy) 20))) st in
    st <- flush_val st ;;
    let (xv, st) := deref_inc Yp Up Vp Pv st in
    let (xy, st) := deref_inc Yp Up Vp Py st in
    let st := set_val (Z.lor (CLIP xv) (Z.shiftl (CLIP xy) 10)) st in
    flush_val st
  else Some st.

Definition tail_8 (w : Z) (st : state) : option state :=
  let Yp := data pic 0 in
  let Up := data pic 1 in
  let Vp := data pic 2 in
  st <- (if w <? width avctx - 1 then
           st <- WRITE_PIXELS8 Yp Up Vp Pu Py Pv st ;;
           let (xy, st) := deref_inc Yp Up Vp Py st in
           let st := set_val (Z.shiftl (CLIP8 xy) 2) st in
           if w =? width avctx - 2 then flush_val st else Some st
         else Some st) ;;
  if w <? width avctx - 3 then
    let (xu, st) := deref_inc Yp Up Vp Pu st in
    let (xy, st) := deref_inc Yp Up Vp Py st in
    let st := set_val (Z.lor (st_val st)
                (Z.lor (Z.shiftl (CLIP8 xu) 12)
                       (Z.shiftl (CLIP8 xy) 22))) st in
    st <- flush_val st ;;
    let (xv, st) := deref_inc Yp Up Vp Pv st in
    let (xy, st) := deref_inc Yp Up Vp Py st in
    let st := set_val (Z.lor (Z.shiftl (CLIP8 xv) 2)
                             (Z.shiftl (CLIP8 xy) 12)) st in
    flush_val st
  else Some st.

(** [memset(dst, 0, line_padding); dst += line_padding;] *)
Definition pad_line (st : state) : option state :=
  b <- memset (st_buf st) (st_dst st) 0 line_padding ;;
  Some (mkState (st_y st) (st_u st) (st_v st) (st_val st)
          (st_dst st + line_padding) b).

(** One turn of the row loop of the [AV_PIX_FMT_YUV422P10] branch. *)
Definition row_10 (sample_size sample_w : Z) (st : state) : option state :=
  let Yp := data pic 0 in
  let Up := data pic 1 in
  let Vp := data pic 2 in
  let w := sample_w * sample_size in
  b <- pack_line_10 s Yp Up Vp (st_y st) (st_u st) (st_v st) (st_dst st)
         (st_buf st) w ;;
  let st := mkState (st_y st + w) (st_u st + Z.shiftr w 1)
              (st_v st + Z.shiftr w 1) (st_val st)
              (st_dst st + sample_w * 16 * sample_factor_10 s) b in
  r <- for_loop (fuel_for w (width avctx)) (fun w => w <? width avctx - 5)
         (fun w => w + 6) (fun _ => group6 Yp Up Vp) w st ;;
  st <- tail_10 (fst r) (snd r) ;;
  st <- pad_line st ;;
  Some (mkState
          (st_y st + (Z.quot (linesize pic 0) 2 - width avctx))
          (st_u st + (Z.quot (linesize pic 1) 2 - Z.quot (width avctx) 2))
          (st_v st + (Z.quot (linesize pic 2) 2 - Z.quot (width avctx) 2))
          (st_val st) (st_dst st) (st_buf st)).

(** The locals of the 8-bit branch: the packing state, [u_even], [v_even]. *)
Definition state8 : Type := state * Z * Z.

(** The chroma row selection at the head of the 8-bit row loop. *)
Definition select_chroma (h : Z) (t : state8) : state8 :=
  let '(st, u_even, v_even) := t in
  let back := mkState (st_y st) u_even v_even (st_val st) (st_dst st)
                (st_buf st) in
  match format pic with
  | AV_PIX_FMT_YUV420P =>
      if interlaced_frame pic =? 1 then
        if Z.rem h 4 =? 0 then (st, st_u st, st_v st)
        else if Z.rem h 4 =? 2 then (back, u_even, v_even)
        else t
      else
        if Z.rem h 2 =? 1 then (back, u_even, v_even)
        else (st, st_u st, st_v st)
  | _ => t
  end.

(** One turn of the row loop of the 8-bit branch. *)
Definition row_8 (sample_size sample_w : Z) (h : Z) (t : state8)
  : option state8 :=
  let Yp := data pic 0 in
  let Up := data pic 1 in
  let Vp := data pic 2 in
  let '(st, u_even, v_even) := select_chroma h t in
  let w := sample_w * sample_size in
  b <- pack_line_8 s Yp Up Vp (st_y st) (st_u st) (st_v st) (st_dst st)
         (st_buf st) w ;;
  let st := mkState (st_y st + w) (st_u st + Z.shiftr w 1)
              (st_v st + Z.shiftr w 1) (st_val st)
              (st_dst st + sample_w * 32 * sample_factor_8 s) b in
  r <- for_loop (fuel_for w (width avctx)) (fun w => w <? width avctx - 5)
         (fun w => w + 6) (fun _ => group6_8 Yp Up Vp) w st ;;
  st <- tail_8 (fst r) (snd r) ;;
  st <- pad_line st ;;
  Some (mkState
          (st_y st + (linesize pic 0 - width avctx))
          (st_u st + (linesize pic 1 - Z.quot (width avctx) 2))
          (st_v st + (linesize pic 2 - Z.quot (width avctx) 2))
          (st_val st) (st_dst st) (st_buf st),
        u_even, v_even).

(** The pixel part of [encode_frame]: the buffer after the format branches.
    [sample_w] is a division by [sample_size], undefined when that is 0. *)
Definition encode_pixels (buf : list Z) : option (list Z) :=
  match format pic with
  | AV_PIX_FMT_YUV422P10 =>
      let sample_size := 6 * sample_factor_10 s in
      if sample_size =? 0 then None else
      let sample_w := Z.quot (width avctx) sample_size in
      r <- for_loop (fuel_for 0 (height avctx)) (fun h => h <? height avctx)
             (fun h => h + 1) (fun _ => row_10 sample_size sample_w)
             0 (mkState 0 0 0 0 0 buf) ;;
      Some (st_buf (snd r))
  | AV_PIX_FMT_YUV422P | AV_PIX_FMT_YUV420P =>
      let sample_size := 12 * sample_factor_8 s in
      if sample_size =? 0 then None else
      let sample_w := Z.quot (width avctx) sample_size in
      r <- for_loop (fuel_for 0 (height avctx)) (fun h => h <? height avctx)
             (fun h => h + 1) (row_8 sample_size sample_w)
             0 (mkState 0 0 0 0 0 buf, 0, 0) ;;
      Some (st_buf (fst (fst (snd r))))
  | AV_PIX_FMT_NONE => Some buf
  end.

(** One of the five pass-through blocks: copy a frame side-data entry of
    non-zero size into the packet, or fail with [ENOMEM]; the packet comes
    back either way. *)
Definition copy_side_data (ft : AVFrameSideDataType)
    (pt : AVPacketSideDataType) (p : AVPacket) : Z * AVPacket :=
  match frame_side_data pic ft with
  | Some d =>
      if negb (Z.of_nat (length d) =? 0) then
        if av_packet_new_side_data pt (Z.of_nat (length d))
        then (0, mkAVPacket (pkt_data p) (flags p)
                   (pkt_side_data p ++ [(pt, d)]))
        else (AVERROR ENOMEM, p)
      else (0, p)
  | None => (0, p)
  end.

Definition copy_all_side_data (p : AVPacket) : Z * AVPacket :=
  let '(e, p) := copy_side_data AV_FRAME_DATA_A53_CC AV_PKT_DATA_A53_CC p in
  if e <? 0 then (e, p) else
  let '(e, p) := copy_side_data AV_FRAME_DATA_AFD AV_PKT_DATA_AFD p in
  if e <? 0 then (e, p) else
  let '(e, p) :=
    copy_side_data AV_FRAME_DATA_BARDATA AV_PKT_DATA_BARDATA p in
  if e <? 0 then (e, p) else
  let '(e, p) :=
    copy_side_data AV_FRAME_DATA_PIPELINE_STATS AV_PKT_DATA_PIPELINE_STATS p in
  if e <? 0 then (e, p) else
  copy_side_data AV_FRAME_DATA_SEI_UNREGISTERED AV_PKT_DATA_SEI_UNREGISTERED p.

(** [encode_frame(avctx, pkt, pic, got_packet)]; [None] is undefined
    behaviour.  The timestamps taken for the profiler are left out. *)
Definition encode_frame (pkt0 : AVPacket) (got_packet0 : Z)
  : option outcome :=
  let stride := stride_of (width avctx) in
  let '(r, p) := ff_alloc_packet2 pkt0 (height avctx * stride)
                   (height avctx * stride) in
  if r <? 0 then Some (mkOutcome r p got_packet0)
  else
    let sd := if av_packet_new_side_data AV_PKT_DATA_ORIG_PTS 8
              then [(AV_PKT_DATA_ORIG_PTS, [pkt_pts pic])] else [] in
    buf <- encode_pixels (pkt_data p) ;;
    let p := mkAVPacket buf (flags p) (pkt_side_data p ++ sd) in
    let '(e, p) := copy_all_side_data p in
    if e <? 0 then Some (mkOutcome e p got_packet0)
    else
      Some (mkOutcome 0
              (mkAVPacket (pkt_data p) (Z.lor (flags p) AV_PKT_FLAG_KEY)
                 (pkt_side_data p))
              1).

End Encode.

(** Modelled from the spec: the framework that opens the codec and feeds it
    frames is not among the sources.  The spec has the odd width "rejected at
    setup, no frames processed": a session runs [encode_init] once, stops
    there if it fails, and otherwise hands every frame to [encode_frame] with
    the context [encode_init] left. *)
Definition encode_session (ARCH_X86 : bool)
    (ff_v210enc_init_x86 : V210EncContext -> V210EncContext)
    (FF_API_CODED_FRAME : bool)
    (ff_guess_coded_bitrate : AVCodecContext -> Z)
    (ff_alloc_packet2 : AVPacket -> Z -> Z -> Z * AVPacket)
    (av_packet_new_side_data : AVPacketSideDataType -> Z -> bool)
    (avctx : AVCodecContext) (pkt0 : AVPacket) (frames : list AVFrame)
  : Z * list (option outcome) :=
  let '(r, avctx') :=
    encode_init ARCH_X86 ff_v210enc_init_x86 FF_API_CODED_FRAME
      ff_guess_coded_bitrate avctx in
  if r <? 0 then (r, [])
  else (r, map (fun pic => encode_frame ff_alloc_packet2
                             av_packet_new_side_data avctx' pic pkt0 0)
             frames).

(** * The DeckLink output: the frame handed to the card

    libavdevice/decklink_enc.cpp wraps each v210 packet (or each wrapped
    [AVFrame] of packed 8-bit video) in a [decklink_frame], whose methods the
    card's driver calls to find the rows. *)

Inductive AVCodecID :=
| AV_CODEC_ID_WRAPPED_AVFRAME
| AV_CODEC_ID_V210
| AV_CODEC_ID_NONE.   (* stands for any other codec *)

Inductive BMDPixelFormat := bmdFormat8BitYUV | bmdFormat10BitYUV.

Inductive BMDFrameFlags := bmdFrameFlagDefault | bmdFrameFlagFlipVertical.

(** An [AVFrame] with the field the class reads and the encoder does not:
    its height. *)
Record AVFrame_h := mkAVFrame_h {
  avframe : AVFrame;
  avframe_height : Z
}.

(** The members of [decklink_frame] that its methods read; a null pointer
    is [None]. *)
Record decklink_frame := mk_decklink_frame {
  _avframe : option AVFrame_h;
  _avpacket : option AVPacket;
  _codec_id : AVCodecID;
  _height : Z;
  _width : Z
}.

(** The two constructors. *)
Definition decklink_frame_of_avframe (avframe : AVFrame_h)
    (codec_id : AVCodecID) (height width : Z) : decklink_frame :=
  mk_decklink_frame (Some avframe) None codec_id height width.

Definition decklink_frame_of_avpacket (avpacket : AVPacket)
    (codec_id : AVCodecID) (height width : Z) : decklink_frame :=
  mk_decklink_frame None (Some avpacket) codec_id height width.

(** The pointer [GetBytes] hands out: [data[0] + off] of the wrapped frame,
    or the data of the packet. *)
Inductive buffer :=
| in_frame (p : plane) (off : Z)
| in_packet (d : list Z).

Definition is_wrapped (c : AVCodecID) : bool :=
  match c with AV_CODEC_ID_WRAPPED_AVFRAME => true | _ => false end.

Definition GetWidth (f : decklink_frame) : Z := _width f.

Definition GetHeight (f : decklink_frame) : Z := _height f.

(** [None] where the method dereferences a null pointer or negates the
    least [int].  For a packet the arithmetic is in [long], which is at
    least as wide as the [int] the width is held in. *)
Definition GetRowBytes (f : decklink_frame) : option Z :=
  if is_wrapped (_codec_id f) then
    fr <- _avframe f ;;
    if linesize (avframe fr) 0 <? 0
    then int_of (- linesize (avframe fr) 0)
    else Some (linesize (avframe fr) 0)
  else Some (Z.quot (GetWidth f + 47) 48 * 128).

Definition GetPixelFormat (f : decklink_frame) : BMDPixelFormat :=
  if is_wrapped (_codec_id f) then bmdFormat8BitYUV else bmdFormat10BitYUV.

Definition GetFlags (f : decklink_frame) : option BMDFrameFlags :=
  if is_wrapped (_codec_id f) then
    fr <- _avframe f ;;
    Some (if linesize (avframe fr) 0 <? 0 then bmdFrameFlagFlipVertical
          else bmdFrameFlagDefault)
  else Some bmdFrameFlagDefault.

(** The offset of a flipped frame, [linesize[0] * (height - 1)], is a
    product of [int]s. *)
Definition GetBytes (f : decklink_frame) : option buffer :=
  if is_wrapped (_codec_id f) then
    fr <- _avframe f ;;
    if linesize (avframe fr) 0 <? 0
    then
      h1 <- int_of (avframe_height fr - 1) ;;
      off <- int_of (linesize (avframe fr) 0 * h1) ;;
      Some (in_frame (data (avframe fr) 0) off)
    else Some (in_frame (data (avframe fr) 0) 0)
  else
    p <- _avpacket f ;; Some (in_packet (pkt_data p)).

(** * Verification *)

(** ** Stores into a buffer split at the output pointer *)

#[local] Arguments Z.shiftl : simpl never.
#[local] Arguments Z.shiftr : simpl never.
#[local] Arguments Z.land : simpl never.
#[local] Arguments Z.lor : simpl never.
#[local] Arguments Z.quot : simpl never.
#[local] Arguments Z.rem : simpl never.
#[local] Arguments Z.div : simpl never.
#[local] Arguments Z.modulo : simpl never.
#[local] Arguments Z.mul : simpl never.
#[local] Arguments Z.add : simpl never.
#[local] Arguments Z.sub : simpl never.
#[local] Arguments Z.of_nat : simpl never.
#[local] Arguments Z.to_nat : simpl never.

Lemma upd_app (pre : list Z) (x : Z) (post : list Z) (b : Z) :
  upd (pre ++ x :: post) (length pre) b = pre ++ b :: post.
Proof.
  induction pre as [|a pre IH]; simpl; [reflexivity|].
  now rewrite IH.
Qed.

Lemma store8_app (pre : list Z) (x : Z) (post : list Z) (b : Z) :
  store8 (pre ++ x :: post) (Z.of_nat (length pre)) b = Some (pre ++ b :: post).
Proof.
  unfold store8.
  replace ((0 <=? Z.of_nat (length pre)) &&
           (Z.of_nat (length pre) <? Z.of_nat (length (pre ++ x :: post))))
    with true.
  - now rewrite Nat2Z.id, upd_app.
  - symmetry. apply andb_true_iff. split.
    + apply Z.leb_le. lia.
    + apply Z.ltb_lt. rewrite length_app. simpl. lia.
Qed.

Lemma store8_snoc (pre : list Z) (x : Z) (post : list Z) (b : Z) (k : Z) :
  k = Z.of_nat (length pre) ->
  store8 (pre ++ x :: post) k b = Some ((pre ++ [b]) ++ post).
Proof.
  intros ->. rewrite store8_app. now rewrite <- app_assoc.
Qed.

Lemma AV_WL32_app (pre rest : list Z) (w : Z) :
  (4 <= length rest)%nat ->
  AV_WL32 (pre ++ rest) (Z.of_nat (length pre)) w
  = Some (pre ++ le32 w ++ skipn 4 rest).
Proof.
  intros H.
  destruct rest as [|r0 [|r1 [|r2 [|r3 rest]]]]; simpl in H; try lia.
  unfold AV_WL32.
  rewrite (store8_snoc pre) by reflexivity.
  rewrite (store8_snoc (pre ++ _)) by (rewrite length_app; simpl; lia).
  rewrite (store8_snoc ((pre ++ _) ++ _)) by (rewrite !length_app; simpl; lia).
  rewrite (store8_snoc (((pre ++ _) ++ _) ++ _))
    by (rewrite !length_app; simpl; lia).
  simpl. now rewrite <- !app_assoc.
Qed.

Lemma memset_bytes_app (n : nat) (c : Z) :
  forall (pre rest : list Z),
    (n <= length rest)%nat ->
    memset_bytes n (pre ++ rest) (Z.of_nat (length pre)) c
    = Some (pre ++ repeat c n ++ skipn n rest).
Proof.
  induction n as [|n IH]; intros pre rest H; [reflexivity|].
  destruct rest as [|r rest]; simpl in H; [lia|].
  simpl. rewrite (store8_snoc pre) by reflexivity.
  replace (Z.of_nat (length pre) + 1) with (Z.of_nat (length (pre ++ [c])))
    by (rewrite length_app; simpl; lia).
  rewrite IH by lia. now rewrite <- app_assoc.
Qed.

Lemma memset_app (pre rest : list Z) (n : Z) :
  0 <= n -> (Z.to_nat n <= length rest)%nat ->
  memset (pre ++ rest) (Z.of_nat (length pre)) 0 n
  = Some (pre ++ repeat 0 (Z.to_nat n) ++ skipn (Z.to_nat n) rest).
Proof.
  intros Hn H. unfold memset.
  destruct (n <? 0) eqn:E; [apply Z.ltb_lt in E; lia|].
  now apply memset_bytes_app.
Qed.

Lemma le32_length (w : Z) : length (le32 w) = 4%nat.
Proof. reflexivity. Qed.

(** ** Sequential writers

    [emits m c c' bs]: started with the sample pointers [c] and the output
    pointer anywhere in a buffer with room for [bs], [m] ends with the sample
    pointers [c'], having stored exactly [bs] and moved the output pointer
    past them.  [val] is scratch. *)

Definition at_out (c : Z * Z * Z) (val : Z) (pre rest : list Z) : state :=
  let '(y, u, v) := c in
  mkState y u v val (Z.of_nat (length pre)) (pre ++ rest).

Definition emits (m : state -> option state) (c c' : Z * Z * Z)
    (bs : list Z) : Prop :=
  forall val pre rest,
    (length bs <= length rest)%nat ->
    exists val',
      m (at_out c val pre rest)
      = Some (at_out c' val' (pre ++ bs) (skipn (length bs) rest)).

Lemma at_out_intro (y u v val d : Z) (b pre rest : list Z) :
  d = Z.of_nat (length pre) -> b = pre ++ rest ->
  mkState y u v val d b = at_out (y, u, v) val pre rest.
Proof. intros -> ->. reflexivity. Qed.

Lemma emits_seq (m1 m2 : state -> option state) (c1 c2 c3 : Z * Z * Z)
    (bs1 bs2 : list Z) :
  emits m1 c1 c2 bs1 -> emits m2 c2 c3 bs2 ->
  emits (fun s => s1 <- m1 s ;; m2 s1) c1 c3 (bs1 ++ bs2).
Proof.
  intros H1 H2 val pre rest Hlen. rewrite length_app in Hlen.
  destruct (H1 val pre rest ltac:(lia)) as [val1 E1].
  destruct (H2 val1 (pre ++ bs1) (skipn (length bs1) rest)) as [val2 E2].
  { rewrite length_skipn. lia. }
  exists val2. rewrite E1, E2.
  rewrite skipn_skipn, length_app, <- app_assoc.
  now rewrite (Nat.add_comm (length bs2)).
Qed.

Lemma emits_ext (m1 m2 : state -> option state) (c c' : Z * Z * Z)
    (bs : list Z) :
  (forall s, m1 s = m2 s) -> emits m2 c c' bs -> emits m1 c c' bs.
Proof.
  intros E H val pre rest Hlen. rewrite E. now apply H.
Qed.

Lemma emits_eq (m : state -> option state) (c c1 c2 : Z * Z * Z)
    (bs1 bs2 : list Z) :
  c1 = c2 -> bs1 = bs2 -> emits m c c1 bs1 -> emits m c c2 bs2.
Proof. now intros -> ->. Qed.

(** ** The packing code over an arbitrary field function

    The 10-bit macros insert [CLIP x], the 8-bit macros [CLIP8 x << 2]; both
    are instances of one scheme, proved once. *)

Definition word3 (a b c : Z) : Z :=
  Z.lor a (Z.lor (Z.shiftl b 10) (Z.shiftl c 20)).

Definition field10 (x : Z) : Z := CLIP x.
Definition field8 (x : Z) : Z := Z.shiftl (CLIP8 x) 2.

(** A contiguous range of integers. *)
Fixpoint zseq (start : Z) (n : nat) : list Z :=
  match n with
  | O => []
  | S k => start :: zseq (start + 1) k
  end.

(** Evaluates [component] at a literal index. *)
Ltac eval_consts :=
  repeat match goal with
    | |- context [Z.modulo (Zpos ?a) (Zpos ?b)] =>
        let r := eval vm_compute in (Z.modulo (Zpos a) (Zpos b)) in
        change (Z.modulo (Zpos a) (Zpos b)) with r
    | |- context [Z.div (Zpos ?a) (Zpos ?b)] =>
        let r := eval vm_compute in (Z.div (Zpos a) (Zpos b)) in
        change (Z.div (Zpos a) (Zpos b)) with r
    end;
  change (0 mod 2) with 0; change (0 mod 4) with 0; change (0 / 4) with 0;
  cbn [Z.eqb Pos.eqb]; rewrite ?Z.add_0_r.

Section Scheme.

Variable f : Z -> Z.
Variables Yp Up Vp : plane.

Definition gen_write (a b c : ptr) (s : state) : option state :=
  let (xa, s) := deref_inc Yp Up Vp a s in
  let s := set_val (f xa) s in
  let (xb, s) := deref_inc Yp Up Vp b s in
  let (xc, s) := deref_inc Yp Up Vp c s in
  let s := set_val (Z.lor (st_val s)
                      (Z.lor (Z.shiftl (f xb) 10) (Z.shiftl (f xc) 20))) s in
  flush_val s.

Definition gen_group (s : state) : option state :=
  s <- gen_write Pu Py Pv s ;;
  s <- gen_write Py Pu Py s ;;
  s <- gen_write Pv Py Pu s ;;
  gen_write Py Pv Py s.

Definition gen_tail (width w : Z) (st : state) : option state :=
  st <- (if w <? width - 1 then
           st <- gen_write Pu Py Pv st ;;
           let (xy, st) := deref_inc Yp Up Vp Py st in
           let st := set_val (f xy) st in
           if w =? width - 2 then flush_val st else Some st
         else Some st) ;;
  if w <? width - 3 then
    let (xu, st) := deref_inc Yp Up Vp Pu st in
    let (xy, st) := deref_inc Yp Up Vp Py st in
    let st := set_val (Z.lor (st_val st)
                (Z.lor (Z.shiftl (f xu) 10) (Z.shiftl (f xy) 20))) st in
    st <- flush_val st ;;
    let (xv, st) := deref_inc Yp Up Vp Pv st in
    let (xy, st) := deref_inc Yp Up Vp Py st in
    let st := set_val (Z.lor (f xv) (Z.shiftl (f xy) 10)) st in
    flush_val st
  else Some st.

(** *** What a row holds

    The samples of a row, in the order the format interleaves them:
    U0 Y0 V0 Y1 U1 Y2 V1 Y3 ...; component [c] is luma [c/2] when [c] is odd,
    else Cb or Cr number [c/4]. *)

Definition component (y u v : Z) (c : Z) : Z :=
  if c mod 2 =? 1 then f (Yp (y + c / 2))
  else if c mod 4 =? 0 then f (Up (u + c / 4))
  else f (Vp (v + c / 4)).

(** Field [c] of a row of [width] pixels: past the last sample, zero. *)
Definition field (width y u v : Z) (c : Z) : Z :=
  if c <? 2 * width then component y u v c else 0.

Definition word (width y u v : Z) (k : Z) : Z :=
  word3 (field width y u v (3 * k)) (field width y u v (3 * k + 1))
        (field width y u v (3 * k + 2)).

(** Words [k], [k+1], ..., [k+n-1] of a row, as bytes. *)
Definition words_bytes (width y u v : Z) (k : Z) (n : nat) : list Z :=
  flat_map le32 (map (word width y u v) (zseq k n)).

Definition nwords (width : Z) : Z := (width * 8 + 11) / 12.

Definition row_bytes (width y u v : Z) : list Z :=
  words_bytes width y u v 0 (Z.to_nat (nwords width))
  ++ repeat 0 (Z.to_nat (line_padding_of width)).

Ltac emit_write :=
  let val := fresh "val" in let pre := fresh "pre" in
  let rest := fresh "rest" in let H := fresh "H" in
  intros val pre rest H; eexists;
  unfold gen_write, flush_val; simpl;
  rewrite AV_WL32_app by (simpl in H; lia);
  f_equal; apply at_out_intro;
  [rewrite length_app; simpl; lia | now rewrite <- app_assoc].

Lemma gen_write_uyv (y u v : Z) :
  emits (gen_write Pu Py Pv) (y, u, v) (y + 1, u + 1, v + 1)
    (le32 (word3 (f (Up u)) (f (Yp y)) (f (Vp v)))).
Proof. emit_write. Qed.

Lemma gen_write_yuy (y u v : Z) :
  emits (gen_write Py Pu Py) (y, u, v) (y + 1 + 1, u + 1, v)
    (le32 (word3 (f (Yp y)) (f (Up u)) (f (Yp (y + 1))))).
Proof. emit_write. Qed.

Lemma gen_write_vyu (y u v : Z) :
  emits (gen_write Pv Py Pu) (y, u, v) (y + 1, u + 1, v + 1)
    (le32 (word3 (f (Vp v)) (f (Yp y)) (f (Up u)))).
Proof. emit_write. Qed.

Lemma gen_write_yvy (y u v : Z) :
  emits (gen_write Py Pv Py) (y, u, v) (y + 1 + 1, u, v + 1)
    (le32 (word3 (f (Yp y)) (f (Vp v)) (f (Yp (y + 1))))).
Proof. emit_write. Qed.

(** The four words of a group, from the samples at the pointers. *)
Definition group_words (y u v : Z) : list Z :=
  [word3 (f (Up u)) (f (Yp y)) (f (Vp v));
   word3 (f (Yp (y + 1))) (f (Up (u + 1))) (f (Yp (y + 2)));
   word3 (f (Vp (v + 1))) (f (Yp (y + 3))) (f (Up (u + 2)));
   word3 (f (Yp (y + 4))) (f (Vp (v + 2))) (f (Yp (y + 5)))].

Lemma gen_group_emits (y u v : Z) :
  emits gen_group (y, u, v) (y + 6, u + 3, v + 3)
    (flat_map le32 (group_words y u v)).
Proof.
  unfold gen_group.
  eapply emits_eq;
    [| | eapply emits_seq; [apply gen_write_uyv|];
         eapply emits_seq; [apply gen_write_yuy|];
         eapply emits_seq; [apply gen_write_vyu|];
         apply gen_write_yvy ].
  - f_equal; [f_equal|]; lia.
  - unfold group_words. cbn [flat_map]. rewrite app_nil_r.
    rewrite <- !Z.add_assoc.
    change (1 + 1) with 2. change (1 + 2) with 3.
    change (1 + 3) with 4. change (1 + 4) with 5.
    reflexivity.
Qed.

(** *** A group's words are the row's words at the group's position *)

Lemma component_shift (y u v g r : Z) :
  component y u v (12 * g + r)
  = component (y + 6 * g) (u + 3 * g) (v + 3 * g) r.
Proof.
  unfold component.
  replace ((12 * g + r) mod 2) with (r mod 2)
    by (Z.div_mod_to_equations; lia).
  replace ((12 * g + r) mod 4) with (r mod 4)
    by (Z.div_mod_to_equations; lia).
  replace ((12 * g + r) / 2) with (6 * g + r / 2)
    by (Z.div_mod_to_equations; lia).
  replace ((12 * g + r) / 4) with (3 * g + r / 4)
    by (Z.div_mod_to_equations; lia).
  now rewrite !Z.add_assoc.
Qed.

Lemma field_shift (width y u v g r e : Z) :
  e = 12 * g + r -> 12 * g + r < 2 * width ->
  field width y u v e = component (y + 6 * g) (u + 3 * g) (v + 3 * g) r.
Proof.
  intros -> H. unfold field.
  destruct (12 * g + r <? 2 * width) eqn:E; [|apply Z.ltb_ge in E; lia].
  apply component_shift.
Qed.

Lemma field_past (width y u v e : Z) :
  2 * width <= e -> field width y u v e = 0.
Proof.
  intros H. unfold field.
  destruct (e <? 2 * width) eqn:E; [apply Z.ltb_lt in E; lia|reflexivity].
Qed.

Lemma group_words_word (width y u v g : Z) :
  6 * g + 6 <= width ->
  group_words (y + 6 * g) (u + 3 * g) (v + 3 * g)
  = map (word width y u v) (zseq (4 * g) 4).
Proof.
  intros H. cbn [zseq map]. unfold word.
  rewrite (field_shift width y u v g 0) by lia.
  rewrite (field_shift width y u v g 1) by lia.
  rewrite (field_shift width y u v g 2) by lia.
  rewrite (field_shift width y u v g 3) by lia.
  rewrite (field_shift width y u v g 4) by lia.
  rewrite (field_shift width y u v g 5) by lia.
  rewrite (field_shift width y u v g 6) by lia.
  rewrite (field_shift width y u v g 7) by lia.
  rewrite (field_shift width y u v g 8) by lia.
  rewrite (field_shift width y u v g 9) by lia.
  rewrite (field_shift width y u v g 10) by lia.
  rewrite (field_shift width y u v g 11) by lia.
  unfold component, group_words. eval_consts. reflexivity.
Qed.

Lemma zseq_app (k : Z) (n m : nat) :
  zseq k (n + m) = zseq k n ++ zseq (k + Z.of_nat n) m.
Proof.
  revert k. induction n as [|n IH]; intros k.
  - simpl. now rewrite Z.add_0_r.
  - cbn [Nat.add zseq app]. rewrite IH. do 3 f_equal. lia.
Qed.

Lemma zseq_length (k : Z) (n : nat) : length (zseq k n) = n.
Proof. revert k. induction n; intros k; simpl; auto. Qed.

Lemma words_bytes_app (width y u v k k' : Z) (n m : nat) :
  k' = k + Z.of_nat n ->
  words_bytes width y u v k n ++ words_bytes width y u v k' m
  = words_bytes width y u v k (n + m).
Proof.
  intros ->. unfold words_bytes.
  now rewrite zseq_app, map_app, flat_map_app.
Qed.

Lemma flat_map_le32_length (l : list Z) :
  length (flat_map le32 l) = (4 * length l)%nat.
Proof.
  induction l as [|a l IH]; [reflexivity|].
  cbn [flat_map]. rewrite length_app, IH, le32_length. simpl. lia.
Qed.

Lemma words_bytes_length (width y u v k : Z) (n : nat) :
  length (words_bytes width y u v k n) = (4 * n)%nat.
Proof.
  unfold words_bytes. now rewrite flat_map_le32_length, length_map, zseq_length.
Qed.

(** The sample pointers after [a] groups of a row that starts at [y,u,v]. *)
Definition cur (y u v a : Z) : Z * Z * Z := (y + 6 * a, u + 3 * a, v + 3 * a).

Lemma gen_group_row (width y u v a : Z) :
  6 * a + 6 <= width ->
  emits gen_group (cur y u v a) (cur y u v (a + 1))
    (words_bytes width y u v (4 * a) 4).
Proof.
  intros H. unfold words_bytes. rewrite <- (group_words_word width) by lia.
  eapply emits_eq; [| reflexivity | apply gen_group_emits].
  unfold cur. f_equal; [f_equal|]; lia.
Qed.

Lemma gen_group2_row (width y u v a : Z) :
  6 * a + 12 <= width ->
  emits (fun s => s1 <- gen_group s ;; gen_group s1)
    (cur y u v a) (cur y u v (a + 2))
    (words_bytes width y u v (4 * a) 8).
Proof.
  intros H.
  eapply emits_eq;
    [| | eapply emits_seq;
         [apply (gen_group_row width); lia
         |apply (gen_group_row width y u v (a + 1)); lia] ].
  - f_equal. lia.
  - now rewrite words_bytes_app by lia.
Qed.

(** A loop that packs [k] groups per turn, [n] turns from group [a] on. *)
Lemma block_loop_emits (width y u v lim k : Z) (body : state -> option state) :
  0 < k ->
  (forall a, 6 * (a + k) <= width ->
     emits body (cur y u v a) (cur y u v (a + k))
       (words_bytes width y u v (4 * a) (Z.to_nat (4 * k)))) ->
  forall (n fuel : nat) (a : Z),
    0 <= a ->
    (n < fuel)%nat ->
    6 * (a + k * Z.of_nat n) <= width ->
    6 * (a + k * Z.of_nat n) <= lim ->
    lim < 6 * (a + k * Z.of_nat n) + 6 * k ->
    forall val pre rest,
      (Z.to_nat (16 * k) * n <= length rest)%nat ->
      exists val',
        for_loop fuel (fun w => w <? lim - (6 * k - 1)) (fun w => w + 6 * k)
          (fun _ => body) (6 * a) (at_out (cur y u v a) val pre rest)
        = Some (6 * (a + k * Z.of_nat n),
                at_out (cur y u v (a + k * Z.of_nat n)) val'
                  (pre ++ words_bytes width y u v (4 * a)
                            (Z.to_nat (4 * k) * n))
                  (skipn (Z.to_nat (16 * k) * n) rest)).
Proof.
  intros Hk Hbody. induction n as [|n IH]; intros fuel a Ha Hf Hw Hlo Hhi
    val pre rest Hlen.
  - destruct fuel as [|fuel]; [lia|]. cbn [for_loop].
    destruct (6 * a <? lim - (6 * k - 1)) eqn:E; [apply Z.ltb_lt in E; lia|].
    exists val. rewrite !Nat.mul_0_r. cbn [words_bytes zseq map flat_map skipn].
    rewrite app_nil_r. do 3 f_equal; [| f_equal]; lia.
  - destruct fuel as [|fuel]; [lia|]. cbn [for_loop].
    destruct (6 * a <? lim - (6 * k - 1)) eqn:E; [|apply Z.ltb_ge in E; lia].
    destruct (Hbody a ltac:(nia) val pre rest) as [val1 E1].
    { rewrite words_bytes_length. nia. }
    rewrite E1.
    destruct (IH fuel (a + k) ltac:(lia) ltac:(lia) ltac:(nia) ltac:(nia)
                ltac:(nia) val1
                (pre ++ words_bytes width y u v (4 * a) (Z.to_nat (4 * k)))
                (skipn (length (words_bytes width y u v (4 * a)
                                  (Z.to_nat (4 * k)))) rest))
      as [val2 E2].
    { rewrite length_skipn, words_bytes_length. nia. }
    exists val2.
    replace (6 * a + 6 * k) with (6 * (a + k)) by lia.
    rewrite E2. rewrite skipn_skipn, words_bytes_length, <- app_assoc.
    rewrite words_bytes_app by lia.
    replace (a + k + k * Z.of_nat n) with (a + k * Z.of_nat (S n)) by lia.
    replace (Z.to_nat (4 * k) + Z.to_nat (4 * k) * n)%nat
      with (Z.to_nat (4 * k) * S n)%nat by lia.
    replace (Z.to_nat (16 * k) * n + 4 * Z.to_nat (4 * k))%nat
      with (Z.to_nat (16 * k) * S n)%nat by lia.
    reflexivity.
Qed.

(** *** The scalar tail *)

Lemma word3_0_0 (a : Z) : word3 a 0 0 = a.
Proof. unfold word3. now rewrite !Z.shiftl_0_l, !Z.lor_0_r. Qed.

Lemma word3_0 (a b : Z) : word3 a b 0 = Z.lor a (Z.shiftl b 10).
Proof. unfold word3. now rewrite Z.shiftl_0_l, Z.lor_0_r. Qed.

Lemma tail_words_2 (width y u v q : Z) :
  width = 6 * q + 2 ->
  map (word width y u v) (zseq (4 * q) 2)
  = [word3 (f (Up (u + 3 * q))) (f (Yp (y + 6 * q))) (f (Vp (v + 3 * q)));
     f (Yp (y + 6 * q + 1))].
Proof.
  intros H. cbn [zseq map]. unfold word.
  rewrite (field_shift width y u v q 0) by lia.
  rewrite (field_shift width y u v q 1) by lia.
  rewrite (field_shift width y u v q 2) by lia.
  rewrite (field_shift width y u v q 3) by lia.
  rewrite !field_past by lia. rewrite word3_0_0.
  unfold component. eval_consts. reflexivity.
Qed.

Lemma tail_words_4 (width y u v q : Z) :
  width = 6 * q + 4 ->
  map (word width y u v) (zseq (4 * q) 3)
  = [word3 (f (Up (u + 3 * q))) (f (Yp (y + 6 * q))) (f (Vp (v + 3 * q)));
     word3 (f (Yp (y + 6 * q + 1))) (f (Up (u + 3 * q + 1)))
           (f (Yp (y + 6 * q + 2)));
     Z.lor (f (Vp (v + 3 * q + 1))) (Z.shiftl (f (Yp (y + 6 * q + 3))) 10)].
Proof.
  intros H. cbn [zseq map]. unfold word.
  rewrite (field_shift width y u v q 0) by lia.
  rewrite (field_shift width y u v q 1) by lia.
  rewrite (field_shift width y u v q 2) by lia.
  rewrite (field_shift width y u v q 3) by lia.
  rewrite (field_shift width y u v q 4) by lia.
  rewrite (field_shift width y u v q 5) by lia.
  rewrite (field_shift width y u v q 6) by lia.
  rewrite (field_shift width y u v q 7) by lia.
  rewrite !field_past by lia. rewrite word3_0.
  unfold component. eval_consts. reflexivity.
Qed.

Lemma flush_at_out (c : Z * Z * Z) (val : Z) (pre rest : list Z) :
  (4 <= length rest)%nat ->
  flush_val (at_out c val pre rest)
  = Some (at_out c val (pre ++ le32 val) (skipn 4 rest)).
Proof.
  intros H. destruct c as [[y u] v]. unfold flush_val. cbn [at_out st_buf st_dst
    st_val st_y st_u st_v].
  rewrite AV_WL32_app by assumption. f_equal.
  apply at_out_intro; [rewrite length_app, le32_length; lia
                      | now rewrite <- app_assoc].
Qed.

Lemma at_out_eq (c c' : Z * Z * Z) (val : Z) (pre pre' rest rest' : list Z) :
  c = c' -> pre = pre' -> rest = rest' ->
  at_out c val pre rest = at_out c' val pre' rest'.
Proof. now intros -> -> ->. Qed.

Lemma deref_y (y u v val : Z) (pre rest : list Z) :
  deref_inc Yp Up Vp Py (at_out (y, u, v) val pre rest)
  = (Yp y, at_out (y + 1, u, v) val pre rest).
Proof. reflexivity. Qed.

Lemma deref_u (y u v val : Z) (pre rest : list Z) :
  deref_inc Yp Up Vp Pu (at_out (y, u, v) val pre rest)
  = (Up u, at_out (y, u + 1, v) val pre rest).
Proof. reflexivity. Qed.

Lemma deref_v (y u v val : Z) (pre rest : list Z) :
  deref_inc Yp Up Vp Pv (at_out (y, u, v) val pre rest)
  = (Vp v, at_out (y, u, v + 1) val pre rest).
Proof. reflexivity. Qed.

Lemma set_val_at_out (x : Z) (c : Z * Z * Z) (val : Z) (pre rest : list Z) :
  set_val x (at_out c val pre rest) = at_out c x pre rest.
Proof. now destruct c as [[y u] v]. Qed.

Lemma st_val_at_out (c : Z * Z * Z) (val : Z) (pre rest : list Z) :
  st_val (at_out c val pre rest) = val.
Proof. now destruct c as [[y u] v]. Qed.

(** The tail by the number of samples left at the boundary [w]. *)
Lemma gen_tail_0 (width w y u v : Z) :
  width - w <= 1 -> emits (gen_tail width w) (y, u, v) (y, u, v) [].
Proof.
  intros H val pre rest _. unfold gen_tail.
  destruct (w <? width - 1) eqn:E1; [apply Z.ltb_lt in E1; lia|].
  destruct (w <? width - 3) eqn:E2; [apply Z.ltb_lt in E2; lia|].
  exists val. f_equal. apply at_out_eq; trivial. now rewrite app_nil_r.
Qed.

Lemma gen_tail_2 (width w y u v : Z) :
  width - w = 2 ->
  emits (gen_tail width w) (y, u, v) (y + 2, u + 1, v + 1)
    (flat_map le32
       [word3 (f (Up u)) (f (Yp y)) (f (Vp v));
        f (Yp (y + 1))]).
Proof.
  intros H val pre rest Hlen. rewrite flat_map_le32_length in Hlen.
  cbn [length] in Hlen. unfold gen_tail.
  destruct (w <? width - 1) eqn:E1; [|apply Z.ltb_ge in E1; lia].
  destruct (w <? width - 3) eqn:E2; [apply Z.ltb_lt in E2; lia|].
  destruct (w =? width - 2) eqn:E3; [|apply Z.eqb_neq in E3; lia].
  destruct (gen_write_uyv y u v val pre rest)
    as [val1 W1]; [rewrite le32_length; lia|].
  rewrite W1. cbv beta iota.
  rewrite deref_y. cbv beta iota. rewrite set_val_at_out.
  rewrite flush_at_out by (rewrite length_skipn, le32_length; lia).
  eexists. f_equal. apply at_out_eq.
  - apply f_equal2; [apply f_equal2|]; lia.
  - cbn [flat_map]. now rewrite app_nil_r, <- app_assoc.
  - now rewrite skipn_skipn.
Qed.

Lemma gen_tail_4 (width w y u v : Z) :
  width - w = 4 ->
  emits (gen_tail width w) (y, u, v) (y + 4, u + 2, v + 2)
    (flat_map le32
       [word3 (f (Up u)) (f (Yp y)) (f (Vp v));
        word3 (f (Yp (y + 1))) (f (Up (u + 1))) (f (Yp (y + 2)));
        Z.lor (f (Vp (v + 1))) (Z.shiftl (f (Yp (y + 3))) 10)]).
Proof.
  intros H val pre rest Hlen. rewrite flat_map_le32_length in Hlen.
  cbn [length] in Hlen. unfold gen_tail.
  destruct (w <? width - 1) eqn:E1; [|apply Z.ltb_ge in E1; lia].
  destruct (w <? width - 3) eqn:E2; [|apply Z.ltb_ge in E2; lia].
  destruct (w =? width - 2) eqn:E3; [apply Z.eqb_eq in E3; lia|].
  destruct (gen_write_uyv y u v val pre rest)
    as [val1 W1]; [rewrite le32_length; lia|].
  rewrite W1. cbv beta iota.
  rewrite deref_y. cbv beta iota. rewrite set_val_at_out.
  rewrite deref_u. cbv beta iota. rewrite deref_y. cbv beta iota.
  rewrite set_val_at_out, st_val_at_out.
  rewrite flush_at_out by (rewrite length_skipn, le32_length; lia).
  rewrite deref_v. cbv beta iota. rewrite deref_y. cbv beta iota.
  rewrite set_val_at_out.
  rewrite flush_at_out by (rewrite !length_skipn, le32_length; lia).
  eexists. f_equal. apply at_out_eq.
  - apply f_equal2; [apply f_equal2|]; lia.
  - cbn [flat_map]. rewrite app_nil_r, <- !app_assoc. unfold word3.
    replace (y + 1 + 1) with (y + 2) by lia.
    replace (y + 2 + 1) with (y + 3) by lia.
    reflexivity.
  - now rewrite !skipn_skipn.
Qed.

(** The tail from the boundary [6q], for each remainder of an even width. *)
Lemma gen_tail_emits (width y u v q : Z) (n : nat) :
  (width = 6 * q /\ n = 0%nat) \/ (width = 6 * q + 2 /\ n = 2%nat)
  \/ (width = 6 * q + 4 /\ n = 3%nat) ->
  emits (gen_tail width (6 * q)) (cur y u v q)
    (y + width, u + width / 2, v + width / 2)
    (words_bytes width y u v (4 * q) n).
Proof.
  intros [[Hw ->] | [[Hw ->] | [Hw ->]]]; unfold cur, words_bytes.
  - eapply emits_eq; [| |apply gen_tail_0; lia]; [|reflexivity].
    f_equal; [f_equal|]; (Z.div_mod_to_equations; lia).
  - eapply emits_eq; [| |apply gen_tail_2; lia].
    + f_equal; [f_equal|]; (Z.div_mod_to_equations; lia).
    + now rewrite (tail_words_2 width) by assumption.
  - eapply emits_eq; [| |apply gen_tail_4; lia].
    + f_equal; [f_equal|]; (Z.div_mod_to_equations; lia).
    + now rewrite (tail_words_4 width) by assumption.
Qed.

End Scheme.

(** ** The macros and loops of the source as instances of the scheme *)

Lemma for_loop_ext {S : Type} (cond : Z -> bool) (next : Z -> Z)
    (b1 b2 : Z -> S -> option S) :
  (forall i s, b1 i s = b2 i s) ->
  forall fuel i s,
    for_loop fuel cond next b1 i s = for_loop fuel cond next b2 i s.
Proof.
  intros E. induction fuel as [|fuel IH]; intros i s; [reflexivity|].
  cbn [for_loop]. destruct (cond i); [|reflexivity].
  rewrite E. destruct (b2 i s); [apply IH|reflexivity].
Qed.

Section Instances.

Variables Yp Up Vp : plane.

Lemma WRITE_PIXELS_gen (a b c : ptr) (s : state) :
  WRITE_PIXELS Yp Up Vp a b c s = gen_write field10 Yp Up Vp a b c s.
Proof. reflexivity. Qed.

Lemma WRITE_PIXELS8_gen (a b c : ptr) (s : state) :
  WRITE_PIXELS8 Yp Up Vp a b c s = gen_write field8 Yp Up Vp a b c s.
Proof.
  unfold WRITE_PIXELS8, gen_write, field8.
  destruct (deref_inc Yp Up Vp a s) as [xa s1].
  destruct (deref_inc Yp Up Vp b (set_val _ s1)) as [xb s2].
  destruct (deref_inc Yp Up Vp c s2) as [xc s3].
  now rewrite !Z.shiftl_shiftl by lia.
Qed.

Lemma group6_gen (s : state) :
  group6 Yp Up Vp s = gen_group field10 Yp Up Vp s.
Proof. reflexivity. Qed.

Lemma group6_8_gen (s : state) :
  group6_8 Yp Up Vp s = gen_group field8 Yp Up Vp s.
Proof.
  unfold group6_8, gen_group.
  rewrite WRITE_PIXELS8_gen.
  destruct (gen_write field8 Yp Up Vp Pu Py Pv s) as [s1|]; [|reflexivity].
  rewrite WRITE_PIXELS8_gen.
  destruct (gen_write field8 Yp Up Vp Py Pu Py s1) as [s2|]; [|reflexivity].
  rewrite WRITE_PIXELS8_gen.
  destruct (gen_write field8 Yp Up Vp Pv Py Pu s2) as [s3|]; [|reflexivity].
  apply WRITE_PIXELS8_gen.
Qed.

Lemma group12_8_gen (s : state) :
  group12_8 Yp Up Vp s
  = (s1 <- gen_group field8 Yp Up Vp s ;; gen_group field8 Yp Up Vp s1).
Proof.
  unfold group12_8. rewrite group6_8_gen.
  destruct (gen_group field8 Yp Up Vp s); [apply group6_8_gen|reflexivity].
Qed.

(** *** The bulk packers

    On a count of [6n] samples the 10-bit loop stores the [4n] words of [n]
    groups; on [12n] samples the 8-bit loop stores [8n] words.  [width] is
    the width of the row the samples are part of. *)

Lemma pack_10_loop_run (width y u v n : Z) (val : Z) (pre rest : list Z) :
  0 <= n -> 6 * n <= width ->
  (Z.to_nat (16 * n) <= length rest)%nat ->
  exists val',
    v210_planar_pack_10_loop Yp Up Vp (at_out (y, u, v) val pre rest) (6 * n)
    = Some (6 * n,
            at_out (cur y u v n) val'
              (pre ++ words_bytes field10 Yp Up Vp width y u v 0
                        (Z.to_nat (4 * n)))
              (skipn (Z.to_nat (16 * n)) rest)).
Proof.
  intros Hn Hw Hlen. unfold v210_planar_pack_10_loop.
  destruct (block_loop_emits field10 Yp Up Vp width y u v (6 * n) 1
              (gen_group field10 Yp Up Vp) ltac:(lia)
              (fun a H => gen_group_row field10 Yp Up Vp width y u v a
                            ltac:(lia))
              (Z.to_nat n) (fuel_for 0 (6 * n)) 0 ltac:(lia)
              ltac:(unfold fuel_for; lia) ltac:(lia) ltac:(lia) ltac:(lia)
              val pre rest ltac:(lia))
    as [val' E].
  exists val'.
  replace (at_out (y, u, v) val pre rest)
    with (at_out (cur y u v 0) val pre rest)
    by (apply at_out_eq; trivial; unfold cur; f_equal; [f_equal|]; lia).
  change (6 * 1 - 1) with 5 in E. change (6 * 1) with 6 in E.
  change (6 * 0) with 0 in E.
  rewrite (for_loop_ext _ _ _ (fun _ => gen_group field10 Yp Up Vp))
    by (intros; apply group6_gen).
  rewrite E.
  replace (0 + 1 * Z.of_nat (Z.to_nat n)) with n by lia.
  change (4 * 0) with 0.
  replace (Z.to_nat (4 * 1) * Z.to_nat n)%nat with (Z.to_nat (4 * n)) by lia.
  replace (Z.to_nat (16 * 1) * Z.to_nat n)%nat with (Z.to_nat (16 * n)) by lia.
  reflexivity.
Qed.

Lemma pack_8_loop_run (width y u v n : Z) (val : Z) (pre rest : list Z) :
  0 <= n -> 12 * n <= width ->
  (Z.to_nat (32 * n) <= length rest)%nat ->
  exists val',
    v210_planar_pack_8_loop Yp Up Vp (at_out (y, u, v) val pre rest) (12 * n)
    = Some (12 * n,
            at_out (cur y u v (2 * n)) val'
              (pre ++ words_bytes field8 Yp Up Vp width y u v 0
                        (Z.to_nat (8 * n)))
              (skipn (Z.to_nat (32 * n)) rest)).
Proof.
  intros Hn Hw Hlen. unfold v210_planar_pack_8_loop.
  destruct (block_loop_emits field8 Yp Up Vp width y u v (12 * n) 2
              (fun s => s1 <- gen_group field8 Yp Up Vp s ;;
                        gen_group field8 Yp Up Vp s1) ltac:(lia)
              (fun a H => gen_group2_row field8 Yp Up Vp width y u v a
                            ltac:(lia))
              (Z.to_nat n) (fuel_for 0 (12 * n)) 0 ltac:(lia)
              ltac:(unfold fuel_for; lia) ltac:(lia) ltac:(lia) ltac:(lia)
              val pre rest ltac:(lia))
    as [val' E].
  exists val'.
  replace (at_out (y, u, v) val pre rest)
    with (at_out (cur y u v 0) val pre rest)
    by (apply at_out_eq; trivial; unfold cur; f_equal; [f_equal|]; lia).
  change (6 * 2 - 1) with 11 in E. change (6 * 2) with 12 in E.
  change (6 * 0) with 0 in E.
  rewrite (for_loop_ext _ _ _
             (fun _ s => s1 <- gen_group field8 Yp Up Vp s ;;
                         gen_group field8 Yp Up Vp s1))
    by (intros; apply group12_8_gen).
  rewrite E.
  replace (0 + 2 * Z.of_nat (Z.to_nat n)) with (2 * n) by lia.
  change (4 * 0) with 0.
  replace (Z.to_nat (4 * 2) * Z.to_nat n)%nat with (Z.to_nat (8 * n)) by lia.
  replace (Z.to_nat (16 * 2) * Z.to_nat n)%nat with (Z.to_nat (32 * n)) by lia.
  replace (12 * n) with (6 * (2 * n)) at 1 by lia.
  reflexivity.
Qed.

End Instances.

(** ** A whole row *)

Lemma even_width_cases (W : Z) :
  0 <= W -> W mod 2 = 0 ->
  (W = 6 * (W / 6) /\ nwords W = 4 * (W / 6))
  \/ (W = 6 * (W / 6) + 2 /\ nwords W = 4 * (W / 6) + 2)
  \/ (W = 6 * (W / 6) + 4 /\ nwords W = 4 * (W / 6) + 3).
Proof.
  intros H0 He. unfold nwords. Z.div_mod_to_equations. lia.
Qed.

Section Rows.

Variable f : Z -> Z.
Variables Yp Up Vp : plane.
Variable W : Z.
Hypothesis W_nonneg : 0 <= W.
Hypothesis W_even : W mod 2 = 0.

(** The scalar part of a row: the group loop from the end of the bulk, then
    the tail. *)
Definition scalar_part (w0 : Z) (st : state) : option state :=
  r <- for_loop (fuel_for w0 W) (fun w => w <? W - 5) (fun w => w + 6)
         (fun _ => gen_group f Yp Up Vp) w0 st ;;
  gen_tail f Yp Up Vp W (fst r) (snd r).

Lemma scalar_part_emits (y u v nb : Z) :
  0 <= nb -> 6 * nb <= W ->
  emits (scalar_part (6 * nb)) (cur y u v nb) (y + W, u + W / 2, v + W / 2)
    (words_bytes f Yp Up Vp W y u v (4 * nb) (Z.to_nat (nwords W - 4 * nb))).
Proof.
  intros Hnb Hle val pre rest Hlen. rewrite words_bytes_length in Hlen.
  set (q := W / 6).
  assert (Hq : 6 * q <= W < 6 * q + 6)
    by (unfold q; Z.div_mod_to_equations; lia).
  pose proof (even_width_cases W W_nonneg W_even) as Hc. fold q in Hc.
  assert (Hnq : nb <= q) by lia.
  set (nt := Z.to_nat (nwords W - 4 * q)).
  assert (Hsplit : Z.to_nat (nwords W - 4 * nb)
                   = (Z.to_nat (4 * 1) * Z.to_nat (q - nb) + nt)%nat)
    by (unfold nt; lia).
  destruct (block_loop_emits f Yp Up Vp W y u v W 1 (gen_group f Yp Up Vp)
              ltac:(lia)
              (fun a H => gen_group_row f Yp Up Vp W y u v a ltac:(lia))
              (Z.to_nat (q - nb)) (fuel_for (6 * nb) W) nb Hnb
              ltac:(unfold fuel_for; lia) ltac:(lia) ltac:(lia) ltac:(lia)
              val pre rest ltac:(lia))
    as [val1 E1].
  change (6 * 1 - 1) with 5 in E1. change (6 * 1) with 6 in E1.
  replace (nb + 1 * Z.of_nat (Z.to_nat (q - nb))) with q in E1 by lia.
  unfold scalar_part. rewrite E1. cbn [fst snd].
  destruct (gen_tail_emits f Yp Up Vp W y u v q nt) with (val := val1)
    (pre := pre ++ words_bytes f Yp Up Vp W y u v (4 * nb)
                     (Z.to_nat (4 * 1) * Z.to_nat (q - nb)))
    (rest := skipn (Z.to_nat (16 * 1) * Z.to_nat (q - nb)) rest)
    as [val2 E2].
  { unfold nt.
    destruct Hc as [[? ?]|[[? ?]|[? ?]]]; [left|right; left|right; right];
      split; trivial; lia. }
  { rewrite words_bytes_length, length_skipn. lia. }
  exists val2. rewrite E2. f_equal. apply at_out_eq; trivial.
  - rewrite <- app_assoc, words_bytes_app by lia. now rewrite Hsplit.
  - rewrite skipn_skipn, !words_bytes_length. f_equal. lia.
Qed.

(** The zero fill at the end of the line. *)
Definition pad_with (n : Z) (st : state) : option state :=
  b <- memset (st_buf st) (st_dst st) 0 n ;;
  Some (mkState (st_y st) (st_u st) (st_v st) (st_val st) (st_dst st + n) b).

Lemma pad_with_emits (n : Z) (c : Z * Z * Z) :
  0 <= n -> emits (pad_with n) c c (repeat 0 (Z.to_nat n)).
Proof.
  intros Hn val pre rest Hlen. rewrite repeat_length in Hlen.
  exists val. destruct c as [[y u] v]. unfold pad_with.
  cbn [at_out st_buf st_dst st_val st_y st_u st_v].
  rewrite memset_app by assumption. f_equal. rewrite repeat_length.
  apply at_out_intro; [rewrite length_app, repeat_length; lia
                      | now rewrite <- app_assoc].
Qed.

(** The step to the next row of the planes. *)
Definition advance (dy du dv : Z) (st : state) : option state :=
  Some (mkState (st_y st + dy) (st_u st + du) (st_v st + dv)
          (st_val st) (st_dst st) (st_buf st)).

Lemma advance_emits (dy du dv y u v : Z) :
  emits (advance dy du dv) (y, u, v) (y + dy, u + du, v + dv) [].
Proof.
  intros val pre rest _. exists val. unfold advance. f_equal.
  cbn [at_out st_buf st_dst st_val st_y st_u st_v].
  apply at_out_intro; [now rewrite app_nil_r|].
  cbn [skipn length]. now rewrite app_nil_r.
Qed.

End Rows.

(** ** Line geometry *)

Lemma stride_of_eq (W : Z) :
  0 <= W -> stride_of W = 128 * ((W + 47) / 48).
Proof.
  intros H. unfold stride_of, aligned_width_of.
  rewrite (Z.quot_div_nonneg (W + 47) 48) by lia.
  rewrite Z.quot_div_nonneg by (Z.div_mod_to_equations; lia).
  Z.div_mod_to_equations. lia.
Qed.

Lemma line_padding_of_eq (W : Z) :
  0 <= W -> line_padding_of W = stride_of W - 4 * nwords W.
Proof.
  intros H. unfold line_padding_of, nwords.
  rewrite (Z.quot_div_nonneg (W * 8 + 11)) by lia. lia.
Qed.

Lemma line_padding_nonneg (W : Z) : 0 <= W -> 0 <= line_padding_of W.
Proof.
  intros H. rewrite line_padding_of_eq, stride_of_eq by assumption.
  unfold nwords. Z.div_mod_to_equations. lia.
Qed.

Lemma row_bytes_length (f : Z -> Z) (Yp Up Vp : plane) (W y u v : Z) :
  0 <= W ->
  length (row_bytes f Yp Up Vp W y u v) = Z.to_nat (stride_of W).
Proof.
  intros H. unfold row_bytes.
  rewrite length_app, words_bytes_length, repeat_length.
  pose proof (line_padding_nonneg W H).
  rewrite line_padding_of_eq in * by assumption.
  assert (0 <= nwords W) by (unfold nwords; Z.div_mod_to_equations; lia).
  lia.
Qed.

(** ** The packer contract

    [encode_frame] reaches the bulk packer through the context, where an
    architecture may have put its own routine and sample factor.  All the
    frame encoder needs is that the routine does what the C one does on the
    counts it is called with. *)

Definition packer_ok (s : V210EncContext) : Prop :=
  0 < sample_factor_8 s /\ 0 < sample_factor_10 s /\
  (forall Yp Up Vp y u v dst buf n, 0 <= n ->
     pack_line_8 s Yp Up Vp y u v dst buf (n * (12 * sample_factor_8 s))
     = v210_planar_pack_8_c Yp Up Vp y u v dst buf
         (n * (12 * sample_factor_8 s))) /\
  (forall Yp Up Vp y u v dst buf n, 0 <= n ->
     pack_line_10 s Yp Up Vp y u v dst buf (n * (6 * sample_factor_10 s))
     = v210_planar_pack_10_c Yp Up Vp y u v dst buf
         (n * (6 * sample_factor_10 s))).

Lemma packer_ok_c :
  packer_ok (mkV210EncContext v210_planar_pack_8_c v210_planar_pack_10_c 1 1).
Proof. repeat split; cbn; lia. Qed.

Lemma ff_v210enc_init_ok (x86 : V210EncContext -> V210EncContext)
    (s : V210EncContext) :
  packer_ok (ff_v210enc_init false x86 s).
Proof. apply packer_ok_c. Qed.

(** ** The rows of [encode_frame] *)

Lemma st_buf_at_out (c : Z * Z * Z) (val : Z) (pre rest : list Z) :
  st_buf (at_out c val pre rest) = pre ++ rest.
Proof. now destruct c as [[y u] v]. Qed.

Lemma shiftr1_6 (n : Z) : Z.shiftr (6 * n) 1 = 3 * n.
Proof.
  rewrite Z.shiftr_div_pow2 by lia. change (2 ^ 1) with 2.
  Z.div_mod_to_equations. lia.
Qed.

Lemma quot_bulk (W g : Z) :
  0 <= W -> 0 < g -> 0 <= Z.quot W g /\ Z.quot W g * g <= W.
Proof.
  intros HW Hg. rewrite Z.quot_div_nonneg by lia. split.
  - apply Z.div_pos; lia.
  - rewrite Z.mul_comm. apply Z.mul_div_le. lia.
Qed.

Section FrameRows.

Variable avctx : AVCodecContext.
Variable pic : AVFrame.

Let s := priv_data avctx.
Let W := width avctx.
Let Yp := data pic 0.
Let Up := data pic 1.
Let Vp := data pic 2.

Hypothesis Hpack : packer_ok s.
Hypothesis W_nonneg : 0 <= W.
Hypothesis W_even : W mod 2 = 0.

(** The first statements of a 10-bit row: the bulk packer and the pointer
    updates after it. *)
Definition bulk_10 (sw : Z) (st : state) : option state :=
  b <- pack_line_10 s Yp Up Vp (st_y st) (st_u st) (st_v st) (st_dst st)
         (st_buf st) (sw * (6 * sample_factor_10 s)) ;;
  Some (mkState (st_y st + sw * (6 * sample_factor_10 s))
          (st_u st + Z.shiftr (sw * (6 * sample_factor_10 s)) 1)
          (st_v st + Z.shiftr (sw * (6 * sample_factor_10 s)) 1) (st_val st)
          (st_dst st + sw * 16 * sample_factor_10 s) b).

Definition bulk_8 (sw : Z) (st : state) : option state :=
  b <- pack_line_8 s Yp Up Vp (st_y st) (st_u st) (st_v st) (st_dst st)
         (st_buf st) (sw * (12 * sample_factor_8 s)) ;;
  Some (mkState (st_y st + sw * (12 * sample_factor_8 s))
          (st_u st + Z.shiftr (sw * (12 * sample_factor_8 s)) 1)
          (st_v st + Z.shiftr (sw * (12 * sample_factor_8 s)) 1) (st_val st)
          (st_dst st + sw * 32 * sample_factor_8 s) b).

Lemma bulk_10_emits (sw y u v : Z) :
  0 <= sw -> sw * (6 * sample_factor_10 s) <= W ->
  emits (bulk_10 sw) (y, u, v) (cur y u v (sw * sample_factor_10 s))
    (words_bytes field10 Yp Up Vp W y u v 0
       (Z.to_nat (4 * (sw * sample_factor_10 s)))).
Proof.
  intros Hsw Hle val pre rest Hlen. rewrite words_bytes_length in Hlen.
  destruct Hpack as (_ & HF & _ & H10).
  exists val. unfold bulk_10.
  cbn [at_out st_buf st_dst st_val st_y st_u st_v].
  rewrite H10 by assumption. unfold v210_planar_pack_10_c.
  set (nb := sw * sample_factor_10 s) in *.
  assert (Hnb : 0 <= nb) by (unfold nb; nia).
  replace (sw * (6 * sample_factor_10 s)) with (6 * nb) in *
    by (unfold nb; lia).
  destruct (pack_10_loop_run Yp Up Vp W y u v nb 0 pre rest Hnb Hle
              ltac:(lia)) as [val' E].
  change (mkState y u v 0 (Z.of_nat (length pre)) (pre ++ rest))
    with (at_out (y, u, v) 0 pre rest).
  rewrite E. cbn [snd]. rewrite st_buf_at_out, shiftr1_6. f_equal.
  unfold cur. apply at_out_intro.
  - rewrite length_app, words_bytes_length. unfold nb in *. lia.
  - rewrite words_bytes_length. do 2 f_equal. lia.
Qed.

Lemma bulk_8_emits (sw y u v : Z) :
  0 <= sw -> sw * (12 * sample_factor_8 s) <= W ->
  emits (bulk_8 sw) (y, u, v) (cur y u v (2 * (sw * sample_factor_8 s)))
    (words_bytes field8 Yp Up Vp W y u v 0
       (Z.to_nat (4 * (2 * (sw * sample_factor_8 s))))).
Proof.
  intros Hsw Hle val pre rest Hlen. rewrite words_bytes_length in Hlen.
  destruct Hpack as (HF & _ & H8 & _).
  exists val. unfold bulk_8.
  cbn [at_out st_buf st_dst st_val st_y st_u st_v].
  rewrite H8 by assumption. unfold v210_planar_pack_8_c.
  set (nb := sw * sample_factor_8 s) in *.
  assert (Hnb : 0 <= nb) by (unfold nb; nia).
  replace (sw * (12 * sample_factor_8 s)) with (12 * nb) in *
    by (unfold nb; lia).
  destruct (pack_8_loop_run Yp Up Vp W y u v nb 0 pre rest Hnb Hle
              ltac:(lia)) as [val' E].
  change (mkState y u v 0 (Z.of_nat (length pre)) (pre ++ rest))
    with (at_out (y, u, v) 0 pre rest).
  rewrite E. cbn [snd]. rewrite st_buf_at_out.
  replace (12 * nb) with (6 * (2 * nb)) by lia. rewrite shiftr1_6. f_equal.
  unfold cur. apply at_out_intro.
  - replace (Z.to_nat (8 * nb)) with (Z.to_nat (4 * (2 * nb))) by lia.
    rewrite length_app, words_bytes_length. unfold nb in *. lia.
  - replace (Z.to_nat (8 * nb)) with (Z.to_nat (4 * (2 * nb))) by lia.
    rewrite words_bytes_length. do 2 f_equal. lia.
Qed.

(** A row performs: bulk, scalar part, padding, step to the next row. *)
Lemma row_10_steps (st : state) :
  row_10 avctx pic (6 * sample_factor_10 s)
    (Z.quot W (6 * sample_factor_10 s)) st
  = (st <- bulk_10 (Z.quot W (6 * sample_factor_10 s)) st ;;
     st <- scalar_part field10 Yp Up Vp W
             (Z.quot W (6 * sample_factor_10 s) * (6 * sample_factor_10 s))
             st ;;
     st <- pad_with (line_padding_of W) st ;;
     advance (Z.quot (linesize pic 0) 2 - W)
       (Z.quot (linesize pic 1) 2 - Z.quot W 2)
       (Z.quot (linesize pic 2) 2 - Z.quot W 2) st).
Proof.
  unfold row_10, bulk_10, scalar_part. fold s W Yp Up Vp.
  destruct (pack_line_10 s Yp Up Vp _ _ _ _ _ _) as [b|]; [|reflexivity].
  cbv zeta.
  destruct (for_loop _ _ _ _ _ _) as [[w st1]|]; [|reflexivity].
  reflexivity.
Qed.

Lemma row_10_emits (y u v : Z) :
  emits (row_10 avctx pic (6 * sample_factor_10 s)
           (Z.quot W (6 * sample_factor_10 s)))
    (y, u, v)
    (y + Z.quot (linesize pic 0) 2, u + Z.quot (linesize pic 1) 2,
     v + Z.quot (linesize pic 2) 2)
    (row_bytes field10 Yp Up Vp W y u v).
Proof.
  destruct Hpack as (_ & HF & _ & _).
  destruct (quot_bulk W (6 * sample_factor_10 s) W_nonneg ltac:(lia))
    as [Hsw Hle].
  set (sw := Z.quot W (6 * sample_factor_10 s)) in *.
  assert (Hnb : 0 <= sw * sample_factor_10 s) by nia.
  eapply emits_ext; [apply row_10_steps|]. fold sw.
  eapply emits_eq;
    [| | eapply emits_seq; [apply (bulk_10_emits sw y u v Hsw Hle)|];
         eapply emits_seq;
           [replace (sw * (6 * sample_factor_10 s))
              with (6 * (sw * sample_factor_10 s)) by lia;
            apply (scalar_part_emits field10 Yp Up Vp W W_nonneg W_even
                     y u v (sw * sample_factor_10 s) Hnb); lia|];
         eapply emits_seq;
           [apply (pad_with_emits (line_padding_of W));
            apply line_padding_nonneg; assumption|];
         apply advance_emits ].
  - rewrite (Z.quot_div_nonneg W 2) by lia. f_equal; [f_equal|]; lia.
  - rewrite app_nil_r, app_assoc, words_bytes_app by lia. unfold row_bytes.
    do 2 f_equal.
    assert (4 * (sw * sample_factor_10 s) <= nwords W)
      by (unfold nwords; Z.div_mod_to_equations; lia).
    lia.
Qed.

Lemma tail_8_gen (w : Z) (st : state) :
  tail_8 avctx pic w st = gen_tail field8 Yp Up Vp W w st.
Proof.
  unfold tail_8, gen_tail, field8. fold W Yp Up Vp. cbv zeta.
  rewrite WRITE_PIXELS8_gen. fold field8.
  destruct (w <? W - 1), (w <? W - 3), (w =? W - 2);
    try reflexivity;
    try (destruct (gen_write field8 Yp Up Vp Pu Py Pv st) as [st1|];
         [|reflexivity];
         destruct (deref_inc Yp Up Vp Py st1) as [xy st2]; unfold field8;
         try reflexivity;
         try (destruct (flush_val (set_val (Z.shiftl (CLIP8 xy) 2) st2))
                as [st3|]; [|reflexivity]));
    match goal with
    | |- context [deref_inc Yp Up Vp Pu ?t] =>
        destruct (deref_inc Yp Up Vp Pu t) as [xu st4];
        destruct (deref_inc Yp Up Vp Py st4) as [xy' st5];
        rewrite !Z.shiftl_shiftl by lia; change (2 + 10) with 12;
        change (2 + 20) with 22;
        destruct (flush_val _) as [st6|]; [|reflexivity];
        destruct (deref_inc Yp Up Vp Pv st6) as [xv st7];
        destruct (deref_inc Yp Up Vp Py st7) as [xy'' st8];
        rewrite ?Z.shiftl_shiftl by lia; reflexivity
    end.
Qed.

(** An 8-bit row after the chroma selection. *)
Definition row_8_core (st : state) : option state :=
  st <- bulk_8 (Z.quot W (12 * sample_factor_8 s)) st ;;
  st <- scalar_part field8 Yp Up Vp W
          (Z.quot W (12 * sample_factor_8 s) * (12 * sample_factor_8 s)) st ;;
  st <- pad_with (line_padding_of W) st ;;
  advance (linesize pic 0 - W) (linesize pic 1 - Z.quot W 2)
    (linesize pic 2 - Z.quot W 2) st.

Lemma row_8_steps (h : Z) (t : state8) :
  row_8 avctx pic (12 * sample_factor_8 s) (Z.quot W (12 * sample_factor_8 s))
    h t
  = (st <- row_8_core (fst (fst (select_chroma pic h t))) ;;
     Some (st, snd (fst (select_chroma pic h t)),
           snd (select_chroma pic h t))).
Proof.
  unfold row_8, row_8_core, bulk_8, scalar_part. fold s W Yp Up Vp.
  destruct (select_chroma pic h t) as [[st ue] ve]. cbn [fst snd]. cbv zeta.
  destruct (pack_line_8 s Yp Up Vp _ _ _ _ _ _) as [b|]; [|reflexivity].
  destruct (for_loop _ _ _ _ _ _) as [[w st1]|]; [|reflexivity].
  cbn [fst snd]. rewrite tail_8_gen.
  destruct (gen_tail field8 Yp Up Vp W w st1) as [st2|]; [|reflexivity].
  change (pad_line avctx st2) with (pad_with (line_padding_of W) st2).
  destruct (pad_with (line_padding_of W) st2) as [st3|]; reflexivity.
Qed.

Lemma row_8_core_emits (y u v : Z) :
  emits row_8_core (y, u, v)
    (y + linesize pic 0, u + linesize pic 1, v + linesize pic 2)
    (row_bytes field8 Yp Up Vp W y u v).
Proof.
  destruct Hpack as (HF & _ & _ & _).
  destruct (quot_bulk W (12 * sample_factor_8 s) W_nonneg ltac:(lia))
    as [Hsw Hle].
  set (sw := Z.quot W (12 * sample_factor_8 s)) in *.
  assert (Hnb : 0 <= 2 * (sw * sample_factor_8 s)) by nia.
  unfold row_8_core. fold sw.
  eapply emits_eq;
    [| | eapply emits_seq; [apply (bulk_8_emits sw y u v Hsw Hle)|];
         eapply emits_seq;
           [replace (sw * (12 * sample_factor_8 s))
              with (6 * (2 * (sw * sample_factor_8 s))) by lia;
            apply (scalar_part_emits field8 Yp Up Vp W W_nonneg W_even
                     y u v (2 * (sw * sample_factor_8 s)) Hnb); lia|];
         eapply emits_seq;
           [apply (pad_with_emits (line_padding_of W));
            apply line_padding_nonneg; assumption|];
         apply advance_emits ].
  - rewrite (Z.quot_div_nonneg W 2) by lia. f_equal; [f_equal|]; lia.
  - rewrite app_nil_r, app_assoc, words_bytes_app by lia. unfold row_bytes.
    do 2 f_equal.
    assert (4 * (2 * (sw * sample_factor_8 s)) <= nwords W)
      by (unfold nwords; Z.div_mod_to_equations; lia).
    lia.
Qed.

End FrameRows.

(** ** Chroma rows of the 8-bit formats *)

(** The chroma line that output row [h] is packed from. *)
Definition chroma_row (pic : AVFrame) (h : Z) : Z :=
  match format pic with
  | AV_PIX_FMT_YUV420P =>
      if interlaced_frame pic =? 1 then 2 * (h / 4) + h mod 2 else h / 2
  | _ => h
  end.

(** [select_chroma] on one of the two chroma pointers: the pointer to pack
    from and the remembered one. *)
Definition select1 (pic : AVFrame) (h p pe : Z) : Z * Z :=
  match format pic with
  | AV_PIX_FMT_YUV420P =>
      if interlaced_frame pic =? 1 then
        if Z.rem h 4 =? 0 then (p, p)
        else if Z.rem h 4 =? 2 then (pe, pe)
        else (p, pe)
      else
        if Z.rem h 2 =? 1 then (pe, pe) else (p, p)
  | _ => (p, pe)
  end.

Lemma select_chroma_select1 (pic : AVFrame) (h y u v val d : Z)
    (b : list Z) (ue ve : Z) :
  select_chroma pic h (mkState y u v val d b, ue, ve)
  = (mkState y (fst (select1 pic h u ue)) (fst (select1 pic h v ve)) val d b,
     snd (select1 pic h u ue), snd (select1 pic h v ve)).
Proof.
  unfold select_chroma, select1.
  destruct (format pic); try reflexivity.
  destruct (interlaced_frame pic =? 1).
  - destruct (Z.rem h 4 =? 0); [reflexivity|].
    destruct (Z.rem h 4 =? 2); reflexivity.
  - destruct (Z.rem h 2 =? 1); reflexivity.
Qed.

Lemma select_chroma_at_out (pic : AVFrame) (h y u v val : Z)
    (pre rest : list Z) (ue ve : Z) :
  select_chroma pic h (at_out (y, u, v) val pre rest, ue, ve)
  = (at_out (y, fst (select1 pic h u ue), fst (select1 pic h v ve)) val
       pre rest,
     snd (select1 pic h u ue), snd (select1 pic h v ve)).
Proof. apply select_chroma_select1. Qed.

(** What the row loop maintains about a chroma pointer [p] and its
    remembered value [pe] at the head of row [h]; [ls] is the line size. *)
Definition chroma_inv (pic : AVFrame) (ls h p pe : Z) : Prop :=
  match format pic with
  | AV_PIX_FMT_YUV420P =>
      if interlaced_frame pic =? 1 then
        (h mod 4 = 0 -> p = 2 * (h / 4) * ls) /\
        (h mod 4 = 1 -> p = (2 * (h / 4) + 1) * ls /\ pe = 2 * (h / 4) * ls) /\
        (h mod 4 = 2 -> pe = 2 * (h / 4) * ls) /\
        (h mod 4 = 3 -> p = (2 * (h / 4) + 1) * ls)
      else
        (h mod 2 = 0 -> p = h / 2 * ls) /\
        (h mod 2 = 1 -> pe = h / 2 * ls)
  | _ => p = h * ls
  end.

Lemma chroma_inv_0 (pic : AVFrame) (ls : Z) : chroma_inv pic ls 0 0 0.
Proof.
  unfold chroma_inv. destruct (format pic); try reflexivity.
  change (0 / 4) with 0. change (0 / 2) with 0.
  change (0 mod 4) with 0. change (0 mod 2) with 0.
  destruct (interlaced_frame pic =? 1); repeat split; intros; lia.
Qed.

Lemma chroma_inv_step (pic : AVFrame) (ls h p pe : Z) :
  0 <= h -> chroma_inv pic ls h p pe ->
  fst (select1 pic h p pe) = chroma_row pic h * ls /\
  chroma_inv pic ls (h + 1) (fst (select1 pic h p pe) + ls)
    (snd (select1 pic h p pe)).
Proof.
  intros Hh. unfold chroma_inv, select1, chroma_row.
  rewrite !Z.rem_mod_nonneg by lia.
  destruct (format pic);
    try (intros E; cbn [fst snd]; subst p; split; lia).
  destruct (interlaced_frame pic =? 1).
  - intros (I0 & I1 & I2 & I3).
    assert (C : h mod 4 = 0 \/ h mod 4 = 1 \/ h mod 4 = 2 \/ h mod 4 = 3)
      by (Z.div_mod_to_equations; lia).
    destruct C as [C|[C|[C|C]]]; rewrite C; cbn [Z.eqb Pos.eqb fst snd].
    + specialize (I0 C).
      assert ((h + 1) mod 4 = 1 /\ (h + 1) / 4 = h / 4 /\ h mod 2 = 0)
        as (M & D & P) by (Z.div_mod_to_equations; lia).
      rewrite M, D, P. split; [lia|]. repeat split; intros; lia.
    + destruct (I1 C) as [Ip Ie].
      assert ((h + 1) mod 4 = 2 /\ (h + 1) / 4 = h / 4 /\ h mod 2 = 1)
        as (M & D & P) by (Z.div_mod_to_equations; lia).
      rewrite M, D, P. split; [lia|]. repeat split; intros; lia.
    + specialize (I2 C).
      assert ((h + 1) mod 4 = 3 /\ (h + 1) / 4 = h / 4 /\ h mod 2 = 0)
        as (M & D & P) by (Z.div_mod_to_equations; lia).
      rewrite M, D, P. split; [lia|]. repeat split; intros; lia.
    + specialize (I3 C).
      assert ((h + 1) mod 4 = 0 /\ (h + 1) / 4 = h / 4 + 1 /\ h mod 2 = 1)
        as (M & D & P) by (Z.div_mod_to_equations; lia).
      rewrite M, D, P. split; [lia|]. repeat split; intros; lia.
  - intros (I0 & I1).
    assert (C : h mod 2 = 0 \/ h mod 2 = 1)
      by (Z.div_mod_to_equations; lia).
    destruct C as [C|C]; rewrite C; cbn [Z.eqb Pos.eqb fst snd].
    + specialize (I0 C).
      assert ((h + 1) mod 2 = 1 /\ (h + 1) / 2 = h / 2)
        as (M & D) by (Z.div_mod_to_equations; lia).
      rewrite M, D. split; [lia|]. split; intros; lia.
    + specialize (I1 C).
      assert ((h + 1) mod 2 = 0 /\ (h + 1) / 2 = h / 2 + 1)
        as (M & D) by (Z.div_mod_to_equations; lia).
      rewrite M, D. split; [lia|]. split; intros; lia.
Qed.

(** ** The row loop *)

Lemma row_loop {St : Type} (body : Z -> St -> option St)
    (R : Z -> list Z -> list Z -> St -> Prop) (bs : Z -> list Z) (L : nat)
    (H : Z) :
  (forall h, length (bs h) = L) ->
  (forall h s pre rest,
     0 <= h < H -> (L <= length rest)%nat -> R h pre rest s ->
     exists s',
       body h s = Some s' /\ R (h + 1) (pre ++ bs h) (skipn L rest) s') ->
  forall (n fuel : nat) (h0 : Z) (s : St) (pre rest : list Z),
    0 <= h0 -> h0 + Z.of_nat n = H -> (n < fuel)%nat ->
    (L * n <= length rest)%nat -> R h0 pre rest s ->
    exists s',
      for_loop fuel (fun h => h <? H) (fun h => h + 1) body h0 s = Some (H, s')
      /\ R H (pre ++ flat_map bs (zseq h0 n)) (skipn (L * n) rest) s'.
Proof.
  intros HL Hbody. induction n as [|n IH]; intros fuel h0 s pre rest Hh0 HH Hf
    Hlen HR.
  - destruct fuel as [|fuel]; [lia|]. cbn [for_loop].
    destruct (h0 <? H) eqn:E; [apply Z.ltb_lt in E; lia|].
    exists s. replace H with h0 by lia. split; [reflexivity|].
    cbn [zseq flat_map]. now rewrite app_nil_r, Nat.mul_0_r.
  - destruct fuel as [|fuel]; [lia|]. cbn [for_loop].
    destruct (h0 <? H) eqn:E; [|apply Z.ltb_ge in E; lia].
    destruct (Hbody h0 s pre rest ltac:(lia) ltac:(nia) HR) as (s1 & E1 & R1).
    rewrite E1.
    destruct (IH fuel (h0 + 1) s1 (pre ++ bs h0) (skipn L rest) ltac:(lia)
                ltac:(lia) ltac:(lia)
                ltac:(rewrite length_skipn; nia) R1) as (s2 & E2 & R2).
    exists s2. split; [exact E2|].
    cbn [zseq flat_map]. rewrite app_assoc.
    replace (L * S n)%nat with (L * n + L)%nat by lia.
    now rewrite <- skipn_skipn.
Qed.

(** ** The encoded frame *)

Definition field_of (pic : AVFrame) : Z -> Z :=
  match format pic with
  | AV_PIX_FMT_YUV422P10 => field10
  | _ => field8
  end.

(** Where the samples of output row [h] start in the three planes. *)
Definition row_ptrs (pic : AVFrame) (h : Z) : Z * Z * Z :=
  match format pic with
  | AV_PIX_FMT_YUV422P10 =>
      (h * Z.quot (linesize pic 0) 2, h * Z.quot (linesize pic 1) 2,
       h * Z.quot (linesize pic 2) 2)
  | _ =>
      (h * linesize pic 0, chroma_row pic h * linesize pic 1,
       chroma_row pic h * linesize pic 2)
  end.

Definition line_bytes (avctx : AVCodecContext) (pic : AVFrame) (h : Z)
  : list Z :=
  let '(y, u, v) := row_ptrs pic h in
  row_bytes (field_of pic) (data pic 0) (data pic 1) (data pic 2)
    (width avctx) y u v.

Definition frame_bytes (avctx : AVCodecContext) (pic : AVFrame) : list Z :=
  flat_map (line_bytes avctx pic) (zseq 0 (Z.to_nat (height avctx))).

Lemma line_bytes_length (avctx : AVCodecContext) (pic : AVFrame) (h : Z) :
  0 <= width avctx ->
  length (line_bytes avctx pic h) = Z.to_nat (stride_of (width avctx)).
Proof.
  intros H. unfold line_bytes. destruct (row_ptrs pic h) as [[y u] v].
  now apply row_bytes_length.
Qed.

Lemma flat_map_const_length {A : Type} (g : A -> list Z) (L : nat)
    (l : list A) :
  (forall a, length (g a) = L) -> length (flat_map g l) = (L * length l)%nat.
Proof.
  intros H. induction l as [|a l IH]; cbn [flat_map length]; [lia|].
  rewrite length_app, H, IH. lia.
Qed.

Lemma frame_bytes_length (avctx : AVCodecContext) (pic : AVFrame) :
  0 <= width avctx -> 0 <= height avctx ->
  Z.of_nat (length (frame_bytes avctx pic))
  = height avctx * stride_of (width avctx).
Proof.
  intros HW HH. unfold frame_bytes.
  rewrite (flat_map_const_length _ (Z.to_nat (stride_of (width avctx))))
    by (intros; now apply line_bytes_length).
  rewrite zseq_length.
  assert (0 <= stride_of (width avctx))
    by (rewrite stride_of_eq by assumption; Z.div_mod_to_equations; lia).
  nia.
Qed.

Section Frame.

Variable avctx : AVCodecContext.
Variable pic : AVFrame.

Hypothesis Hpack : packer_ok (priv_data avctx).
Hypothesis W_nonneg : 0 <= width avctx.
Hypothesis W_even : width avctx mod 2 = 0.
Hypothesis H_nonneg : 0 <= height avctx.

Lemma stride_nonneg : 0 <= stride_of (width avctx).
Proof.
  rewrite stride_of_eq by assumption. Z.div_mod_to_equations. lia.
Qed.

Lemma encode_pixels_10 (buf : list Z) :
  format pic = AV_PIX_FMT_YUV422P10 ->
  Z.of_nat (length buf) = height avctx * stride_of (width avctx) ->
  encode_pixels avctx pic buf = Some (frame_bytes avctx pic).
Proof.
  intros Hfmt Hlen. unfold encode_pixels. rewrite Hfmt.
  pose proof stride_nonneg as Hs.
  destruct (6 * sample_factor_10 (priv_data avctx) =? 0) eqn:E0;
    [apply Z.eqb_eq in E0; destruct Hpack as (_ & HF & _); lia|].
  destruct (row_loop
              (fun _ : Z =>
                 row_10 avctx pic (6 * sample_factor_10 (priv_data avctx))
                   (Z.quot (width avctx)
                      (6 * sample_factor_10 (priv_data avctx))))
              (fun h pre rest st =>
                 exists val,
                   st = at_out (h * Z.quot (linesize pic 0) 2,
                                h * Z.quot (linesize pic 1) 2,
                                h * Z.quot (linesize pic 2) 2) val pre rest)
              (line_bytes avctx pic) (Z.to_nat (stride_of (width avctx)))
              (height avctx))
    with (n := Z.to_nat (height avctx))
         (fuel := fuel_for 0 (height avctx)) (h0 := 0)
         (s := mkState 0 0 0 0 0 buf) (pre := @nil Z) (rest := buf)
    as (st & E & val & ->).
  - intros h. now apply line_bytes_length.
  - intros h st pre rest Hh Hroom [val ->].
    destruct (row_10_emits avctx pic Hpack W_nonneg W_even
                (h * Z.quot (linesize pic 0) 2)
                (h * Z.quot (linesize pic 1) 2)
                (h * Z.quot (linesize pic 2) 2) val pre rest) as [val' E].
    { rewrite row_bytes_length by assumption. exact Hroom. }
    eexists. split; [exact E|]. exists val'.
    rewrite row_bytes_length by assumption.
    apply at_out_eq; trivial.
    + f_equal; [f_equal|]; lia.
    + unfold line_bytes, row_ptrs, field_of. now rewrite Hfmt.
  - lia.
  - lia.
  - unfold fuel_for. lia.
  - nia.
  - exists 0. reflexivity.
  - rewrite E. cbn [snd]. rewrite st_buf_at_out. f_equal.
    rewrite skipn_all2 by nia. cbn [app]. now rewrite app_nil_r.
Qed.

Lemma encode_pixels_8 (buf : list Z) :
  format pic = AV_PIX_FMT_YUV422P \/ format pic = AV_PIX_FMT_YUV420P ->
  Z.of_nat (length buf) = height avctx * stride_of (width avctx) ->
  encode_pixels avctx pic buf = Some (frame_bytes avctx pic).
Proof.
  intros Hfmt Hlen.
  pose proof stride_nonneg as Hs.
  destruct (row_loop
              (row_8 avctx pic (12 * sample_factor_8 (priv_data avctx))
                 (Z.quot (width avctx)
                    (12 * sample_factor_8 (priv_data avctx))))
              (fun h pre rest (t : state8) =>
                 exists u v ue ve val,
                   t = (at_out (h * linesize pic 0, u, v) val pre rest, ue, ve)
                   /\ chroma_inv pic (linesize pic 1) h u ue
                   /\ chroma_inv pic (linesize pic 2) h v ve)
              (line_bytes avctx pic) (Z.to_nat (stride_of (width avctx)))
              (height avctx))
    with (n := Z.to_nat (height avctx))
         (fuel := fuel_for 0 (height avctx)) (h0 := 0)
         (s := (mkState 0 0 0 0 0 buf, 0, 0)) (pre := @nil Z) (rest := buf)
    as (t & E & u & v & ue & ve & val & -> & _).
  - intros h. now apply line_bytes_length.
  - intros h t pre rest Hh Hroom (u & v & ue & ve & val & -> & Iu & Iv).
    rewrite row_8_steps, select_chroma_at_out. cbn [fst snd].
    destruct (chroma_inv_step pic _ h u ue ltac:(lia) Iu) as [Su Iu'].
    destruct (chroma_inv_step pic _ h v ve ltac:(lia) Iv) as [Sv Iv'].
    assert (Hline : line_bytes avctx pic h
                    = row_bytes field8 (data pic 0) (data pic 1) (data pic 2)
                        (width avctx) (h * linesize pic 0)
                        (fst (select1 pic h u ue)) (fst (select1 pic h v ve))).
    { unfold line_bytes, row_ptrs, field_of. rewrite Su, Sv.
      destruct Hfmt as [-> | ->]; reflexivity. }
    destruct (row_8_core_emits avctx pic Hpack W_nonneg W_even
                (h * linesize pic 0) (fst (select1 pic h u ue))
                (fst (select1 pic h v ve)) val pre rest) as [val' E].
    { rewrite row_bytes_length by assumption. exact Hroom. }
    rewrite E.
    eexists. split; [reflexivity|].
    exists (fst (select1 pic h u ue) + linesize pic 1),
           (fst (select1 pic h v ve) + linesize pic 2),
           (snd (select1 pic h u ue)), (snd (select1 pic h v ve)), val'.
    split; [|split; assumption].
    rewrite Hline, row_bytes_length by assumption.
    do 2 f_equal. apply at_out_eq; trivial.
    do 2 f_equal. lia.
  - lia.
  - lia.
  - unfold fuel_for. lia.
  - nia.
  - exists 0, 0, 0, 0, 0. repeat split; apply chroma_inv_0.
  - unfold encode_pixels.
    assert (E0 : (12 * sample_factor_8 (priv_data avctx) =? 0) = false)
      by (apply Z.eqb_neq; destruct Hpack as (HF & _); lia).
    destruct Hfmt as [Hf | Hf]; rewrite Hf; rewrite E0; rewrite E;
      cbn [fst snd];
      rewrite st_buf_at_out; f_equal;
      (rewrite skipn_all2 by nia); cbn [app]; now rewrite app_nil_r.
Qed.

Theorem encode_pixels_ok (buf : list Z) :
  In (format pic) pix_fmts ->
  Z.of_nat (length buf) = height avctx * stride_of (width avctx) ->
  encode_pixels avctx pic buf = Some (frame_bytes avctx pic).
Proof.
  intros Hin Hlen. unfold pix_fmts in Hin. cbn [In] in Hin.
  destruct Hin as [E | [E | [E | []]]]; symmetry in E.
  - now apply encode_pixels_10.
  - apply encode_pixels_8; auto.
  - apply encode_pixels_8; auto.
Qed.

End Frame.

(** ** Words and fields as numbers *)

Lemma testbit_small (a n i : Z) :
  0 <= a < 2 ^ n -> 0 <= n <= i -> Z.testbit a i = false.
Proof.
  intros Ha Hi. apply Z.testbit_false; [lia|].
  rewrite Z.div_small; [reflexivity|].
  split; [lia|]. apply Z.lt_le_trans with (2 ^ n); [lia|].
  apply Z.pow_le_mono_r; lia.
Qed.

Lemma lor_shiftl_add (a b n : Z) :
  0 <= n -> 0 <= a < 2 ^ n -> Z.lor a (Z.shiftl b n) = a + b * 2 ^ n.
Proof.
  intros Hn Ha.
  assert (Z.land a (Z.shiftl b n) = 0) as H0.
  { apply Z.bits_inj'. intros i Hi.
    rewrite Z.land_spec, Z.bits_0.
    destruct (Z.lt_ge_cases i n) as [Hlt | Hge].
    - rewrite Z.shiftl_spec_low by assumption. apply andb_false_r.
    - rewrite (testbit_small a n i) by lia. reflexivity. }
  rewrite <- Z.lxor_lor by assumption.
  rewrite <- Z.add_nocarry_lxor by assumption.
  now rewrite Z.shiftl_mul_pow2.
Qed.

Lemma word3_add (a b c : Z) :
  0 <= a < 1024 -> 0 <= b < 1024 -> 0 <= c < 1024 ->
  word3 a b c = a + b * 1024 + c * 1048576.
Proof.
  intros Ha Hb Hc. unfold word3.
  rewrite (Z.shiftl_mul_pow2 b 10) by lia.
  rewrite (lor_shiftl_add (b * 2 ^ 10) c 20) by (change (2 ^ 10) with 1024;
    change (2 ^ 20) with 1048576; lia).
  replace (b * 2 ^ 10 + c * 2 ^ 20) with ((b + c * 1024) * 2 ^ 10)
    by (change (2 ^ 10) with 1024; change (2 ^ 20) with 1048576; lia).
  rewrite <- Z.shiftl_mul_pow2 by lia.
  rewrite lor_shiftl_add by (change (2 ^ 10) with 1024; lia).
  change (2 ^ 10) with 1024. lia.
Qed.

(** Bits 30 and 31 of a word of three 10-bit fields are clear. *)
Lemma word3_bound (a b c : Z) :
  0 <= a < 1024 -> 0 <= b < 1024 -> 0 <= c < 1024 ->
  0 <= word3 a b c < 2 ^ 30.
Proof.
  intros Ha Hb Hc. rewrite word3_add by assumption.
  change (2 ^ 30) with 1073741824. lia.
Qed.

(** Field [j] of a word: [(w >> 10 j) & 0x3ff]. *)
Definition get_field (w j : Z) : Z := Z.land (Z.shiftr w (10 * j)) 1023.

Lemma get_field_word3 (a b c : Z) :
  0 <= a < 1024 -> 0 <= b < 1024 -> 0 <= c < 1024 ->
  get_field (word3 a b c) 0 = a /\ get_field (word3 a b c) 1 = b /\
  get_field (word3 a b c) 2 = c.
Proof.
  intros Ha Hb Hc. unfold get_field. rewrite word3_add by assumption.
  change 1023 with (Z.ones 10).
  rewrite !Z.land_ones, !Z.shiftr_div_pow2 by lia.
  change (10 * 0) with 0. change (10 * 1) with 10. change (10 * 2) with 20.
  change (2 ^ 0) with 1. change (2 ^ 10) with 1024.
  change (2 ^ 20) with 1048576.
  repeat split; Z.div_mod_to_equations; lia.
Qed.

(** Reading a little-endian 32-bit word at an offset of the packet. *)
Definition byte_at (data : list Z) (off : Z) : Z :=
  nth (Z.to_nat off) data 0.

Definition rd32 (data : list Z) (off : Z) : Z :=
  byte_at data off + byte_at data (off + 1) * 256
  + byte_at data (off + 2) * 65536 + byte_at data (off + 3) * 16777216.

Lemma le32_value (w : Z) :
  0 <= w < 2 ^ 32 ->
  nth 0 (le32 w) 0 + nth 1 (le32 w) 0 * 256 + nth 2 (le32 w) 0 * 65536
  + nth 3 (le32 w) 0 * 16777216 = w.
Proof.
  intros Hw. cbn [le32 nth]. change 255 with (Z.ones 8).
  rewrite !Z.land_ones, !Z.shiftr_div_pow2 by lia.
  change (2 ^ 8) with 256. change (2 ^ 16) with 65536.
  change (2 ^ 24) with 16777216. change (2 ^ 32) with 4294967296 in Hw.
  Z.div_mod_to_equations. lia.
Qed.

(** ** Indexing into the encoded frame *)

Lemma nth_flat_map_uniform {A : Type} (g : A -> list Z) (L : nat) (a0 : A)
    (d : Z) :
  (forall a, length (g a) = L) ->
  forall (l : list A) (h i : nat),
    (h < length l)%nat -> (i < L)%nat ->
    nth (h * L + i) (flat_map g l) d = nth i (g (nth h l a0)) d.
Proof.
  intros HL. induction l as [|a l IH]; intros h i Hh Hi; [cbn in Hh; lia|].
  cbn [flat_map]. destruct h as [|h].
  - cbn [Nat.mul Nat.add nth]. apply app_nth1. now rewrite HL.
  - rewrite app_nth2 by (rewrite HL; lia). rewrite HL.
    replace (S h * L + i - L)%nat with (h * L + i)%nat by lia.
    cbn [nth]. apply IH; [cbn in Hh; lia|assumption].
Qed.

Lemma nth_zseq (k : Z) (n i : nat) (d : Z) :
  (i < n)%nat -> nth i (zseq k n) d = k + Z.of_nat i.
Proof.
  revert k i. induction n as [|n IH]; intros k i Hi; [lia|].
  destruct i as [|i]; cbn [zseq nth]; [lia|].
  rewrite IH by lia. lia.
Qed.

Lemma nth_map_zseq (g : Z -> Z) (k : Z) (n i : nat) (d : Z) :
  (i < n)%nat -> nth i (map g (zseq k n)) d = g (k + Z.of_nat i).
Proof.
  revert k i. induction n as [|n IH]; intros k i Hi; [lia|].
  destruct i as [|i]; cbn [zseq map nth]; [f_equal; lia|].
  rewrite IH by lia. f_equal. lia.
Qed.

(** The bytes of word [k] of a list of words. *)
Lemma nth_words (ws : list Z) (k j : nat) :
  (k < length ws)%nat -> (j < 4)%nat ->
  nth (k * 4 + j) (flat_map le32 ws) 0 = nth j (le32 (nth k ws 0)) 0.
Proof. intros. now apply nth_flat_map_uniform. Qed.

(** ** Reading an encoded frame back

    The layout read in the other direction: word [k] of line [h], field [c]
    of a line, and the luma and chroma samples of a line. *)

Definition out_word (avctx : AVCodecContext) (data : list Z) (h k : Z) : Z :=
  rd32 data (h * stride_of (width avctx) + 4 * k).

Definition out_field (avctx : AVCodecContext) (data : list Z) (h c : Z) : Z :=
  get_field (out_word avctx data h (c / 3)) (c mod 3).

Definition out_luma (avctx : AVCodecContext) (data : list Z) (h x : Z) : Z :=
  out_field avctx data h (2 * x + 1).

Definition out_cb (avctx : AVCodecContext) (data : list Z) (h j : Z) : Z :=
  out_field avctx data h (4 * j).

Definition out_cr (avctx : AVCodecContext) (data : list Z) (h j : Z) : Z :=
  out_field avctx data h (4 * j + 2).

Lemma CLIP_range (x : Z) : 4 <= CLIP x <= 1019.
Proof. unfold CLIP, av_clip. lia. Qed.

Lemma CLIP8_range (x : Z) : 1 <= CLIP8 x <= 254.
Proof. unfold CLIP8, av_clip. lia. Qed.

Lemma field10_range (x : Z) : 0 <= field10 x < 1024.
Proof. unfold field10. pose proof (CLIP_range x). lia. Qed.

Lemma field8_eq (x : Z) : field8 x = CLIP8 x * 4.
Proof. unfold field8. now rewrite Z.shiftl_mul_pow2 by lia. Qed.

Lemma field8_range (x : Z) : 0 <= field8 x < 1024.
Proof. rewrite field8_eq. pose proof (CLIP8_range x). lia. Qed.

Lemma field_of_range (pic : AVFrame) (x : Z) : 0 <= field_of pic x < 1024.
Proof.
  unfold field_of.
  destruct (format pic); auto using field10_range, field8_range.
Qed.

Section Readback.

Variable avctx : AVCodecContext.
Variable pic : AVFrame.

Let W := width avctx.
Let Yp := data pic 0.
Let Up := data pic 1.
Let Vp := data pic 2.
Let f := field_of pic.

Hypothesis W_nonneg : 0 <= W.
Hypothesis H_nonneg : 0 <= height avctx.

Lemma field_range (y u v c : Z) : 0 <= field f Yp Up Vp W y u v c < 1024.
Proof.
  unfold field, component.
  destruct (c <? 2 * W); [|lia].
  destruct (c mod 2 =? 1); [apply field_of_range|].
  destruct (c mod 4 =? 0); apply field_of_range.
Qed.

Lemma word_range (y u v k : Z) : 0 <= word f Yp Up Vp W y u v k < 2 ^ 30.
Proof. apply word3_bound; apply field_range. Qed.

Lemma frame_byte (h i : Z) :
  0 <= h < height avctx -> 0 <= i < stride_of W ->
  byte_at (frame_bytes avctx pic) (h * stride_of W + i)
  = nth (Z.to_nat i) (line_bytes avctx pic h) 0.
Proof.
  intros Hh Hi. unfold byte_at, frame_bytes.
  replace (Z.to_nat (h * stride_of W + i))
    with (Z.to_nat h * Z.to_nat (stride_of W) + Z.to_nat i)%nat by nia.
  rewrite (nth_flat_map_uniform _ (Z.to_nat (stride_of W)) 0)
    by (try (intros; now apply line_bytes_length);
        try rewrite zseq_length; lia).
  rewrite nth_zseq by lia. do 2 f_equal. lia.
Qed.

Lemma line_byte_word (y u v k j : Z) :
  0 <= k < nwords W -> 0 <= j < 4 ->
  nth (Z.to_nat (4 * k + j)) (row_bytes f Yp Up Vp W y u v) 0
  = nth (Z.to_nat j) (le32 (word f Yp Up Vp W y u v k)) 0.
Proof.
  intros Hk Hj. unfold row_bytes.
  rewrite app_nth1 by (rewrite words_bytes_length; lia).
  unfold words_bytes.
  replace (Z.to_nat (4 * k + j)) with (Z.to_nat k * 4 + Z.to_nat j)%nat
    by lia.
  rewrite nth_words by (try rewrite length_map, zseq_length; lia).
  rewrite nth_map_zseq by lia. do 3 f_equal. lia.
Qed.

Lemma line_byte_pad (y u v i : Z) :
  4 * nwords W <= i < stride_of W ->
  nth (Z.to_nat i) (row_bytes f Yp Up Vp W y u v) 0 = 0.
Proof.
  intros Hi. unfold row_bytes.
  assert (0 <= nwords W) by (unfold nwords; Z.div_mod_to_equations; lia).
  rewrite app_nth2 by (rewrite words_bytes_length; lia).
  apply nth_repeat.
Qed.

(** Word [k] of line [h] of the encoded frame. *)
Lemma frame_word (h k : Z) :
  0 <= h < height avctx -> 0 <= k < nwords W ->
  out_word avctx (frame_bytes avctx pic) h k
  = let '(y, u, v) := row_ptrs pic h in word f Yp Up Vp W y u v k.
Proof.
  intros Hh Hk. unfold out_word, rd32. fold W.
  pose proof (line_padding_nonneg W W_nonneg) as Hp.
  rewrite line_padding_of_eq in Hp by assumption.
  rewrite <- !Z.add_assoc.
  rewrite (frame_byte h (4 * k)), (frame_byte h (4 * k + 1)),
    (frame_byte h (4 * k + 2)), (frame_byte h (4 * k + 3)) by lia.
  unfold line_bytes. fold W Yp Up Vp f.
  destruct (row_ptrs pic h) as [[y u] v].
  replace (4 * k) with (4 * k + 0) at 1 by lia.
  rewrite !line_byte_word by lia.
  change (Z.to_nat 0) with 0%nat. change (Z.to_nat 1) with 1%nat.
  change (Z.to_nat 2) with 2%nat. change (Z.to_nat 3) with 3%nat.
  pose proof (word_range y u v k) as Hr.
  pose proof (le32_value (word f Yp Up Vp W y u v k)) as Hv.
  change (2 ^ 30) with 1073741824 in Hr.
  change (2 ^ 32) with 4294967296 in Hv. lia.
Qed.

(** Field [c] of line [h], for a component of the row. *)
Lemma frame_field (h c : Z) :
  0 <= h < height avctx -> 0 <= c < 2 * W ->
  out_field avctx (frame_bytes avctx pic) h c
  = let '(y, u, v) := row_ptrs pic h in component f Yp Up Vp y u v c.
Proof.
  intros Hh Hc. unfold out_field.
  rewrite frame_word
    by (try assumption; unfold nwords; Z.div_mod_to_equations; lia).
  destruct (row_ptrs pic h) as [[y u] v]. unfold word.
  destruct (get_field_word3 _ _ _
              (field_range y u v (3 * (c / 3)))
              (field_range y u v (3 * (c / 3) + 1))
              (field_range y u v (3 * (c / 3) + 2))) as (G0 & G1 & G2).
  assert (C : c mod 3 = 0 \/ c mod 3 = 1 \/ c mod 3 = 2)
    by (Z.div_mod_to_equations; lia).
  assert (Hf : forall e, e = c ->
             field f Yp Up Vp W y u v e = component f Yp Up Vp y u v c).
  { intros e ->. unfold field.
    destruct (c <? 2 * W) eqn:E; [reflexivity|apply Z.ltb_ge in E; lia]. }
  destruct C as [C|[C|C]]; rewrite C.
  - rewrite G0. apply Hf. Z.div_mod_to_equations. lia.
  - rewrite G1. apply Hf. Z.div_mod_to_equations. lia.
  - rewrite G2. apply Hf. Z.div_mod_to_equations. lia.
Qed.

(** The samples of line [h], read back, are the fields of the samples the
    row was packed from. *)
Lemma frame_luma (h x : Z) :
  0 <= h < height avctx -> 0 <= x < W ->
  out_luma avctx (frame_bytes avctx pic) h x
  = f (Yp (fst (fst (row_ptrs pic h)) + x)).
Proof.
  intros Hh Hx. unfold out_luma. rewrite frame_field by lia.
  destruct (row_ptrs pic h) as [[y u] v]. cbn [fst]. unfold component.
  replace ((2 * x + 1) mod 2) with 1 by (Z.div_mod_to_equations; lia).
  replace ((2 * x + 1) / 2) with x by (Z.div_mod_to_equations; lia).
  reflexivity.
Qed.

Lemma frame_cb (h j : Z) :
  0 <= h < height avctx -> 0 <= j < W / 2 ->
  out_cb avctx (frame_bytes avctx pic) h j
  = f (Up (snd (fst (row_ptrs pic h)) + j)).
Proof.
  intros Hh Hj. unfold out_cb.
  rewrite frame_field by (try assumption; Z.div_mod_to_equations; lia).
  destruct (row_ptrs pic h) as [[y u] v]. cbn [fst snd]. unfold component.
  replace ((4 * j) mod 2) with 0 by (Z.div_mod_to_equations; lia).
  replace ((4 * j) mod 4) with 0 by (Z.div_mod_to_equations; lia).
  replace ((4 * j) / 4) with j by (Z.div_mod_to_equations; lia).
  reflexivity.
Qed.

Lemma frame_cr (h j : Z) :
  0 <= h < height avctx -> 0 <= j < W / 2 ->
  out_cr avctx (frame_bytes avctx pic) h j
  = f (Vp (snd (row_ptrs pic h) + j)).
Proof.
  intros Hh Hj. unfold out_cr.
  rewrite frame_field by (try assumption; Z.div_mod_to_equations; lia).
  destruct (row_ptrs pic h) as [[y u] v]. cbn [fst snd]. unfold component.
  replace ((4 * j + 2) mod 2) with 0 by (Z.div_mod_to_equations; lia).
  replace ((4 * j + 2) mod 4) with 2 by (Z.div_mod_to_equations; lia).
  replace ((4 * j + 2) / 4) with j by (Z.div_mod_to_equations; lia).
  reflexivity.
Qed.

(** The bytes after the last word of a line. *)
Lemma frame_pad (h i : Z) :
  0 <= h < height avctx -> 4 * nwords W <= i < stride_of W ->
  byte_at (frame_bytes avctx pic) (h * stride_of W + i) = 0.
Proof.
  intros Hh Hi.
  assert (0 <= nwords W) by (unfold nwords; Z.div_mod_to_equations; lia).
  rewrite frame_byte by lia. unfold line_bytes.
  destruct (row_ptrs pic h) as [[y u] v]. now apply line_byte_pad.
Qed.

End Readback.

(** ** A call of [encode_frame] *)

Section Call.

Variable ff_alloc_packet2 : AVPacket -> Z -> Z -> Z * AVPacket.
Variable av_packet_new_side_data : AVPacketSideDataType -> Z -> bool.
Variable avctx : AVCodecContext.
Variable pic : AVFrame.

Lemma copy_side_data_cases (ft : AVFrameSideDataType)
    (pt : AVPacketSideDataType) (p : AVPacket) :
  exists p',
    pkt_data p' = pkt_data p /\ flags p' = flags p /\
    (copy_side_data av_packet_new_side_data pic ft pt p = (0, p')
     \/ copy_side_data av_packet_new_side_data pic ft pt p
        = (AVERROR ENOMEM, p')
        /\ exists n, av_packet_new_side_data pt n = false).
Proof.
  unfold copy_side_data.
  destruct (frame_side_data pic ft) as [d|]; [|exists p; auto].
  destruct (negb (Z.of_nat (length d) =? 0)); [|exists p; auto].
  destruct (av_packet_new_side_data pt (Z.of_nat (length d))) eqn:E.
  - exists (mkAVPacket (pkt_data p) (flags p) (pkt_side_data p ++ [(pt, d)])).
    repeat split. left. reflexivity.
  - exists p. repeat split. right. eauto.
Qed.

Lemma copy_all_side_data_cases (p : AVPacket) :
  exists p',
    pkt_data p' = pkt_data p /\ flags p' = flags p /\
    (copy_all_side_data av_packet_new_side_data pic p = (0, p')
     \/ copy_all_side_data av_packet_new_side_data pic p
        = (AVERROR ENOMEM, p')
        /\ exists pt n, av_packet_new_side_data pt n = false).
Proof.
  unfold copy_all_side_data.
  destruct (copy_side_data_cases AV_FRAME_DATA_A53_CC AV_PKT_DATA_A53_CC p)
    as (p1 & D1 & F1 & [-> | [-> [n N]]]);
    [|exists p1; repeat split; trivial; right; eauto].
  change (0 <? 0) with false. cbv iota.
  destruct (copy_side_data_cases AV_FRAME_DATA_AFD AV_PKT_DATA_AFD p1)
    as (p2 & D2 & F2 & [-> | [-> [n N]]]);
    [|exists p2; repeat split; try congruence; right; eauto].
  change (0 <? 0) with false. cbv iota.
  destruct (copy_side_data_cases AV_FRAME_DATA_BARDATA AV_PKT_DATA_BARDATA p2)
    as (p3 & D3 & F3 & [-> | [-> [n N]]]);
    [|exists p3; repeat split; try congruence; right; eauto].
  change (0 <? 0) with false. cbv iota.
  destruct (copy_side_data_cases AV_FRAME_DATA_PIPELINE_STATS
              AV_PKT_DATA_PIPELINE_STATS p3)
    as (p4 & D4 & F4 & [-> | [-> [n N]]]);
    [|exists p4; repeat split; try congruence; right; eauto].
  change (0 <? 0) with false. cbv iota.
  destruct (copy_side_data_cases AV_FRAME_DATA_SEI_UNREGISTERED
              AV_PKT_DATA_SEI_UNREGISTERED p4)
    as (p5 & D5 & F5 & [-> | [-> [n N]]]);
    exists p5; repeat split; try congruence; [left | right]; eauto.
Qed.

Hypothesis Hpack : packer_ok (priv_data avctx).
Hypothesis W_nonneg : 0 <= width avctx.
Hypothesis W_even : width avctx mod 2 = 0.
Hypothesis H_nonneg : 0 <= height avctx.
Hypothesis Hfmt : In (format pic) pix_fmts.

Variable pkt0 : AVPacket.
Variable r : Z.
Variable p1 : AVPacket.
Hypothesis Halloc :
  ff_alloc_packet2 pkt0 (height avctx * stride_of (width avctx))
    (height avctx * stride_of (width avctx)) = (r, p1).
Hypothesis Hr : 0 <= r.
Hypothesis Hbuf :
  Z.of_nat (length (pkt_data p1))
  = height avctx * stride_of (width avctx).

(** With the packet allocated, the call returns, and the packet holds the
    encoded frame whatever the buffer held before; it returns 0 unless a
    side-data entry could not be allocated. *)
Lemma encode_frame_run (got0 : Z) :
  exists o,
    encode_frame ff_alloc_packet2 av_packet_new_side_data avctx pic pkt0 got0
    = Some o
    /\ pkt_data (pkt o) = frame_bytes avctx pic
    /\ (ret o = 0 /\ got_packet o = 1
        \/ ret o = AVERROR ENOMEM
           /\ exists pt n, av_packet_new_side_data pt n = false).
Proof.
  unfold encode_frame. rewrite Halloc.
  destruct (r <? 0) eqn:E; [apply Z.ltb_lt in E; lia|].
  rewrite (encode_pixels_ok avctx pic Hpack W_nonneg W_even H_nonneg
             (pkt_data p1) Hfmt Hbuf).
  match goal with
  | |- context [copy_all_side_data _ _ ?p] =>
      destruct (copy_all_side_data_cases p) as (p' & D & F & [-> | [-> N]])
  end.
  - change (0 <? 0) with false. cbv iota.
    eexists. split; [reflexivity|]. cbn. split; [exact D|]. now left.
  - change (AVERROR ENOMEM <? 0) with true. cbv iota.
    eexists. split; [reflexivity|]. cbn. split; [exact D|]. now right.
Qed.

End Call.

(** * The claims *)

(** The conditions under which a frame is encoded: a context whose packers
    behave as the C ones, an even width and a height that are not negative,
    one of the formats the codec lists, and an allocator that, handed the
    packet, gives it a buffer of the size it is asked for. *)
Definition valid_call
    (ff_alloc_packet2 : AVPacket -> Z -> Z -> Z * AVPacket)
    (avctx : AVCodecContext) (pic : AVFrame) (pkt0 : AVPacket) : Prop :=
  let size := height avctx * stride_of (width avctx) in
  packer_ok (priv_data avctx) /\
  0 <= width avctx /\ width avctx mod 2 = 0 /\ 0 <= height avctx /\
  In (format pic) pix_fmts /\
  0 <= fst (ff_alloc_packet2 pkt0 size size) /\
  Z.of_nat (length (pkt_data (snd (ff_alloc_packet2 pkt0 size size))))
  = size.

Lemma valid_call_run
    (ff_alloc_packet2 : AVPacket -> Z -> Z -> Z * AVPacket)
    (av_packet_new_side_data : AVPacketSideDataType -> Z -> bool)
    (avctx : AVCodecContext) (pic : AVFrame) (pkt0 : AVPacket) (got0 : Z) :
  valid_call ff_alloc_packet2 avctx pic pkt0 ->
  exists o,
    encode_frame ff_alloc_packet2 av_packet_new_side_data avctx pic pkt0 got0
    = Some o
    /\ pkt_data (pkt o) = frame_bytes avctx pic
    /\ (ret o = 0 /\ got_packet o = 1
        \/ ret o = AVERROR ENOMEM
           /\ exists pt n, av_packet_new_side_data pt n = false).
Proof.
  intros (Hp & HW & He & HH & Hf & Hr & Hl).
  destruct (ff_alloc_packet2 pkt0 (height avctx * stride_of (width avctx))
              (height avctx * stride_of (width avctx))) as [r p1] eqn:E.
  now apply (encode_frame_run ff_alloc_packet2 av_packet_new_side_data avctx
               pic Hp HW He HH Hf pkt0 r p1 E Hr Hl).
Qed.

(** ** Concrete inputs *)

(** A plane given by its first samples. *)
Definition plane_of (l : list Z) : plane := fun i => nth (Z.to_nat i) l 0.

(** The context [ff_v210enc_init] leaves on a build without the x86 code. *)
Definition c_context : V210EncContext :=
  ff_v210enc_init false (fun s => s)
    (mkV210EncContext v210_planar_pack_8_c v210_planar_pack_10_c 0 0).

Definition ex_avctx (w h : Z) : AVCodecContext :=
  mkAVCodecContext w h AV_PICTURE_TYPE_I 20 0 c_context.

(** An allocator that always succeeds: it hands out a buffer of 0xff in a
    packet without flags or side data, whatever the packet held. *)
Definition ex_alloc (p : AVPacket) (size min_size : Z) : Z * AVPacket :=
  (0, mkAVPacket (repeat 255 (Z.to_nat size)) 0 []).

Definition ex_side_data (t : AVPacketSideDataType) (n : Z) : bool := true.

Definition ex_pkt : AVPacket := mkAVPacket [] 0 [].

(** A 2x4 interlaced 4:2:0 frame with two chroma lines. *)
Definition ex_pic_420i : AVFrame :=
  mkAVFrame AV_PIX_FMT_YUV420P 1
    (fun i => if i =? 0 then plane_of [100; 101; 102; 103; 104; 105; 106; 107]
              else if i =? 1 then plane_of [10; 20]
              else plane_of [40; 50])
    (fun i => if i =? 0 then 2 else 1) 0 (fun _ => None).

(** A 10-bit 4:2:2 line of up to 8 pixels: the example of the spec, two
    pixels longer. *)
Definition ex_pic_10 : AVFrame :=
  mkAVFrame AV_PIX_FMT_YUV422P10 0
    (fun i => if i =? 0 then plane_of [100; 200; 300; 400; 500; 600; 700; 800]
              else if i =? 1 then plane_of [10; 20; 30; 35]
              else plane_of [40; 50; 60; 65])
    (fun i => if i =? 0 then 16 else 8) 0 (fun _ => None).

(** An 8-bit 4:2:2 line of up to 8 pixels, with samples outside [1,254]. *)
Definition ex_pic_8 : AVFrame :=
  mkAVFrame AV_PIX_FMT_YUV422P 0
    (fun i => if i =? 0 then plane_of [0; 16; 32; 48; 64; 80; 255; 235]
              else if i =? 1 then plane_of [128; 0; 255; 200]
              else plane_of [90; 91; 92; 93])
    (fun i => if i =? 0 then 8 else 4) 0 (fun _ => None).

Lemma ex_valid_call (w h : Z) (pic : AVFrame) (p : AVPacket) :
  0 <= w -> w mod 2 = 0 -> 0 <= h -> In (format pic) pix_fmts ->
  valid_call ex_alloc (ex_avctx w h) pic p.
Proof.
  intros Hw He Hh Hf. unfold valid_call. cbn [ex_avctx width height priv_data
    ex_alloc fst snd pkt_data].
  repeat split; try assumption; try apply packer_ok_c; try lia.
  rewrite repeat_length.
  assert (0 <= stride_of w)
    by (rewrite stride_of_eq by assumption; Z.div_mod_to_equations; lia).
  nia.
Qed.

(** ** C1: chroma rows of interlaced 4:2:0 input *)

(** C1, as amended.  For a 4:2:0 frame marked interlaced, the chroma read
    back from output row [h] is the chroma line [2 (h / 4) + h mod 2] of the
    input: rows [4k] and [4k+2] carry the same chroma (line [2k], the one
    captured at row 0 of the group), and rows [4k+1] and [4k+3] carry the
    same chroma (line [2k+1]). *)
Theorem C1_interlaced_chroma_rows
    (ff_alloc_packet2 : AVPacket -> Z -> Z -> Z * AVPacket)
    (av_packet_new_side_data : AVPacketSideDataType -> Z -> bool)
    (avctx : AVCodecContext) (pic : AVFrame) (pkt0 : AVPacket) (got0 : Z) :
  valid_call ff_alloc_packet2 avctx pic pkt0 ->
  format pic = AV_PIX_FMT_YUV420P -> interlaced_frame pic = 1 ->
  exists o,
    encode_frame ff_alloc_packet2 av_packet_new_side_data avctx pic pkt0 got0
    = Some o /\
    (forall h j, 0 <= h < height avctx -> 0 <= j < width avctx / 2 ->
       out_cb avctx (pkt_data (pkt o)) h j
       = field8 (data pic 1 ((2 * (h / 4) + h mod 2) * linesize pic 1 + j))
       /\ out_cr avctx (pkt_data (pkt o)) h j
          = field8 (data pic 2 ((2 * (h / 4) + h mod 2) * linesize pic 2 + j)))
    /\
    (forall k j, 0 <= k -> 4 * k + 2 < height avctx ->
       0 <= j < width avctx / 2 ->
       out_cb avctx (pkt_data (pkt o)) (4 * k) j
       = out_cb avctx (pkt_data (pkt o)) (4 * k + 2) j
       /\ out_cr avctx (pkt_data (pkt o)) (4 * k) j
          = out_cr avctx (pkt_data (pkt o)) (4 * k + 2) j)
    /\
    (forall k j, 0 <= k -> 4 * k + 3 < height avctx ->
       0 <= j < width avctx / 2 ->
       out_cb avctx (pkt_data (pkt o)) (4 * k + 1) j
       = out_cb avctx (pkt_data (pkt o)) (4 * k + 3) j
       /\ out_cr avctx (pkt_data (pkt o)) (4 * k + 1) j
          = out_cr avctx (pkt_data (pkt o)) (4 * k + 3) j).
Proof.
  intros Hv Hfmt Hil.
  destruct (valid_call_run ff_alloc_packet2 av_packet_new_side_data avctx pic
              pkt0 got0 Hv) as (o & E & D & _).
  destruct Hv as (_ & HW & _ & HH & _).
  exists o. split; [exact E|]. rewrite D.
  assert (Hrow : forall h j, 0 <= h < height avctx ->
            0 <= j < width avctx / 2 ->
            out_cb avctx (frame_bytes avctx pic) h j
            = field8 (data pic 1
                        ((2 * (h / 4) + h mod 2) * linesize pic 1 + j))
            /\ out_cr avctx (frame_bytes avctx pic) h j
               = field8 (data pic 2
                           ((2 * (h / 4) + h mod 2) * linesize pic 2 + j))).
  { intros h j Hh Hj.
    rewrite frame_cb, frame_cr by assumption.
    unfold row_ptrs, field_of, chroma_row. rewrite Hfmt, Hil.
    cbn [Z.eqb Pos.eqb fst snd]. split; reflexivity. }
  split; [exact Hrow|].
  split; intros k j Hk Hlt Hj.
  - destruct (Hrow (4 * k) j ltac:(lia) Hj) as [-> ->].
    destruct (Hrow (4 * k + 2) j ltac:(lia) Hj) as [-> ->].
    replace ((4 * k + 2) / 4) with ((4 * k) / 4)
      by (Z.div_mod_to_equations; lia).
    replace ((4 * k + 2) mod 2) with ((4 * k) mod 2)
      by (Z.div_mod_to_equations; lia).
    split; reflexivity.
  - destruct (Hrow (4 * k + 1) j ltac:(lia) Hj) as [-> ->].
    destruct (Hrow (4 * k + 3) j ltac:(lia) Hj) as [-> ->].
    replace ((4 * k + 3) / 4) with ((4 * k + 1) / 4)
      by (Z.div_mod_to_equations; lia).
    replace ((4 * k + 3) mod 2) with ((4 * k + 1) mod 2)
      by (Z.div_mod_to_equations; lia).
    split; reflexivity.
Qed.

Lemma C1_witness :
  exists o,
    encode_frame ex_alloc ex_side_data (ex_avctx 2 4) ex_pic_420i ex_pkt 0
    = Some o /\
    (forall h j, 0 <= h < 4 -> 0 <= j < 2 / 2 ->
       out_cb (ex_avctx 2 4) (pkt_data (pkt o)) h j
       = field8 (data ex_pic_420i 1 ((2 * (h / 4) + h mod 2) * 1 + j))
       /\ out_cr (ex_avctx 2 4) (pkt_data (pkt o)) h j
          = field8 (data ex_pic_420i 2 ((2 * (h / 4) + h mod 2) * 1 + j)))
    /\
    (forall k j, 0 <= k -> 4 * k + 2 < 4 -> 0 <= j < 2 / 2 ->
       out_cb (ex_avctx 2 4) (pkt_data (pkt o)) (4 * k) j
       = out_cb (ex_avctx 2 4) (pkt_data (pkt o)) (4 * k + 2) j
       /\ out_cr (ex_avctx 2 4) (pkt_data (pkt o)) (4 * k) j
          = out_cr (ex_avctx 2 4) (pkt_data (pkt o)) (4 * k + 2) j)
    /\
    (forall k j, 0 <= k -> 4 * k + 3 < 4 -> 0 <= j < 2 / 2 ->
       out_cb (ex_avctx 2 4) (pkt_data (pkt o)) (4 * k + 1) j
       = out_cb (ex_avctx 2 4) (pkt_data (pkt o)) (4 * k + 3) j
       /\ out_cr (ex_avctx 2 4) (pkt_data (pkt o)) (4 * k + 1) j
          = out_cr (ex_avctx 2 4) (pkt_data (pkt o)) (4 * k + 3) j).
Proof.
  apply (C1_interlaced_chroma_rows ex_alloc ex_side_data (ex_avctx 2 4)
           ex_pic_420i ex_pkt 0).
  - apply ex_valid_call; [lia | reflexivity | lia | simpl; auto].
  - reflexivity.
  - reflexivity.
Defined.

(** C1 as the spec states it fails: in the 2x4 interlaced frame whose two
    chroma lines hold Cb 10 and Cb 20, output row 0 carries Cb 10 << 2 and
    output row 1 carries Cb 20 << 2. *)
Lemma C1_counterexample :
  exists o,
    encode_frame ex_alloc ex_side_data (ex_avctx 2 4) ex_pic_420i ex_pkt 0
    = Some o
    /\ ret o = 0
    /\ out_cb (ex_avctx 2 4) (pkt_data (pkt o)) 0 0 = 40
    /\ out_cb (ex_avctx 2 4) (pkt_data (pkt o)) 1 0 = 80
    /\ out_cb (ex_avctx 2 4) (pkt_data (pkt o)) 0 0
       <> out_cb (ex_avctx 2 4) (pkt_data (pkt o)) 1 0.
Proof.
  eexists. split; [vm_compute; reflexivity|].
  split; [reflexivity|]. split; [vm_compute; reflexivity|].
  split; [vm_compute; reflexivity|]. vm_compute. discriminate.
Qed.

(** ** C2: the four words of a group of six samples *)

(** The four words the spec gives for the group at [y], [u], [v]. *)
Definition group_of_6 (Yp Up Vp : plane) (y u v : Z) : list Z :=
  [Z.lor (CLIP (Up u))
     (Z.lor (Z.shiftl (CLIP (Yp y)) 10) (Z.shiftl (CLIP (Vp v)) 20));
   Z.lor (CLIP (Yp (y + 1)))
     (Z.lor (Z.shiftl (CLIP (Up (u + 1))) 10)
            (Z.shiftl (CLIP (Yp (y + 2))) 20));
   Z.lor (CLIP (Vp (v + 1)))
     (Z.lor (Z.shiftl (CLIP (Yp (y + 3))) 10)
            (Z.shiftl (CLIP (Up (u + 2))) 20));
   Z.lor (CLIP (Yp (y + 4)))
     (Z.lor (Z.shiftl (CLIP (Vp (v + 2))) 10)
            (Z.shiftl (CLIP (Yp (y + 5))) 20))].

Lemma words_bytes_groups (f : Z -> Z) (Yp Up Vp : plane) (W y u v : Z)
    (n : nat) :
  forall a,
    6 * (a + Z.of_nat n) <= W ->
    words_bytes f Yp Up Vp W y u v (4 * a) (4 * n)
    = flat_map le32
        (flat_map (fun g => group_words f Yp Up Vp
                              (y + 6 * g) (u + 3 * g) (v + 3 * g))
           (zseq a n)).
Proof.
  induction n as [|n IH]; intros a Ha; [reflexivity|].
  replace (4 * S n)%nat with (4 + 4 * n)%nat by lia.
  rewrite <- (words_bytes_app f Yp Up Vp W y u v (4 * a) (4 * (a + 1)))
    by lia.
  rewrite IH by lia. cbn [zseq flat_map]. rewrite flat_map_app.
  f_equal. unfold words_bytes.
  now rewrite <- (group_words_word f Yp Up Vp W) by lia.
Qed.

Lemma group_of_6_bound (Yp Up Vp : plane) (y u v w : Z) :
  In w (group_of_6 Yp Up Vp y u v) -> 0 <= w < 2 ^ 30.
Proof.
  intros H. cbn [group_of_6 In] in H.
  destruct H as [<- | [<- | [<- | [<- | []]]]];
    apply (word3_bound (CLIP _) (CLIP _) (CLIP _)); apply field10_range.
Qed.

(** C2.  On [6 n] samples the 10-bit packer stores, from [dst] on and in
    order, the little-endian bytes of the four words of each of the [n]
    groups, word 1 = clip(U) | clip(Y)<<10 | clip(V)<<20 and so on, and
    nothing else; every such word is below [2^30], so its bits 30 and 31 are
    zero. *)
Theorem C2_group_words (Yp Up Vp : plane) (y u v n : Z) (pre rest : list Z) :
  0 <= n -> (Z.to_nat (16 * n) <= length rest)%nat ->
  v210_planar_pack_10_c Yp Up Vp y u v (Z.of_nat (length pre)) (pre ++ rest)
    (6 * n)
  = Some (pre
          ++ flat_map le32
               (flat_map (fun g => group_of_6 Yp Up Vp
                                     (y + 6 * g) (u + 3 * g) (v + 3 * g))
                  (zseq 0 (Z.to_nat n)))
          ++ skipn (Z.to_nat (16 * n)) rest)
  /\ (forall g w,
        In w (group_of_6 Yp Up Vp (y + 6 * g) (u + 3 * g) (v + 3 * g)) ->
        0 <= w < 2 ^ 30 /\ Z.testbit w 30 = false /\ Z.testbit w 31 = false).
Proof.
  intros Hn Hlen. split.
  - unfold v210_planar_pack_10_c.
    destruct (pack_10_loop_run Yp Up Vp (6 * n) y u v n 0 pre rest Hn
                ltac:(lia) Hlen) as [val' E].
    change (mkState y u v 0 (Z.of_nat (length pre)) (pre ++ rest))
      with (at_out (y, u, v) 0 pre rest).
    rewrite E. cbn [snd]. rewrite st_buf_at_out, <- app_assoc.
    do 3 f_equal.
    replace (Z.to_nat (4 * n)) with (4 * Z.to_nat n)%nat by lia.
    change 0 with (4 * 0) at 1.
    rewrite words_bytes_groups by lia. reflexivity.
  - intros g w Hw. pose proof (group_of_6_bound _ _ _ _ _ _ _ Hw) as Hb.
    split; [exact Hb|].
    split; apply (testbit_small w 30); lia.
Qed.

Lemma C2_witness :
  v210_planar_pack_10_c (data ex_pic_10 0) (data ex_pic_10 1)
    (data ex_pic_10 2) 0 0 0 (Z.of_nat (length [7; 7]))
    ([7; 7] ++ repeat 255 17) (6 * 1)
  = Some ([7; 7]
          ++ flat_map le32
               (flat_map (fun g => group_of_6 (data ex_pic_10 0)
                                     (data ex_pic_10 1) (data ex_pic_10 2)
                                     (0 + 6 * g) (0 + 3 * g) (0 + 3 * g))
                  (zseq 0 (Z.to_nat 1)))
          ++ skipn (Z.to_nat (16 * 1)) (repeat 255 17))
  /\ (forall g w,
        In w (group_of_6 (data ex_pic_10 0) (data ex_pic_10 1)
                (data ex_pic_10 2) (0 + 6 * g) (0 + 3 * g) (0 + 3 * g)) ->
        0 <= w < 2 ^ 30 /\ Z.testbit w 30 = false /\ Z.testbit w 31 = false).
Proof.
  apply (C2_group_words (data ex_pic_10 0) (data ex_pic_10 1)
           (data ex_pic_10 2) 0 0 0 1 [7; 7] (repeat 255 17)).
  - lia.
  - vm_compute. lia.
Defined.

(** ** C3: the tail of a row *)

(** C3, as amended.  At the remainder boundary [w] of a row the tail stores
    whole words only.  With four samples left it stores three words: the full
    word clip(U0) | clip(Y0)<<10 | clip(V0)<<20, the full word
    clip(Y1) | clip(U1)<<10 | clip(Y2)<<20 and the word
    clip(V1) | clip(Y3)<<10, whose third field stays empty.  With two samples
    left it stores two words: the full word clip(U0) | clip(Y0)<<10 |
    clip(V0)<<20 and a word that holds clip(Y1) alone.  With none left it
    stores nothing.  The 8-bit tail does the same with [clip8(x) << 2] for
    [clip(x)]. *)
Theorem C3_tail_words (avctx : AVCodecContext) (pic : AVFrame)
    (w y u v : Z) :
  let Yp := data pic 0 in
  let Up := data pic 1 in
  let Vp := data pic 2 in
  let tail_words_of (f : Z -> Z) (left : Z) : list Z :=
    if left =? 4 then
      [word3 (f (Up u)) (f (Yp y)) (f (Vp v));
       word3 (f (Yp (y + 1))) (f (Up (u + 1))) (f (Yp (y + 2)));
       Z.lor (f (Vp (v + 1))) (Z.shiftl (f (Yp (y + 3))) 10)]
    else if left =? 2 then
      [word3 (f (Up u)) (f (Yp y)) (f (Vp v)); f (Yp (y + 1))]
    else [] in
  width avctx - w = 0 \/ width avctx - w = 2 \/ width avctx - w = 4 ->
  emits (tail_10 avctx pic w) (y, u, v)
    (y + (width avctx - w), u + (width avctx - w) / 2,
     v + (width avctx - w) / 2)
    (flat_map le32 (tail_words_of CLIP (width avctx - w)))
  /\
  emits (tail_8 avctx pic w) (y, u, v)
    (y + (width avctx - w), u + (width avctx - w) / 2,
     v + (width avctx - w) / 2)
    (flat_map le32
       (tail_words_of (fun x => Z.shiftl (CLIP8 x) 2) (width avctx - w))).
Proof.
  intros Yp Up Vp tail_words_of Hleft.
  assert (G : forall f,
             emits (gen_tail f Yp Up Vp (width avctx) w) (y, u, v)
               (y + (width avctx - w), u + (width avctx - w) / 2,
                v + (width avctx - w) / 2)
               (flat_map le32 (tail_words_of f (width avctx - w)))).
  { intros f. unfold tail_words_of.
    destruct Hleft as [H | [H | H]]; rewrite H; cbn [Z.eqb Pos.eqb].
    - eapply emits_eq; [| |apply gen_tail_0; lia]; [|reflexivity].
      change (0 / 2) with 0. now rewrite !Z.add_0_r.
    - eapply emits_eq; [| |apply gen_tail_2; lia]; reflexivity.
    - eapply emits_eq; [| |apply gen_tail_4; lia]; reflexivity. }
  split.
  - apply (G field10).
  - eapply emits_ext; [intros st; apply tail_8_gen|]. apply (G field8).
Qed.

Lemma C3_witness :
  emits (tail_10 (ex_avctx 4 1) ex_pic_10 0) (0, 0, 0)
    (0 + (4 - 0), 0 + (4 - 0) / 2, 0 + (4 - 0) / 2)
    (flat_map le32
       [word3 (CLIP 10) (CLIP 100) (CLIP 40);
        word3 (CLIP 200) (CLIP 20) (CLIP 300);
        Z.lor (CLIP 50) (Z.shiftl (CLIP 400) 10)])
  /\
  emits (tail_8 (ex_avctx 4 1) ex_pic_10 0) (0, 0, 0)
    (0 + (4 - 0), 0 + (4 - 0) / 2, 0 + (4 - 0) / 2)
    (flat_map le32
       [word3 (Z.shiftl (CLIP8 10) 2) (Z.shiftl (CLIP8 100) 2)
          (Z.shiftl (CLIP8 40) 2);
        word3 (Z.shiftl (CLIP8 200) 2) (Z.shiftl (CLIP8 20) 2)
          (Z.shiftl (CLIP8 300) 2);
        Z.lor (Z.shiftl (CLIP8 50) 2) (Z.shiftl (Z.shiftl (CLIP8 400) 2) 10)]).
Proof.
  apply (C3_tail_words (ex_avctx 4 1) ex_pic_10 0 0 0 0).
  right. right. reflexivity.
Defined.

(** A word that holds a Cb sample and a luma sample of the [n] samples at
    [y], [u], and nothing in its third field. *)
Definition holds_only_U_Y (Yp Up : plane) (y u n : Z) (w : Z) : Prop :=
  exists i j, 0 <= 2 * i < n /\ 0 <= j < n /\
    w = word3 (CLIP (Up (u + i))) (CLIP (Yp (y + j))) 0.

(** C3 as the spec states it fails: with four samples left (width 4, boundary
    0) the tail stores three words; the first has clip(V0) = 40 in its third
    field, and none of the three holds just a Cb and a luma sample. *)
Lemma C3_counterexample :
  exists st,
    tail_10 (ex_avctx 4 1) ex_pic_10 0 (mkState 0 0 0 0 0 (repeat 255 12))
    = Some st
    /\ st_buf st = flat_map le32 [42045450; 314593480; 409650]
    /\ get_field 42045450 2 = 40
    /\ forall w, In w [42045450; 314593480; 409650] ->
         ~ holds_only_U_Y (data ex_pic_10 0) (data ex_pic_10 1) 0 0 4 w.
Proof.
  eexists. split; [vm_compute; reflexivity|].
  split; [vm_compute; reflexivity|]. split; [vm_compute; reflexivity|].
  intros w Hw (i & j & Hi & Hj & E).
  assert (Ci : i = 0 \/ i = 1) by lia.
  assert (Cj : j = 0 \/ j = 1 \/ j = 2 \/ j = 3) by lia.
  cbn [In] in Hw.
  destruct Hw as [<- | [<- | [<- | []]]];
    destruct Ci as [-> | ->]; destruct Cj as [-> | [-> | [-> | ->]]];
    vm_compute in E; discriminate E.
Qed.

(** ** C4: the size of the bulk packers' output *)

(** The four words [v210_planar_pack_8_c] stores for a group of six
    samples, as [WRITE_PIXELS8] builds them. *)
Definition group_of_6_8 (Yp Up Vp : plane) (y u v : Z) : list Z :=
  [Z.lor (Z.shiftl (CLIP8 (Up u)) 2)
     (Z.lor (Z.shiftl (CLIP8 (Yp y)) 12) (Z.shiftl (CLIP8 (Vp v)) 22));
   Z.lor (Z.shiftl (CLIP8 (Yp (y + 1))) 2)
     (Z.lor (Z.shiftl (CLIP8 (Up (u + 1))) 12)
            (Z.shiftl (CLIP8 (Yp (y + 2))) 22));
   Z.lor (Z.shiftl (CLIP8 (Vp (v + 1))) 2)
     (Z.lor (Z.shiftl (CLIP8 (Yp (y + 3))) 12)
            (Z.shiftl (CLIP8 (Up (u + 2))) 22));
   Z.lor (Z.shiftl (CLIP8 (Yp (y + 4))) 2)
     (Z.lor (Z.shiftl (CLIP8 (Vp (v + 2))) 12)
            (Z.shiftl (CLIP8 (Yp (y + 5))) 22))].

(** C4, as amended.  On a count that is a multiple of 6 the loop of the
    10-bit packer writes exactly [count / 6 * 16] bytes ([count / 6 * 4]
    words) at [dst], the little-endian bytes of the four words of each of
    the [count / 6] groups, between a buffer head and a buffer rest that it
    leaves as they were, and leaves [y] advanced by [count], [u] and [v] by
    [count / 2] and [dst] by the bytes written; on a count that is a multiple
    of 12 the loop of the 8-bit packer does the same, [count / 12 * 32]
    bytes. *)
Theorem C4_bulk_pack_size (Yp Up Vp : plane) (y u v val count : Z)
    (pre rest : list Z) :
  0 <= count ->
  (Z.to_nat (count / 6 * 16) <= length rest)%nat ->
  (count mod 6 = 0 ->
   exists st bs,
     v210_planar_pack_10_loop Yp Up Vp
       (mkState y u v val (Z.of_nat (length pre)) (pre ++ rest)) count
     = Some (count, st)
     /\ st_y st = y + count /\ st_u st = u + count / 2
     /\ st_v st = v + count / 2
     /\ Z.of_nat (length bs) = count / 6 * 16
     /\ st_dst st = Z.of_nat (length pre) + count / 6 * 16
     /\ st_buf st = pre ++ bs ++ skipn (length bs) rest
     /\ bs = flat_map le32
               (flat_map (fun g => group_of_6 Yp Up Vp
                                     (y + 6 * g) (u + 3 * g) (v + 3 * g))
                  (zseq 0 (Z.to_nat (count / 6)))))
  /\
  (count mod 12 = 0 ->
   exists st bs,
     v210_planar_pack_8_loop Yp Up Vp
       (mkState y u v val (Z.of_nat (length pre)) (pre ++ rest)) count
     = Some (count, st)
     /\ st_y st = y + count /\ st_u st = u + count / 2
     /\ st_v st = v + count / 2
     /\ Z.of_nat (length bs) = count / 12 * 32
     /\ st_dst st = Z.of_nat (length pre) + count / 12 * 32
     /\ st_buf st = pre ++ bs ++ skipn (length bs) rest
     /\ bs = flat_map le32
               (flat_map (fun g => group_of_6_8 Yp Up Vp
                                     (y + 6 * g) (u + 3 * g) (v + 3 * g))
                  (zseq 0 (Z.to_nat (count / 6))))).
Proof.
  intros Hc Hlen. split; intros Hm.
  - set (n := count / 6).
    assert (Hn : count = 6 * n) by (unfold n; Z.div_mod_to_equations; lia).
    destruct (pack_10_loop_run Yp Up Vp count y u v n val pre rest
                ltac:(lia) ltac:(lia) ltac:(fold n in Hlen; lia))
      as [val' E].
    exists (at_out (cur y u v n) val'
              (pre ++ words_bytes field10 Yp Up Vp count y u v 0
                        (Z.to_nat (4 * n)))
              (skipn (Z.to_nat (16 * n)) rest)),
      (words_bytes field10 Yp Up Vp count y u v 0 (Z.to_nat (4 * n))).
    change (mkState y u v val (Z.of_nat (length pre)) (pre ++ rest))
      with (at_out (y, u, v) val pre rest).
    rewrite Hn at 1 2. rewrite E, <- Hn.
    cbn [at_out cur st_y st_u st_v st_dst st_buf].
    rewrite length_app, words_bytes_length, <- app_assoc.
    repeat split; try (Z.div_mod_to_equations; lia).
    + do 3 f_equal. lia.
    + replace (Z.to_nat (4 * n)) with (4 * Z.to_nat n)%nat by lia.
      change 0 with (4 * 0) at 1.
      rewrite words_bytes_groups by lia. reflexivity.
  - set (n := count / 12).
    assert (Hn : count = 12 * n) by (unfold n; Z.div_mod_to_equations; lia).
    destruct (pack_8_loop_run Yp Up Vp count y u v n val pre rest
                ltac:(lia) ltac:(lia)
                ltac:(replace (count / 6) with (2 * n) in Hlen
                        by (Z.div_mod_to_equations; lia); lia))
      as [val' E].
    exists (at_out (cur y u v (2 * n)) val'
              (pre ++ words_bytes field8 Yp Up Vp count y u v 0
                        (Z.to_nat (8 * n)))
              (skipn (Z.to_nat (32 * n)) rest)),
      (words_bytes field8 Yp Up Vp count y u v 0 (Z.to_nat (8 * n))).
    change (mkState y u v val (Z.of_nat (length pre)) (pre ++ rest))
      with (at_out (y, u, v) val pre rest).
    rewrite Hn at 1 2. rewrite E, <- Hn.
    cbn [at_out cur st_y st_u st_v st_dst st_buf].
    rewrite length_app, words_bytes_length, <- app_assoc.
    repeat split; try (Z.div_mod_to_equations; lia).
    + do 3 f_equal. lia.
    + replace (count / 6) with (2 * n) by (Z.div_mod_to_equations; lia).
      replace (Z.to_nat (8 * n)) with (4 * Z.to_nat (2 * n))%nat by lia.
      change 0 with (4 * 0) at 1.
      rewrite words_bytes_groups by lia.
      reflexivity.
Qed.

(** Twelve samples, one byte into a buffer of 0xff: two groups from either
    packer, 32 bytes, and the 33rd byte of the rest untouched. *)
Lemma C4_witness :
  (exists st bs,
     v210_planar_pack_10_loop (data ex_pic_10 0) (data ex_pic_10 1)
       (data ex_pic_10 2)
       (mkState 0 0 0 0 (Z.of_nat (length [7])) ([7] ++ repeat 255 33)) 12
     = Some (12, st)
     /\ st_y st = 0 + 12 /\ st_u st = 0 + 12 / 2 /\ st_v st = 0 + 12 / 2
     /\ Z.of_nat (length bs) = 12 / 6 * 16
     /\ st_dst st = Z.of_nat (length [7]) + 12 / 6 * 16
     /\ st_buf st = [7] ++ bs ++ skipn (length bs) (repeat 255 33)
     /\ bs = flat_map le32
               (flat_map (fun g => group_of_6 (data ex_pic_10 0)
                                     (data ex_pic_10 1) (data ex_pic_10 2)
                                     (0 + 6 * g) (0 + 3 * g) (0 + 3 * g))
                  (zseq 0 (Z.to_nat (12 / 6)))))
  /\
  (exists st bs,
     v210_planar_pack_8_loop (data ex_pic_8 0) (data ex_pic_8 1)
       (data ex_pic_8 2)
       (mkState 0 0 0 0 (Z.of_nat (length [7])) ([7] ++ repeat 255 33)) 12
     = Some (12, st)
     /\ st_y st = 0 + 12 /\ st_u st = 0 + 12 / 2 /\ st_v st = 0 + 12 / 2
     /\ Z.of_nat (length bs) = 12 / 12 * 32
     /\ st_dst st = Z.of_nat (length [7]) + 12 / 12 * 32
     /\ st_buf st = [7] ++ bs ++ skipn (length bs) (repeat 255 33)
     /\ bs = flat_map le32
               (flat_map (fun g => group_of_6_8 (data ex_pic_8 0)
                                     (data ex_pic_8 1) (data ex_pic_8 2)
                                     (0 + 6 * g) (0 + 3 * g) (0 + 3 * g))
                  (zseq 0 (Z.to_nat (12 / 6))))).
Proof.
  split.
  - apply (C4_bulk_pack_size (data ex_pic_10 0) (data ex_pic_10 1)
             (data ex_pic_10 2) 0 0 0 0 12 [7] (repeat 255 33));
      [lia | vm_compute; lia | reflexivity].
  - apply (C4_bulk_pack_size (data ex_pic_8 0) (data ex_pic_8 1)
             (data ex_pic_8 2) 0 0 0 0 12 [7] (repeat 255 33));
      [lia | vm_compute; lia | reflexivity].
Defined.

(** C4 as the spec states it fails: on the six samples of the spec's own
    example the 10-bit packer writes 16 bytes, not [6 / 6 * 4 = 4]; all 16
    bytes of a buffer of 0xff are overwritten. *)
Lemma C4_counterexample :
  exists st,
    v210_planar_pack_10_loop (data ex_pic_10 0) (data ex_pic_10 1)
      (data ex_pic_10 2) (mkState 0 0 0 0 0 (repeat 255 16)) 6
    = Some (6, st)
    /\ st_buf st = [10; 144; 129; 2; 200; 80; 192; 18;
                   50; 64; 230; 1; 244; 241; 128; 37]
    /\ st_dst st = 16
    /\ st_dst st - 0 <> 6 / 6 * 4.
Proof.
  eexists. split; [vm_compute; reflexivity|].
  split; [vm_compute; reflexivity|]. split; [reflexivity|].
  vm_compute. discriminate.
Qed.

(** ** C5: the line size and the size of the packet *)

(** C5.  For an even width the byte count of a line, [stride], is
    [ceil(width / 48) * 48 * 8 / 3]: a multiple of 4 that is a function of the
    width alone, and the length of every encoded line of every format.  The
    buffer asked of the allocator has [height * stride] bytes, and on return
    each of them is determined by the frame: the packet is the same whatever
    the allocator handed out. *)
Theorem C5_stride_and_size
    (ff_alloc_packet2 : AVPacket -> Z -> Z -> Z * AVPacket)
    (av_packet_new_side_data : AVPacketSideDataType -> Z -> bool)
    (avctx : AVCodecContext) (pic : AVFrame) (pkt0 : AVPacket) (got0 : Z) :
  valid_call ff_alloc_packet2 avctx pic pkt0 ->
  (exists n, 48 * (n - 1) < width avctx <= 48 * n
             /\ stride_of (width avctx) = n * 48 * 8 / 3)
  /\ stride_of (width avctx) mod 4 = 0
  /\ (forall h, Z.of_nat (length (line_bytes avctx pic h))
                = stride_of (width avctx))
  /\ exists o,
       encode_frame ff_alloc_packet2 av_packet_new_side_data avctx pic pkt0
         got0 = Some o
       /\ Z.of_nat (length (pkt_data (pkt o)))
          = height avctx * stride_of (width avctx)
       /\ forall ff_alloc_packet2',
            valid_call ff_alloc_packet2' avctx pic pkt0 ->
            exists o',
              encode_frame ff_alloc_packet2' av_packet_new_side_data avctx
                pic pkt0 got0 = Some o'
              /\ pkt_data (pkt o') = pkt_data (pkt o).
Proof.
  intros Hv.
  destruct (valid_call_run ff_alloc_packet2 av_packet_new_side_data avctx pic
              pkt0 got0 Hv) as (o & E & D & _).
  pose proof Hv as (_ & HW & _ & HH & _).
  pose proof (stride_of_eq (width avctx) HW) as Hs.
  split; [|split; [|split]].
  - exists ((width avctx + 47) / 48). split.
    + Z.div_mod_to_equations. lia.
    + rewrite Hs. Z.div_mod_to_equations. lia.
  - rewrite Hs. Z.div_mod_to_equations. lia.
  - intros h. rewrite line_bytes_length by assumption.
    rewrite Hs. Z.div_mod_to_equations. lia.
  - exists o. split; [exact E|]. split.
    + rewrite D. now apply frame_bytes_length.
    + intros alloc' Hv'.
      destruct (valid_call_run alloc' av_packet_new_side_data avctx pic
                  pkt0 got0 Hv') as (o' & E' & D' & _).
      exists o'. split; [exact E'|]. congruence.
Qed.

Lemma C5_witness :
  (exists n, 48 * (n - 1) < 50 <= 48 * n
             /\ stride_of 50 = n * 48 * 8 / 3)
  /\ stride_of 50 mod 4 = 0
  /\ (forall h, Z.of_nat (length (line_bytes (ex_avctx 50 2) ex_pic_8 h))
                = stride_of 50)
  /\ exists o,
       encode_frame ex_alloc ex_side_data (ex_avctx 50 2) ex_pic_8 ex_pkt 0
       = Some o
       /\ Z.of_nat (length (pkt_data (pkt o))) = 2 * stride_of 50
       /\ forall ff_alloc_packet2',
            valid_call ff_alloc_packet2' (ex_avctx 50 2) ex_pic_8 ex_pkt ->
            exists o',
              encode_frame ff_alloc_packet2' ex_side_data (ex_avctx 50 2)
                ex_pic_8 ex_pkt 0 = Some o'
              /\ pkt_data (pkt o') = pkt_data (pkt o).
Proof.
  apply (C5_stride_and_size ex_alloc ex_side_data (ex_avctx 50 2) ex_pic_8
           ex_pkt 0).
  apply ex_valid_call; [lia | reflexivity | lia | simpl; auto].
Defined.

(** ** C7: the padding of a line *)

(** C7.  In the packet of an encoded frame, the last [line_padding] bytes of
    every line, from the end of the last content word to the stride, are
    there and are zero. *)
Theorem C7_line_padding_zero
    (ff_alloc_packet2 : AVPacket -> Z -> Z -> Z * AVPacket)
    (av_packet_new_side_data : AVPacketSideDataType -> Z -> bool)
    (avctx : AVCodecContext) (pic : AVFrame) (pkt0 : AVPacket) (got0 : Z) :
  valid_call ff_alloc_packet2 avctx pic pkt0 ->
  let stride := stride_of (width avctx) in
  let line_padding := line_padding_of (width avctx) in
  stride - line_padding = 4 * nwords (width avctx)
  /\ exists o,
       encode_frame ff_alloc_packet2 av_packet_new_side_data avctx pic pkt0
         got0 = Some o
       /\ forall h i,
            0 <= h < height avctx ->
            stride - line_padding <= i < stride ->
            nth_error (pkt_data (pkt o)) (Z.to_nat (h * stride + i)) = Some 0.
Proof.
  intros Hv. cbv zeta.
  destruct (valid_call_run ff_alloc_packet2 av_packet_new_side_data avctx pic
              pkt0 got0 Hv) as (o & E & D & _).
  destruct Hv as (_ & HW & _ & HH & _).
  assert (Hlp : stride_of (width avctx) - line_padding_of (width avctx)
                = 4 * nwords (width avctx))
    by (rewrite line_padding_of_eq; lia).
  split; [exact Hlp|].
  exists o. split; [exact E|]. intros h i Hh Hi. rewrite D.
  assert (0 <= nwords (width avctx))
    by (unfold nwords; Z.div_mod_to_equations; lia).
  pose proof (frame_bytes_length avctx pic HW HH) as Hlen.
  rewrite (nth_error_nth' _ 0) by nia.
  f_equal. apply (frame_pad avctx pic HW HH h i Hh). lia.
Qed.

Lemma C7_witness :
  stride_of 8 - line_padding_of 8 = 4 * nwords 8
  /\ exists o,
       encode_frame ex_alloc ex_side_data (ex_avctx 8 1) ex_pic_10 ex_pkt 0
       = Some o
       /\ forall h i,
            0 <= h < 1 ->
            stride_of 8 - line_padding_of 8 <= i < stride_of 8 ->
            nth_error (pkt_data (pkt o)) (Z.to_nat (h * stride_of 8 + i))
            = Some 0.
Proof.
  apply (C7_line_padding_zero ex_alloc ex_side_data (ex_avctx 8 1) ex_pic_10
           ex_pkt 0).
  apply ex_valid_call; [lia | reflexivity | lia | simpl; auto].
Defined.

(** ** C6, C9, C10: the samples of the frame in the packet *)

(** The input samples that output row [h] is packed from: luma [x], and the
    Cb and Cr of pixel pair [j]. *)
Definition src_luma (pic : AVFrame) (h x : Z) : Z :=
  data pic 0 (fst (fst (row_ptrs pic h)) + x).

Definition src_cb (pic : AVFrame) (h j : Z) : Z :=
  data pic 1 (snd (fst (row_ptrs pic h)) + j).

Definition src_cr (pic : AVFrame) (h j : Z) : Z :=
  data pic 2 (snd (row_ptrs pic h) + j).

(** C6.  Every sample of the frame is found in the packet as a 10-bit field:
    on the 10-bit path the field is [clip(s) = max(4, min(1019, s))], within
    [4,1019]; on the 8-bit paths it is [clip8(s) << 2] with [clip8(s)] within
    [1,254], so its two low bits are zero.  This holds for any sample values:
    the call returns, and with 0 when the side data can be allocated. *)
Theorem C6_fields_are_clamped
    (ff_alloc_packet2 : AVPacket -> Z -> Z -> Z * AVPacket)
    (av_packet_new_side_data : AVPacketSideDataType -> Z -> bool)
    (avctx : AVCodecContext) (pic : AVFrame) (pkt0 : AVPacket) (got0 : Z) :
  valid_call ff_alloc_packet2 avctx pic pkt0 ->
  exists o,
    encode_frame ff_alloc_packet2 av_packet_new_side_data avctx pic pkt0 got0
    = Some o
    /\ ((forall pt n, av_packet_new_side_data pt n = true) ->
        ret o = 0 /\ got_packet o = 1)
    /\ (forall s, CLIP s = Z.max 4 (Z.min 1019 s) /\ 4 <= CLIP s <= 1019)
    /\ (forall s, CLIP8 s = Z.max 1 (Z.min 254 s) /\ 1 <= CLIP8 s <= 254
                  /\ Z.land (Z.shiftl (CLIP8 s) 2) 3 = 0)
    /\ (format pic = AV_PIX_FMT_YUV422P10 ->
        (forall h x, 0 <= h < height avctx -> 0 <= x < width avctx ->
           out_luma avctx (pkt_data (pkt o)) h x = CLIP (src_luma pic h x))
        /\ (forall h j, 0 <= h < height avctx -> 0 <= j < width avctx / 2 ->
              out_cb avctx (pkt_data (pkt o)) h j = CLIP (src_cb pic h j)
              /\ out_cr avctx (pkt_data (pkt o)) h j = CLIP (src_cr pic h j)))
    /\ (format pic <> AV_PIX_FMT_YUV422P10 ->
        (forall h x, 0 <= h < height avctx -> 0 <= x < width avctx ->
           out_luma avctx (pkt_data (pkt o)) h x
           = Z.shiftl (CLIP8 (src_luma pic h x)) 2)
        /\ (forall h j, 0 <= h < height avctx -> 0 <= j < width avctx / 2 ->
              out_cb avctx (pkt_data (pkt o)) h j
              = Z.shiftl (CLIP8 (src_cb pic h j)) 2
              /\ out_cr avctx (pkt_data (pkt o)) h j
                 = Z.shiftl (CLIP8 (src_cr pic h j)) 2)).
Proof.
  intros Hv.
  destruct (valid_call_run ff_alloc_packet2 av_packet_new_side_data avctx pic
              pkt0 got0 Hv) as (o & E & D & R).
  destruct Hv as (_ & HW & _ & HH & _).
  exists o. split; [exact E|]. rewrite D.
  split; [|split; [|split; [|split]]].
  - intros Hsd. destruct R as [R | (_ & pt & n & N)]; [exact R|].
    rewrite Hsd in N. discriminate N.
  - intros s. split; [reflexivity|apply CLIP_range].
  - intros s. split; [reflexivity|]. split; [apply CLIP8_range|].
    apply Z.bits_inj'. intros i Hi.
    rewrite Z.land_spec, Z.bits_0.
    destruct (Z.lt_ge_cases i 2) as [Hlt | Hge].
    + now rewrite Z.shiftl_spec_low.
    + rewrite (testbit_small 3 2 i) by (change (2 ^ 2) with 4; lia).
      apply andb_false_r.
  - intros Hf. split.
    + intros h x Hh Hx. rewrite frame_luma by assumption.
      unfold field_of. now rewrite Hf.
    + intros h j Hh Hj. rewrite frame_cb, frame_cr by assumption.
      unfold field_of. rewrite Hf. split; reflexivity.
  - intros Hf.
    assert (F : field_of pic = field8)
      by (unfold field_of; destruct (format pic); congruence).
    split.
    + intros h x Hh Hx. rewrite frame_luma by assumption.
      now rewrite F.
    + intros h j Hh Hj. rewrite frame_cb, frame_cr by assumption.
      rewrite F. split; reflexivity.
Qed.

Lemma C6_witness :
  exists o,
    encode_frame ex_alloc ex_side_data (ex_avctx 8 1) ex_pic_8 ex_pkt 0
    = Some o
    /\ ((forall pt n, ex_side_data pt n = true) ->
        ret o = 0 /\ got_packet o = 1)
    /\ (forall s, CLIP s = Z.max 4 (Z.min 1019 s) /\ 4 <= CLIP s <= 1019)
    /\ (forall s, CLIP8 s = Z.max 1 (Z.min 254 s) /\ 1 <= CLIP8 s <= 254
                  /\ Z.land (Z.shiftl (CLIP8 s) 2) 3 = 0)
    /\ (format ex_pic_8 = AV_PIX_FMT_YUV422P10 ->
        (forall h x, 0 <= h < 1 -> 0 <= x < 8 ->
           out_luma (ex_avctx 8 1) (pkt_data (pkt o)) h x
           = CLIP (src_luma ex_pic_8 h x))
        /\ (forall h j, 0 <= h < 1 -> 0 <= j < 8 / 2 ->
              out_cb (ex_avctx 8 1) (pkt_data (pkt o)) h j
              = CLIP (src_cb ex_pic_8 h j)
              /\ out_cr (ex_avctx 8 1) (pkt_data (pkt o)) h j
                 = CLIP (src_cr ex_pic_8 h j)))
    /\ (format ex_pic_8 <> AV_PIX_FMT_YUV422P10 ->
        (forall h x, 0 <= h < 1 -> 0 <= x < 8 ->
           out_luma (ex_avctx 8 1) (pkt_data (pkt o)) h x
           = Z.shiftl (CLIP8 (src_luma ex_pic_8 h x)) 2)
        /\ (forall h j, 0 <= h < 1 -> 0 <= j < 8 / 2 ->
              out_cb (ex_avctx 8 1) (pkt_data (pkt o)) h j
              = Z.shiftl (CLIP8 (src_cb ex_pic_8 h j)) 2
              /\ out_cr (ex_avctx 8 1) (pkt_data (pkt o)) h j
                 = Z.shiftl (CLIP8 (src_cr ex_pic_8 h j)) 2)).
Proof.
  apply (C6_fields_are_clamped ex_alloc ex_side_data (ex_avctx 8 1) ex_pic_8
           ex_pkt 0).
  apply ex_valid_call; [lia | reflexivity | lia | simpl; auto].
Defined.

(** The out-of-range samples of [ex_pic_8] come out clamped: luma 0 as
    [1 << 2], luma 255 as [254 << 2], Cb 0 as [1 << 2]. *)
Example clamped_8 :
  exists o,
    encode_frame ex_alloc ex_side_data (ex_avctx 8 1) ex_pic_8 ex_pkt 0
    = Some o
    /\ ret o = 0
    /\ out_luma (ex_avctx 8 1) (pkt_data (pkt o)) 0 0 = 4
    /\ out_luma (ex_avctx 8 1) (pkt_data (pkt o)) 0 6 = 1016
    /\ out_cb (ex_avctx 8 1) (pkt_data (pkt o)) 0 1 = 4.
Proof.
  eexists. split; [vm_compute; reflexivity|].
  repeat split; vm_compute; reflexivity.
Qed.

(** The inverse of the field functions on legal samples. *)
Definition unpack_field (pic : AVFrame) (fld : Z) : Z :=
  match format pic with
  | AV_PIX_FMT_YUV422P10 => fld
  | _ => Z.shiftr fld 2
  end.

Definition legal_sample (pic : AVFrame) (s : Z) : Prop :=
  match format pic with
  | AV_PIX_FMT_YUV422P10 => 4 <= s <= 1019
  | _ => 1 <= s <= 254
  end.

Lemma unpack_field_legal (pic : AVFrame) (s : Z) :
  legal_sample pic s -> unpack_field pic (field_of pic s) = s.
Proof.
  unfold legal_sample, unpack_field, field_of.
  destruct (format pic); intros H;
    try (unfold field10, CLIP, av_clip; lia);
    unfold field8, CLIP8, av_clip;
    rewrite Z.shiftr_shiftl_l, Z.sub_diag, Z.shiftl_0_r by lia; lia.
Qed.

(** C9.  When the samples of the frame are all legal ([4,1019] on the 10-bit
    path, [1,254] on the 8-bit paths), unpacking the fields of the packet
    gives back, at every position of every row, the sample it was packed
    from. *)
Theorem C9_round_trip
    (ff_alloc_packet2 : AVPacket -> Z -> Z -> Z * AVPacket)
    (av_packet_new_side_data : AVPacketSideDataType -> Z -> bool)
    (avctx : AVCodecContext) (pic : AVFrame) (pkt0 : AVPacket) (got0 : Z) :
  valid_call ff_alloc_packet2 avctx pic pkt0 ->
  (forall h x, 0 <= h < height avctx -> 0 <= x < width avctx ->
     legal_sample pic (src_luma pic h x)) ->
  (forall h j, 0 <= h < height avctx -> 0 <= j < width avctx / 2 ->
     legal_sample pic (src_cb pic h j) /\ legal_sample pic (src_cr pic h j)) ->
  exists o,
    encode_frame ff_alloc_packet2 av_packet_new_side_data avctx pic pkt0 got0
    = Some o
    /\ (forall h x, 0 <= h < height avctx -> 0 <= x < width avctx ->
          unpack_field pic (out_luma avctx (pkt_data (pkt o)) h x)
          = src_luma pic h x)
    /\ (forall h j, 0 <= h < height avctx -> 0 <= j < width avctx / 2 ->
          unpack_field pic (out_cb avctx (pkt_data (pkt o)) h j)
          = src_cb pic h j
          /\ unpack_field pic (out_cr avctx (pkt_data (pkt o)) h j)
             = src_cr pic h j).
Proof.
  intros Hv Hy Hc.
  destruct (valid_call_run ff_alloc_packet2 av_packet_new_side_data avctx pic
              pkt0 got0 Hv) as (o & E & D & _).
  destruct Hv as (_ & HW & _ & HH & _).
  exists o. split; [exact E|]. rewrite D. split.
  - intros h x Hh Hx. rewrite frame_luma by assumption.
    apply unpack_field_legal. now apply Hy.
  - intros h j Hh Hj. rewrite frame_cb, frame_cr by assumption.
    destruct (Hc h j Hh Hj) as [Hb Hr].
    split; now apply unpack_field_legal.
Qed.

Lemma C9_witness :
  exists o,
    encode_frame ex_alloc ex_side_data (ex_avctx 8 1) ex_pic_10 ex_pkt 0
    = Some o
    /\ (forall h x, 0 <= h < 1 -> 0 <= x < 8 ->
          unpack_field ex_pic_10
            (out_luma (ex_avctx 8 1) (pkt_data (pkt o)) h x)
          = src_luma ex_pic_10 h x)
    /\ (forall h j, 0 <= h < 1 -> 0 <= j < 8 / 2 ->
          unpack_field ex_pic_10 (out_cb (ex_avctx 8 1) (pkt_data (pkt o)) h j)
          = src_cb ex_pic_10 h j
          /\ unpack_field ex_pic_10
               (out_cr (ex_avctx 8 1) (pkt_data (pkt o)) h j)
             = src_cr ex_pic_10 h j).
Proof.
  apply (C9_round_trip ex_alloc ex_side_data (ex_avctx 8 1) ex_pic_10
           ex_pkt 0).
  - apply ex_valid_call; [lia | reflexivity | lia | simpl; auto].
  - intros h x Hh Hx. cbn [ex_avctx height width] in Hh, Hx.
    assert (h = 0) as -> by lia.
    assert (x = 0 \/ x = 1 \/ x = 2 \/ x = 3 \/ x = 4 \/ x = 5 \/ x = 6
            \/ x = 7) as C by lia.
    destruct C as [-> | [-> | [-> | [-> | [-> | [-> | [-> | ->]]]]]]];
      vm_compute; split; discriminate.
  - intros h j Hh Hj. cbn [ex_avctx height width] in Hh, Hj.
    change (8 / 2) with 4 in Hj.
    assert (h = 0) as -> by lia.
    assert (j = 0 \/ j = 1 \/ j = 2 \/ j = 3) as C by lia.
    destruct C as [-> | [-> | [-> | ->]]];
      vm_compute; repeat split; discriminate.
Defined.

(** C10.  When the width is 2 modulo 6, the last content word of every line
    holds the field of the last luma sample of the row in bits 0-9 and nothing
    else: it is [clip(s)] on the 10-bit path and [clip8(s) << 2] on the 8-bit
    paths, and its bits from 10 up are zero. *)
Theorem C10_last_word_luma_only
    (ff_alloc_packet2 : AVPacket -> Z -> Z -> Z * AVPacket)
    (av_packet_new_side_data : AVPacketSideDataType -> Z -> bool)
    (avctx : AVCodecContext) (pic : AVFrame) (pkt0 : AVPacket) (got0 : Z) :
  valid_call ff_alloc_packet2 avctx pic pkt0 ->
  width avctx mod 6 = 2 ->
  let last := nwords (width avctx) - 1 in
  4 * (last + 1) = stride_of (width avctx) - line_padding_of (width avctx)
  /\ exists o,
       encode_frame ff_alloc_packet2 av_packet_new_side_data avctx pic pkt0
         got0 = Some o
       /\ forall h, 0 <= h < height avctx ->
            let w := out_word avctx (pkt_data (pkt o)) h last in
            w = field_of pic (src_luma pic h (width avctx - 1))
            /\ (format pic = AV_PIX_FMT_YUV422P10 ->
                w = CLIP (src_luma pic h (width avctx - 1)))
            /\ (format pic <> AV_PIX_FMT_YUV422P10 ->
                w = Z.shiftl (CLIP8 (src_luma pic h (width avctx - 1))) 2)
            /\ 0 <= w < 1024
            /\ Z.shiftr w 10 = 0.
Proof.
  intros Hv H6. cbv zeta.
  destruct (valid_call_run ff_alloc_packet2 av_packet_new_side_data avctx pic
              pkt0 got0 Hv) as (o & E & D & _).
  destruct Hv as (_ & HW & _ & HH & _).
  split; [rewrite line_padding_of_eq by assumption; lia|].
  exists o. split; [exact E|]. intros h Hh. rewrite D.
  set (q := width avctx / 6).
  assert (Hq : width avctx = 6 * q + 2)
    by (unfold q; Z.div_mod_to_equations; lia).
  assert (Hn : nwords (width avctx) - 1 = 4 * q + 1)
    by (unfold nwords; Z.div_mod_to_equations; lia).
  assert (Hword : out_word avctx (frame_bytes avctx pic) h
                    (nwords (width avctx) - 1)
                  = field_of pic (src_luma pic h (width avctx - 1))).
  { rewrite frame_word by (try assumption; lia).
    unfold src_luma. destruct (row_ptrs pic h) as [[y u] v]. cbn [fst].
    rewrite Hn. unfold word.
    rewrite (field_shift _ _ _ _ (width avctx) y u v q 3) by lia.
    rewrite !field_past by lia. rewrite word3_0_0.
    unfold component. eval_consts.
    f_equal. f_equal. lia. }
  rewrite Hword.
  pose proof (field_of_range pic (src_luma pic h (width avctx - 1))) as Hr.
  split; [reflexivity|]. split; [|split; [|split]].
  - intros Hf. unfold field_of. now rewrite Hf.
  - intros Hf. unfold field_of.
    destruct (format pic); [contradiction | reflexivity ..].
  - exact Hr.
  - apply Z.shiftr_eq_0; [lia|].
    destruct (Z.eq_dec (field_of pic (src_luma pic h (width avctx - 1))) 0)
      as [-> | Hne]; [reflexivity|].
    apply Z.log2_lt_pow2; [lia|]. change (2 ^ 10) with 1024. lia.
Qed.

Lemma C10_witness :
  4 * (nwords 8 - 1 + 1) = stride_of 8 - line_padding_of 8
  /\ exists o,
       encode_frame ex_alloc ex_side_data (ex_avctx 8 1) ex_pic_8 ex_pkt 0
       = Some o
       /\ forall h, 0 <= h < 1 ->
            let w := out_word (ex_avctx 8 1) (pkt_data (pkt o)) h
                       (nwords 8 - 1) in
            w = field_of ex_pic_8 (src_luma ex_pic_8 h (8 - 1))
            /\ (format ex_pic_8 = AV_PIX_FMT_YUV422P10 ->
                w = CLIP (src_luma ex_pic_8 h (8 - 1)))
            /\ (format ex_pic_8 <> AV_PIX_FMT_YUV422P10 ->
                w = Z.shiftl (CLIP8 (src_luma ex_pic_8 h (8 - 1))) 2)
            /\ 0 <= w < 1024
            /\ Z.shiftr w 10 = 0.
Proof.
  apply (C10_last_word_luma_only ex_alloc ex_side_data (ex_avctx 8 1)
           ex_pic_8 ex_pkt 0).
  - apply ex_valid_call; [lia | reflexivity | lia | simpl; auto].
  - reflexivity.
Defined.

(** The last content word of the 8-pixel lines: luma 800 on the 10-bit path,
    luma 235 << 2 on the 8-bit path. *)
Example last_word_8_pixels :
  (exists o,
     encode_frame ex_alloc ex_side_data (ex_avctx 8 1) ex_pic_10 ex_pkt 0
     = Some o
     /\ out_word (ex_avctx 8 1) (pkt_data (pkt o)) 0 5 = 800)
  /\ (exists o,
        encode_frame ex_alloc ex_side_data (ex_avctx 8 1) ex_pic_8 ex_pkt 0
        = Some o
        /\ out_word (ex_avctx 8 1) (pkt_data (pkt o)) 0 5 = 940).
Proof.
  split; eexists; (split; [vm_compute; reflexivity|]); vm_compute; reflexivity.
Qed.

(** ** C8: the width check *)

Lemma land_1_odd (w : Z) : (Z.land w 1 =? 0) = negb (Z.odd w).
Proof.
  change 1 with (Z.ones 1). rewrite Z.land_ones by lia.
  change (2 ^ 1) with 2. rewrite Zmod_odd. now destruct (Z.odd w).
Qed.

Lemma encode_frame_ret
    (ff_alloc_packet2 : AVPacket -> Z -> Z -> Z * AVPacket)
    (av_packet_new_side_data : AVPacketSideDataType -> Z -> bool)
    (avctx : AVCodecContext) (pic : AVFrame) (pkt0 : AVPacket) (got0 : Z)
    (o : outcome) :
  encode_frame ff_alloc_packet2 av_packet_new_side_data avctx pic pkt0 got0
  = Some o ->
  ret o = 0 \/ ret o = AVERROR ENOMEM
  \/ (ret o < 0 /\
      ret o = fst (ff_alloc_packet2 pkt0
                     (height avctx * stride_of (width avctx))
                     (height avctx * stride_of (width avctx)))).
Proof.
  unfold encode_frame.
  destruct (ff_alloc_packet2 _ _ _) as [r p1]. cbn [fst].
  destruct (r <? 0) eqn:E.
  - intros [= <-]. cbn. right. right. apply Z.ltb_lt in E. lia.
  - destruct (encode_pixels avctx pic (pkt_data p1)) as [b|];
      [|discriminate].
    match goal with
    | |- context [copy_all_side_data _ _ ?p] =>
        destruct (copy_all_side_data_cases av_packet_new_side_data pic p)
          as (p' & _ & _ & [-> | [-> _]])
    end.
    + change (0 <? 0) with false. cbv iota. intros [= <-]. cbn. auto.
    + change (AVERROR ENOMEM <? 0) with true. cbv iota.
      intros [= <-]. cbn. auto.
Qed.

(** C8.  [encode_init] fails exactly when the width is odd, and then with
    [AVERROR(EINVAL)], a negative code, leaving the context as it found it;
    for an even width it returns 0.  A session whose width is odd processes
    no frame; one whose width is even hands every frame to [encode_frame],
    which has no width check of its own: whatever it returns is 0, the
    allocator's error or [AVERROR(ENOMEM)]. *)
Theorem C8_width_check (ARCH_X86 : bool)
    (ff_v210enc_init_x86 : V210EncContext -> V210EncContext)
    (FF_API_CODED_FRAME : bool)
    (ff_guess_coded_bitrate : AVCodecContext -> Z)
    (ff_alloc_packet2 : AVPacket -> Z -> Z -> Z * AVPacket)
    (av_packet_new_side_data : AVPacketSideDataType -> Z -> bool)
    (avctx : AVCodecContext) (pkt0 : AVPacket) (frames : list AVFrame) :
  let init := encode_init ARCH_X86 ff_v210enc_init_x86 FF_API_CODED_FRAME
                ff_guess_coded_bitrate avctx in
  let session := encode_session ARCH_X86 ff_v210enc_init_x86
                   FF_API_CODED_FRAME ff_guess_coded_bitrate ff_alloc_packet2
                   av_packet_new_side_data avctx pkt0 frames in
  AVERROR EINVAL < 0
  /\ (fst init = AVERROR EINVAL <-> Z.odd (width avctx) = true)
  /\ (fst init < 0 <-> Z.odd (width avctx) = true)
  /\ (fst init = 0 <-> Z.even (width avctx) = true)
  /\ (Z.odd (width avctx) = true ->
      snd init = avctx /\ session = (AVERROR EINVAL, []))
  /\ (Z.even (width avctx) = true ->
      session = (0, map (fun pic => encode_frame ff_alloc_packet2
                                      av_packet_new_side_data (snd init) pic
                                      pkt0 0) frames))
  /\ (forall c pic got0 o,
        encode_frame ff_alloc_packet2 av_packet_new_side_data c pic pkt0 got0
        = Some o ->
        ret o = 0 \/ ret o = AVERROR ENOMEM
        \/ (ret o < 0 /\
            ret o = fst (ff_alloc_packet2 pkt0
                           (height c * stride_of (width c))
                           (height c * stride_of (width c))))).
Proof.
  cbv zeta. unfold encode_session, encode_init.
  rewrite land_1_odd, Bool.negb_involutive, <- Z.negb_odd.
  destruct (Z.odd (width avctx)); cbn [fst snd negb].
  - change (AVERROR EINVAL <? 0) with true. cbv iota.
    repeat split; try reflexivity; try discriminate;
      try (intros H; discriminate H);
      intros; eapply encode_frame_ret; eassumption.
  - change (0 <? 0) with false. cbv iota.
    repeat split; try reflexivity; try discriminate;
      try (intros H; discriminate H);
      intros; eapply encode_frame_ret; eassumption.
Qed.

(** [encode_frame] takes an odd width as it comes: a 3x1 frame is encoded
    and 0 returned. *)
Example encode_frame_odd_width :
  exists o,
    encode_frame ex_alloc ex_side_data (ex_avctx 3 1) ex_pic_10 ex_pkt 0
    = Some o /\ ret o = 0 /\ got_packet o = 1.
Proof. eexists. split; [vm_compute; reflexivity|]. split; reflexivity. Qed.

Lemma C8_witness :
  fst (encode_init false (fun s => s) false (fun _ => 0)
         (mkAVCodecContext 5 4 0 0 0 c_context)) = AVERROR EINVAL
  /\ encode_session false (fun s => s) false (fun _ => 0) ex_alloc
       ex_side_data (mkAVCodecContext 5 4 0 0 0 c_context) ex_pkt
       [ex_pic_10; ex_pic_8]
     = (AVERROR EINVAL, [])
  /\ fst (encode_init false (fun s => s) false (fun _ => 0)
            (mkAVCodecContext 6 4 0 0 0 c_context)) = 0.
Proof.
  destruct (C8_width_check false (fun s => s) false (fun _ => 0) ex_alloc
              ex_side_data (mkAVCodecContext 5 4 0 0 0 c_context) ex_pkt
              [ex_pic_10; ex_pic_8]) as (_ & H1 & _ & _ & H4 & _).
  destruct (C8_width_check false (fun s => s) false (fun _ => 0) ex_alloc
              ex_side_data (mkAVCodecContext 6 4 0 0 0 c_context) ex_pkt
              [ex_pic_10; ex_pic_8]) as (_ & _ & _ & H3 & _).
  split; [apply H1; reflexivity|].
  split; [apply H4; reflexivity | apply H3; reflexivity].
Defined.

(** ** The example of the spec *)

(** Width 6, height 1, 10-bit 4:2:2, Y = 100..600, U = 10, 20, 30,
    V = 40, 50, 60: the line starts with the 16 bytes of four words, word 1
    being U0 | Y0 << 10 | V0 << 20, and is zero up to the stride of 128. *)
Example spec_example :
  exists o,
    encode_frame ex_alloc ex_side_data (ex_avctx 6 1) ex_pic_10 ex_pkt 0
    = Some o
    /\ ret o = 0 /\ got_packet o = 1
    /\ pkt_data (pkt o)
       = flat_map le32
           [word3 10 100 40; word3 200 20 300; word3 50 400 30;
            word3 500 60 600]
         ++ repeat 0 112.
Proof.
  eexists. split; [vm_compute; reflexivity|].
  split; [reflexivity|]. split; [reflexivity|]. vm_compute. reflexivity.
Qed.

(** * Further properties of the encoder *)

(** ** Chroma rows of progressive 4:2:0 and of 4:2:2 input *)

(** X1.  For a 4:2:0 frame that is not marked interlaced, output row [h]
    carries chroma line [h / 2] of the input: rows [2k] and [2k+1] carry the
    same chroma. *)
Theorem X1_progressive_chroma_rows
    (ff_alloc_packet2 : AVPacket -> Z -> Z -> Z * AVPacket)
    (av_packet_new_side_data : AVPacketSideDataType -> Z -> bool)
    (avctx : AVCodecContext) (pic : AVFrame) (pkt0 : AVPacket) (got0 : Z) :
  valid_call ff_alloc_packet2 avctx pic pkt0 ->
  format pic = AV_PIX_FMT_YUV420P -> interlaced_frame pic <> 1 ->
  exists o,
    encode_frame ff_alloc_packet2 av_packet_new_side_data avctx pic pkt0 got0
    = Some o /\
    (forall h j, 0 <= h < height avctx -> 0 <= j < width avctx / 2 ->
       out_cb avctx (pkt_data (pkt o)) h j
       = Z.shiftl (CLIP8 (data pic 1 (h / 2 * linesize pic 1 + j))) 2
       /\ out_cr avctx (pkt_data (pkt o)) h j
          = Z.shiftl (CLIP8 (data pic 2 (h / 2 * linesize pic 2 + j))) 2)
    /\
    (forall k j, 0 <= k -> 2 * k + 1 < height avctx ->
       0 <= j < width avctx / 2 ->
       out_cb avctx (pkt_data (pkt o)) (2 * k) j
       = out_cb avctx (pkt_data (pkt o)) (2 * k + 1) j
       /\ out_cr avctx (pkt_data (pkt o)) (2 * k) j
          = out_cr avctx (pkt_data (pkt o)) (2 * k + 1) j).
Proof.
  intros Hv Hfmt Hil.
  destruct (valid_call_run ff_alloc_packet2 av_packet_new_side_data avctx pic
              pkt0 got0 Hv) as (o & E & D & _).
  destruct Hv as (_ & HW & _ & HH & _).
  exists o. split; [exact E|]. rewrite D.
  assert (Hrow : forall h j, 0 <= h < height avctx ->
            0 <= j < width avctx / 2 ->
            out_cb avctx (frame_bytes avctx pic) h j
            = Z.shiftl (CLIP8 (data pic 1 (h / 2 * linesize pic 1 + j))) 2
            /\ out_cr avctx (frame_bytes avctx pic) h j
               = Z.shiftl (CLIP8 (data pic 2 (h / 2 * linesize pic 2 + j))) 2).
  { intros h j Hh Hj.
    rewrite frame_cb, frame_cr by assumption.
    unfold row_ptrs, field_of, chroma_row. rewrite Hfmt.
    destruct (interlaced_frame pic =? 1) eqn:E1;
      [apply Z.eqb_eq in E1; contradiction|].
    cbn [fst snd]. split; reflexivity. }
  split; [exact Hrow|].
  intros k j Hk Hlt Hj.
  destruct (Hrow (2 * k) j ltac:(lia) Hj) as [-> ->].
  destruct (Hrow (2 * k + 1) j ltac:(lia) Hj) as [-> ->].
  replace ((2 * k + 1) / 2) with ((2 * k) / 2)
    by (Z.div_mod_to_equations; lia).
  split; reflexivity.
Qed.

(** A 2x4 progressive 4:2:0 frame with two chroma lines. *)
Definition ex_pic_420p : AVFrame :=
  mkAVFrame AV_PIX_FMT_YUV420P 0
    (fun i => if i =? 0 then plane_of [100; 101; 102; 103; 104; 105; 106; 107]
              else if i =? 1 then plane_of [10; 20]
              else plane_of [40; 50])
    (fun i => if i =? 0 then 2 else 1) 0 (fun _ => None).

Lemma X1_witness :
  exists o,
    encode_frame ex_alloc ex_side_data (ex_avctx 2 4) ex_pic_420p ex_pkt 0
    = Some o /\
    (forall h j, 0 <= h < 4 -> 0 <= j < 2 / 2 ->
       out_cb (ex_avctx 2 4) (pkt_data (pkt o)) h j
       = Z.shiftl (CLIP8 (data ex_pic_420p 1 (h / 2 * 1 + j))) 2
       /\ out_cr (ex_avctx 2 4) (pkt_data (pkt o)) h j
          = Z.shiftl (CLIP8 (data ex_pic_420p 2 (h / 2 * 1 + j))) 2)
    /\
    (forall k j, 0 <= k -> 2 * k + 1 < 4 -> 0 <= j < 2 / 2 ->
       out_cb (ex_avctx 2 4) (pkt_data (pkt o)) (2 * k) j
       = out_cb (ex_avctx 2 4) (pkt_data (pkt o)) (2 * k + 1) j
       /\ out_cr (ex_avctx 2 4) (pkt_data (pkt o)) (2 * k) j
          = out_cr (ex_avctx 2 4) (pkt_data (pkt o)) (2 * k + 1) j).
Proof.
  apply (X1_progressive_chroma_rows ex_alloc ex_side_data (ex_avctx 2 4)
           ex_pic_420p ex_pkt 0).
  - apply ex_valid_call; [lia | reflexivity | lia | simpl; auto].
  - reflexivity.
  - discriminate.
Defined.

(** X2.  Where the samples of output row [h] are read.  Luma [x] is element
    [h * linesize[0] + x] of plane 0 on the 8-bit paths and element
    [h * (linesize[0] / 2) + x] on the 10-bit path, the line size being in
    bytes and the division the truncating one of C; the chroma of a 4:2:2
    frame is read at the same row of its plane.  Nothing is asked of the line
    sizes: they may exceed the width or be negative. *)
Theorem X2_sample_addresses
    (ff_alloc_packet2 : AVPacket -> Z -> Z -> Z * AVPacket)
    (av_packet_new_side_data : AVPacketSideDataType -> Z -> bool)
    (avctx : AVCodecContext) (pic : AVFrame) (pkt0 : AVPacket) (got0 : Z) :
  valid_call ff_alloc_packet2 avctx pic pkt0 ->
  exists o,
    encode_frame ff_alloc_packet2 av_packet_new_side_data avctx pic pkt0 got0
    = Some o /\
    (format pic = AV_PIX_FMT_YUV422P10 ->
     (forall h x, 0 <= h < height avctx -> 0 <= x < width avctx ->
        out_luma avctx (pkt_data (pkt o)) h x
        = CLIP (data pic 0 (h * Z.quot (linesize pic 0) 2 + x)))
     /\ (forall h j, 0 <= h < height avctx -> 0 <= j < width avctx / 2 ->
           out_cb avctx (pkt_data (pkt o)) h j
           = CLIP (data pic 1 (h * Z.quot (linesize pic 1) 2 + j))
           /\ out_cr avctx (pkt_data (pkt o)) h j
              = CLIP (data pic 2 (h * Z.quot (linesize pic 2) 2 + j))))
    /\
    (format pic <> AV_PIX_FMT_YUV422P10 ->
     forall h x, 0 <= h < height avctx -> 0 <= x < width avctx ->
       out_luma avctx (pkt_data (pkt o)) h x
       = Z.shiftl (CLIP8 (data pic 0 (h * linesize pic 0 + x))) 2)
    /\
    (format pic = AV_PIX_FMT_YUV422P ->
     forall h j, 0 <= h < height avctx -> 0 <= j < width avctx / 2 ->
       out_cb avctx (pkt_data (pkt o)) h j
       = Z.shiftl (CLIP8 (data pic 1 (h * linesize pic 1 + j))) 2
       /\ out_cr avctx (pkt_data (pkt o)) h j
          = Z.shiftl (CLIP8 (data pic 2 (h * linesize pic 2 + j))) 2).
Proof.
  intros Hv.
  destruct (valid_call_run ff_alloc_packet2 av_packet_new_side_data avctx pic
              pkt0 got0 Hv) as (o & E & D & _).
  destruct Hv as (_ & HW & _ & HH & _).
  exists o. split; [exact E|]. rewrite D.
  split; [|split].
  - intros Hf. split.
    + intros h x Hh Hx. rewrite frame_luma by assumption.
      unfold row_ptrs, field_of. now rewrite Hf.
    + intros h j Hh Hj. rewrite frame_cb, frame_cr by assumption.
      unfold row_ptrs, field_of. rewrite Hf. split; reflexivity.
  - intros Hf h x Hh Hx. rewrite frame_luma by assumption.
    unfold row_ptrs, field_of.
    destruct (format pic); [contradiction | reflexivity ..].
  - intros Hf h j Hh Hj. rewrite frame_cb, frame_cr by assumption.
    unfold row_ptrs, field_of, chroma_row. rewrite Hf. split; reflexivity.
Qed.

(** A 10-bit 2x2 frame stored bottom-up: line sizes of -4 bytes, the
    plane pointers at the bottom row. *)
Definition ex_pic_10_flipped : AVFrame :=
  mkAVFrame AV_PIX_FMT_YUV422P10 0
    (fun i k => if i =? 0 then 500 + k else if i =? 1 then 300 + k
                else 700 + k)
    (fun i => -4) 0 (fun _ => None).

Lemma X2_witness :
  exists o,
    encode_frame ex_alloc ex_side_data (ex_avctx 2 2) ex_pic_10_flipped
      ex_pkt 0 = Some o /\
    (format ex_pic_10_flipped = AV_PIX_FMT_YUV422P10 ->
     (forall h x, 0 <= h < 2 -> 0 <= x < 2 ->
        out_luma (ex_avctx 2 2) (pkt_data (pkt o)) h x
        = CLIP (data ex_pic_10_flipped 0 (h * Z.quot (-4) 2 + x)))
     /\ (forall h j, 0 <= h < 2 -> 0 <= j < 2 / 2 ->
           out_cb (ex_avctx 2 2) (pkt_data (pkt o)) h j
           = CLIP (data ex_pic_10_flipped 1 (h * Z.quot (-4) 2 + j))
           /\ out_cr (ex_avctx 2 2) (pkt_data (pkt o)) h j
              = CLIP (data ex_pic_10_flipped 2 (h * Z.quot (-4) 2 + j))))
    /\
    (format ex_pic_10_flipped <> AV_PIX_FMT_YUV422P10 ->
     forall h x, 0 <= h < 2 -> 0 <= x < 2 ->
       out_luma (ex_avctx 2 2) (pkt_data (pkt o)) h x
       = Z.shiftl (CLIP8 (data ex_pic_10_flipped 0 (h * -4 + x))) 2)
    /\
    (format ex_pic_10_flipped = AV_PIX_FMT_YUV422P ->
     forall h j, 0 <= h < 2 -> 0 <= j < 2 / 2 ->
       out_cb (ex_avctx 2 2) (pkt_data (pkt o)) h j
       = Z.shiftl (CLIP8 (data ex_pic_10_flipped 1 (h * -4 + j))) 2
       /\ out_cr (ex_avctx 2 2) (pkt_data (pkt o)) h j
          = Z.shiftl (CLIP8 (data ex_pic_10_flipped 2 (h * -4 + j))) 2).
Proof.
  apply (X2_sample_addresses ex_alloc ex_side_data (ex_avctx 2 2)
           ex_pic_10_flipped ex_pkt 0).
  apply ex_valid_call; [lia | reflexivity | lia | simpl; auto].
Defined.

(** ** What the packet depends on *)

Lemma In_zseq (k a : Z) (n : nat) :
  In k (zseq a n) -> a <= k < a + Z.of_nat n.
Proof.
  revert a. induction n as [|n IH]; intros a H; [destruct H|].
  cbn [zseq In] in H. destruct H as [<- | H]; [lia|].
  apply IH in H. lia.
Qed.

Lemma row_bytes_ext (f f' : Z -> Z) (Yp Up Vp Yp' Up' Vp' : plane)
    (W y u v y' u' v' : Z) :
  (forall c, 0 <= c < 2 * W ->
     component f Yp Up Vp y u v c = component f' Yp' Up' Vp' y' u' v' c) ->
  row_bytes f Yp Up Vp W y u v = row_bytes f' Yp' Up' Vp' W y' u' v'.
Proof.
  intros H. unfold row_bytes, words_bytes. do 2 f_equal.
  apply map_ext_in. intros k Hk. apply In_zseq in Hk.
  assert (F : forall c, 0 <= c ->
            field f Yp Up Vp W y u v c = field f' Yp' Up' Vp' W y' u' v' c).
  { intros c Hc. unfold field.
    destruct (c <? 2 * W) eqn:E; [|reflexivity].
    apply Z.ltb_lt in E. apply H. lia. }
  unfold word. now rewrite !F by lia.
Qed.

(** Two frames whose rows hold the same fields encode to the same bytes. *)
Lemma frame_bytes_ext (avctx : AVCodecContext) (pic pic' : AVFrame) :
  (forall h c, 0 <= h < height avctx -> 0 <= c < 2 * width avctx ->
     (let '(y, u, v) := row_ptrs pic h in
      component (field_of pic) (data pic 0) (data pic 1) (data pic 2) y u v c)
     = (let '(y, u, v) := row_ptrs pic' h in
        component (field_of pic') (data pic' 0) (data pic' 1) (data pic' 2)
          y u v c)) ->
  frame_bytes avctx pic = frame_bytes avctx pic'.
Proof.
  intros H. unfold frame_bytes.
  assert (G : forall l,
             (forall h, In h l -> 0 <= h < height avctx) ->
             flat_map (line_bytes avctx pic) l
             = flat_map (line_bytes avctx pic') l).
  { induction l as [|h l IH]; intros Hl; [reflexivity|].
    cbn [flat_map]. rewrite IH by (intros; apply Hl; now right).
    f_equal. unfold line_bytes.
    specialize (H h). specialize (Hl h (or_introl eq_refl)).
    destruct (row_ptrs pic h) as [[y u] v].
    destruct (row_ptrs pic' h) as [[y' u'] v'].
    apply row_bytes_ext. intros c Hc. now apply H. }
  apply G. intros h Hh. apply In_zseq in Hh. lia.
Qed.

(** The field of component [c] of a row, by the sample it comes from. *)
Lemma component_src (pic : AVFrame) (W h c : Z) :
  0 <= c < 2 * W -> W mod 2 = 0 ->
  (let '(y, u, v) := row_ptrs pic h in
   component (field_of pic) (data pic 0) (data pic 1) (data pic 2) y u v c)
  = field_of pic
      (if c mod 2 =? 1 then src_luma pic h (c / 2)
       else if c mod 4 =? 0 then src_cb pic h (c / 4)
       else src_cr pic h (c / 4))
  /\ 0 <= c / 2 < W /\ (c mod 2 = 0 -> 0 <= c / 4 < W / 2).
Proof.
  intros Hc He. unfold src_luma, src_cb, src_cr.
  destruct (row_ptrs pic h) as [[y u] v]. cbn [fst snd]. unfold component.
  split; [|split; [|intros Hm]]; try (Z.div_mod_to_equations; lia).
  destruct (c mod 2 =? 1); [reflexivity|].
  destruct (c mod 4 =? 0); reflexivity.
Qed.

(** X3.  The packet depends on the frame only through the samples of its
    rows: two frames of one format that hold the same luma at the [width]
    positions and the same chroma at the [width / 2] positions of every row
    a line is packed from, encode to the same packet data, whatever else
    their planes hold (the elements between the width and the line size) and
    whatever their line sizes. *)
Theorem X3_only_row_samples_matter
    (ff_alloc_packet2 : AVPacket -> Z -> Z -> Z * AVPacket)
    (av_packet_new_side_data : AVPacketSideDataType -> Z -> bool)
    (avctx : AVCodecContext) (pic pic' : AVFrame) (pkt0 : AVPacket)
    (got0 : Z) :
  valid_call ff_alloc_packet2 avctx pic pkt0 ->
  format pic' = format pic ->
  (forall h x, 0 <= h < height avctx -> 0 <= x < width avctx ->
     src_luma pic' h x = src_luma pic h x) ->
  (forall h j, 0 <= h < height avctx -> 0 <= j < width avctx / 2 ->
     src_cb pic' h j = src_cb pic h j /\ src_cr pic' h j = src_cr pic h j) ->
  exists o o',
    encode_frame ff_alloc_packet2 av_packet_new_side_data avctx pic pkt0 got0
    = Some o
    /\ encode_frame ff_alloc_packet2 av_packet_new_side_data avctx pic' pkt0
         got0 = Some o'
    /\ pkt_data (pkt o') = pkt_data (pkt o).
Proof.
  intros Hv Hf Hy Hc.
  assert (Hv' : valid_call ff_alloc_packet2 avctx pic' pkt0).
  { destruct Hv as (H1 & H2 & H3 & H4 & H5 & H6 & H7).
    unfold valid_call. rewrite Hf.
    exact (conj H1 (conj H2 (conj H3 (conj H4 (conj H5 (conj H6 H7)))))). }
  destruct (valid_call_run ff_alloc_packet2 av_packet_new_side_data avctx pic
              pkt0 got0 Hv) as (o & E & D & _).
  destruct (valid_call_run ff_alloc_packet2 av_packet_new_side_data avctx pic'
              pkt0 got0 Hv') as (o' & E' & D' & _).
  destruct Hv as (_ & HW & He & HH & _).
  exists o, o'. split; [exact E|]. split; [exact E'|]. rewrite D, D'.
  apply frame_bytes_ext. intros h c Hh Hcc.
  destruct (component_src pic (width avctx) h c Hcc He) as (-> & B1 & B2).
  destruct (component_src pic' (width avctx) h c Hcc He) as (-> & _ & _).
  assert (Ff : field_of pic' = field_of pic)
    by (unfold field_of; now rewrite Hf).
  rewrite Ff. f_equal.
  destruct (c mod 2 =? 1) eqn:E2.
  - now apply Hy.
  - apply Z.eqb_neq in E2.
    assert (c mod 2 = 0) as M by (Z.div_mod_to_equations; lia).
    destruct (Hc h (c / 4) Hh (B2 M)) as [Hb Hr].
    destruct (c mod 4 =? 0); assumption.
Qed.

(** [ex_pic_8] with other line sizes and other bytes after the eight pixels
    of the row. *)
Definition ex_pic_8_padded : AVFrame :=
  mkAVFrame AV_PIX_FMT_YUV422P 0
    (fun i => if i =? 0
              then plane_of [0; 16; 32; 48; 64; 80; 255; 235; 77; 78; 79]
              else if i =? 1 then plane_of [128; 0; 255; 200; 99]
              else plane_of [90; 91; 92; 93; 5; 6])
    (fun i => if i =? 0 then 32 else 16) 0 (fun _ => None).

Lemma X3_witness :
  exists o o',
    encode_frame ex_alloc ex_side_data (ex_avctx 8 1) ex_pic_8 ex_pkt 0
    = Some o
    /\ encode_frame ex_alloc ex_side_data (ex_avctx 8 1) ex_pic_8_padded
         ex_pkt 0 = Some o'
    /\ pkt_data (pkt o') = pkt_data (pkt o).
Proof.
  apply (X3_only_row_samples_matter ex_alloc ex_side_data (ex_avctx 8 1)
           ex_pic_8 ex_pic_8_padded ex_pkt 0).
  - apply ex_valid_call; [lia | reflexivity | lia | simpl; auto].
  - reflexivity.
  - intros h x Hh Hx. cbn [ex_avctx height width] in Hh, Hx.
    assert (h = 0) as -> by lia.
    assert (x = 0 \/ x = 1 \/ x = 2 \/ x = 3 \/ x = 4 \/ x = 5 \/ x = 6
            \/ x = 7) as C by lia.
    destruct C as [-> | [-> | [-> | [-> | [-> | [-> | [-> | ->]]]]]]];
      vm_compute; reflexivity.
  - intros h j Hh Hj. cbn [ex_avctx height width] in Hh, Hj.
    change (8 / 2) with 4 in Hj.
    assert (h = 0) as -> by lia.
    assert (j = 0 \/ j = 1 \/ j = 2 \/ j = 3) as C by lia.
    destruct C as [-> | [-> | [-> | ->]]];
      vm_compute; split; reflexivity.
Defined.

(** X4.  An 8-bit 4:2:2 frame encodes to the packet of the 10-bit 4:2:2
    frame that holds [clip8(s) << 2] for each of its samples [s] (at twice
    the line size in bytes): the 8-bit path is the 10-bit path after the
    upscaling, bit for bit. *)
Theorem X4_8bit_is_upscaled_10bit
    (ff_alloc_packet2 : AVPacket -> Z -> Z -> Z * AVPacket)
    (av_packet_new_side_data : AVPacketSideDataType -> Z -> bool)
    (avctx : AVCodecContext) (pic8 pic10 : AVFrame) (pkt0 : AVPacket)
    (got0 : Z) :
  valid_call ff_alloc_packet2 avctx pic8 pkt0 ->
  format pic8 = AV_PIX_FMT_YUV422P ->
  format pic10 = AV_PIX_FMT_YUV422P10 ->
  (forall i, 0 <= i <= 2 -> linesize pic10 i = 2 * linesize pic8 i) ->
  (forall i k, 0 <= i <= 2 ->
     data pic10 i k = Z.shiftl (CLIP8 (data pic8 i k)) 2) ->
  exists o8 o10,
    encode_frame ff_alloc_packet2 av_packet_new_side_data avctx pic8 pkt0
      got0 = Some o8
    /\ encode_frame ff_alloc_packet2 av_packet_new_side_data avctx pic10 pkt0
         got0 = Some o10
    /\ pkt_data (pkt o10) = pkt_data (pkt o8).
Proof.
  intros Hv H8 H10 Hls Hd.
  assert (Hv' : valid_call ff_alloc_packet2 avctx pic10 pkt0).
  { destruct Hv as (H1 & H2 & H3 & H4 & H5 & H6 & H7).
    unfold valid_call. rewrite H10.
    refine (conj H1 (conj H2 (conj H3 (conj H4 (conj _ (conj H6 H7)))))).
    cbn. auto. }
  destruct (valid_call_run ff_alloc_packet2 av_packet_new_side_data avctx
              pic8 pkt0 got0 Hv) as (o & E & D & _).
  destruct (valid_call_run ff_alloc_packet2 av_packet_new_side_data avctx
              pic10 pkt0 got0 Hv') as (o' & E' & D' & _).
  exists o, o'. split; [exact E|]. split; [exact E'|]. rewrite D, D'.
  apply frame_bytes_ext. intros h c Hh Hc.
  unfold row_ptrs, field_of, chroma_row. rewrite H8, H10.
  rewrite !Hls by lia.
  rewrite !(Z.mul_comm 2), !Z.quot_mul by lia.
  unfold component. rewrite !Hd by lia.
  assert (F : forall s, field10 (Z.shiftl (CLIP8 s) 2) = field8 s).
  { intros s. fold (field8 s). pose proof (CLIP8_range s) as R.
    rewrite field8_eq. unfold field10, CLIP, av_clip. lia. }
  rewrite !F. reflexivity.
Qed.

(** [ex_pic_8], upscaled to ten bits. *)
Definition ex_pic_8_as_10 : AVFrame :=
  mkAVFrame AV_PIX_FMT_YUV422P10 0
    (fun i k => Z.shiftl (CLIP8 (data ex_pic_8 i k)) 2)
    (fun i => 2 * linesize ex_pic_8 i) 0 (fun _ => None).

Lemma X4_witness :
  exists o8 o10,
    encode_frame ex_alloc ex_side_data (ex_avctx 8 1) ex_pic_8 ex_pkt 0
    = Some o8
    /\ encode_frame ex_alloc ex_side_data (ex_avctx 8 1) ex_pic_8_as_10
         ex_pkt 0 = Some o10
    /\ pkt_data (pkt o10) = pkt_data (pkt o8).
Proof.
  apply (X4_8bit_is_upscaled_10bit ex_alloc ex_side_data (ex_avctx 8 1)
           ex_pic_8 ex_pic_8_as_10 ex_pkt 0).
  - apply ex_valid_call; [lia | reflexivity | lia | simpl; auto].
  - reflexivity.
  - reflexivity.
  - intros i Hi. reflexivity.
  - intros i k Hi. reflexivity.
Defined.

(** ** The side data and the return code *)

(** The blocks that pass frame side data on, in the order of the code. *)
Definition passed_types : list (AVFrameSideDataType * AVPacketSideDataType) :=
  [(AV_FRAME_DATA_A53_CC, AV_PKT_DATA_A53_CC);
   (AV_FRAME_DATA_AFD, AV_PKT_DATA_AFD);
   (AV_FRAME_DATA_BARDATA, AV_PKT_DATA_BARDATA);
   (AV_FRAME_DATA_PIPELINE_STATS, AV_PKT_DATA_PIPELINE_STATS);
   (AV_FRAME_DATA_SEI_UNREGISTERED, AV_PKT_DATA_SEI_UNREGISTERED)].

(** What one block asks the packet to take: the frame's entry of that type,
    when there is one and it is not empty. *)
Definition wanted1 (pic : AVFrame)
    (b : AVFrameSideDataType * AVPacketSideDataType)
  : list (AVPacketSideDataType * list Z) :=
  match frame_side_data pic (fst b) with
  | Some d => if Z.of_nat (length d) =? 0 then [] else [(snd b, d)]
  | None => []
  end.

Definition wanted (pic : AVFrame) : list (AVPacketSideDataType * list Z) :=
  flat_map (wanted1 pic) passed_types.

(** Attaching entries one after the other until an allocation fails. *)
Fixpoint attach (av_packet_new_side_data : AVPacketSideDataType -> Z -> bool)
    (l : list (AVPacketSideDataType * list Z)) (p : AVPacket)
  : Z * AVPacket :=
  match l with
  | [] => (0, p)
  | (pt, d) :: l =>
      if av_packet_new_side_data pt (Z.of_nat (length d))
      then attach av_packet_new_side_data l
             (mkAVPacket (pkt_data p) (flags p) (pkt_side_data p ++ [(pt, d)]))
      else (AVERROR ENOMEM, p)
  end.

Lemma attach_app (newsd : AVPacketSideDataType -> Z -> bool)
    (l1 l2 : list (AVPacketSideDataType * list Z)) (p : AVPacket) :
  attach newsd (l1 ++ l2) p
  = let '(e, p') := attach newsd l1 p in
    if e <? 0 then (e, p') else attach newsd l2 p'.
Proof.
  revert p. induction l1 as [|[pt d] l1 IH]; intros p; [reflexivity|].
  cbn [app attach]. destruct (newsd pt (Z.of_nat (length d))).
  - apply IH.
  - reflexivity.
Qed.

Lemma copy_side_data_attach (newsd : AVPacketSideDataType -> Z -> bool)
    (pic : AVFrame) (ft : AVFrameSideDataType) (pt : AVPacketSideDataType)
    (p : AVPacket) :
  copy_side_data newsd pic ft pt p = attach newsd (wanted1 pic (ft, pt)) p.
Proof.
  unfold copy_side_data, wanted1. cbn [fst snd].
  destruct (frame_side_data pic ft) as [d|]; [|reflexivity].
  destruct (Z.of_nat (length d) =? 0); cbn [negb attach]; [reflexivity|].
  destruct (newsd pt (Z.of_nat (length d))); reflexivity.
Qed.

Lemma copy_all_side_data_attach (newsd : AVPacketSideDataType -> Z -> bool)
    (pic : AVFrame) (p : AVPacket) :
  copy_all_side_data newsd pic p = attach newsd (wanted pic) p.
Proof.
  unfold copy_all_side_data, wanted, passed_types. cbn [flat_map].
  rewrite app_nil_r.
  repeat (rewrite attach_app, copy_side_data_attach;
          match goal with
          | |- context [attach newsd (wanted1 pic ?b) ?q] =>
              let e := fresh "e" in let p' := fresh "p" in
              destruct (attach newsd (wanted1 pic b) q) as [e p'];
              destruct (e <? 0); [reflexivity|]
          end).
  apply copy_side_data_attach.
Qed.

Lemma attach_all (newsd : AVPacketSideDataType -> Z -> bool)
    (l : list (AVPacketSideDataType * list Z)) (p : AVPacket) :
  (forall pt d, In (pt, d) l -> newsd pt (Z.of_nat (length d)) = true) ->
  attach newsd l p
  = (0, mkAVPacket (pkt_data p) (flags p) (pkt_side_data p ++ l)).
Proof.
  revert p. induction l as [|[pt d] l IH]; intros p H.
  - cbn [attach]. rewrite app_nil_r. now destruct p.
  - cbn [attach]. rewrite (H pt d (or_introl eq_refl)).
    rewrite IH by (intros; apply H; now right).
    cbn [pkt_data flags pkt_side_data]. now rewrite <- app_assoc.
Qed.

Lemma attach_fails (newsd : AVPacketSideDataType -> Z -> bool)
    (l1 l2 : list (AVPacketSideDataType * list Z))
    (pt : AVPacketSideDataType) (d : list Z) (p : AVPacket) :
  (forall pt' d', In (pt', d') l1 ->
     newsd pt' (Z.of_nat (length d')) = true) ->
  newsd pt (Z.of_nat (length d)) = false ->
  attach newsd (l1 ++ (pt, d) :: l2) p
  = (AVERROR ENOMEM,
     mkAVPacket (pkt_data p) (flags p) (pkt_side_data p ++ l1)).
Proof.
  intros H1 H2. rewrite attach_app, (attach_all newsd l1 p H1).
  change (0 <? 0) with false. cbv iota. cbn [attach]. now rewrite H2.
Qed.

(** What a call with the packet allocated comes to: the pixels, then the
    entries attached to the packet as the allocator left it. *)
Lemma encode_frame_attach
    (ff_alloc_packet2 : AVPacket -> Z -> Z -> Z * AVPacket)
    (newsd : AVPacketSideDataType -> Z -> bool)
    (avctx : AVCodecContext) (pic : AVFrame) (pkt0 : AVPacket) (got0 : Z) :
  valid_call ff_alloc_packet2 avctx pic pkt0 ->
  encode_frame ff_alloc_packet2 newsd avctx pic pkt0 got0
  = Some
      (let p1 := snd (ff_alloc_packet2 pkt0
                        (height avctx * stride_of (width avctx))
                        (height avctx * stride_of (width avctx))) in
       let '(e, p) :=
         attach newsd (wanted pic)
           (mkAVPacket (frame_bytes avctx pic) (flags p1)
              (pkt_side_data p1
               ++ (if newsd AV_PKT_DATA_ORIG_PTS 8
                   then [(AV_PKT_DATA_ORIG_PTS, [pkt_pts pic])] else []))) in
       if e <? 0 then mkOutcome e p got0
       else mkOutcome 0
              (mkAVPacket (pkt_data p) (Z.lor (flags p) AV_PKT_FLAG_KEY)
                 (pkt_side_data p)) 1).
Proof.
  intros (Hp & HW & He & HH & Hf & Hr & Hl). unfold encode_frame.
  destruct (ff_alloc_packet2 _ _ _) as [r p1]. cbn [fst snd] in *.
  destruct (r <? 0) eqn:E; [apply Z.ltb_lt in E; lia|].
  rewrite (encode_pixels_ok avctx pic Hp HW He HH (pkt_data p1) Hf Hl).
  cbv beta iota zeta. rewrite copy_all_side_data_attach.
  destruct (attach newsd (wanted pic) _) as [e p].
  now destruct (e <? 0).
Qed.

(** X5.  When every allocation of a side-data entry the frame asks for
    succeeds, the call returns 0, sets [got_packet] to 1 and adds the key
    flag to the flags the allocator of the packet left, and the packet
    carries, after the side data that allocator left on it and the
    [ORIG_PTS] entry holding the frame's [pkt_pts] (if that one could be
    allocated: its failure is no error), each non-empty entry of the frame
    of the five types, with its payload, in the order A53_CC, AFD, BARDATA,
    PIPELINE_STATS, SEI_UNREGISTERED; empty and missing entries are
    skipped.  What the caller's packet held of flags and side data counts
    only through the allocator, which is handed the packet. *)
Theorem X5_side_data_passed_on
    (ff_alloc_packet2 : AVPacket -> Z -> Z -> Z * AVPacket)
    (av_packet_new_side_data : AVPacketSideDataType -> Z -> bool)
    (avctx : AVCodecContext) (pic : AVFrame) (pkt0 : AVPacket) (got0 : Z) :
  let size := height avctx * stride_of (width avctx) in
  let p1 := snd (ff_alloc_packet2 pkt0 size size) in
  valid_call ff_alloc_packet2 avctx pic pkt0 ->
  (forall pt d, In (pt, d) (wanted pic) ->
     av_packet_new_side_data pt (Z.of_nat (length d)) = true) ->
  exists o,
    encode_frame ff_alloc_packet2 av_packet_new_side_data avctx pic pkt0 got0
    = Some o
    /\ ret o = 0 /\ got_packet o = 1
    /\ flags (pkt o) = Z.lor (flags p1) AV_PKT_FLAG_KEY
    /\ pkt_side_data (pkt o)
       = pkt_side_data p1
         ++ (if av_packet_new_side_data AV_PKT_DATA_ORIG_PTS 8
             then [(AV_PKT_DATA_ORIG_PTS, [pkt_pts pic])] else [])
         ++ wanted pic
    /\ wanted pic
       = flat_map
           (fun b => match frame_side_data pic (fst b) with
                     | Some [] | None => []
                     | Some d => [(snd b, d)]
                     end)
           [(AV_FRAME_DATA_A53_CC, AV_PKT_DATA_A53_CC);
            (AV_FRAME_DATA_AFD, AV_PKT_DATA_AFD);
            (AV_FRAME_DATA_BARDATA, AV_PKT_DATA_BARDATA);
            (AV_FRAME_DATA_PIPELINE_STATS, AV_PKT_DATA_PIPELINE_STATS);
            (AV_FRAME_DATA_SEI_UNREGISTERED, AV_PKT_DATA_SEI_UNREGISTERED)].
Proof.
  intros size p1 Hv Hok. eexists. split; [now apply encode_frame_attach|].
  fold size. fold p1. cbv zeta.
  rewrite (attach_all _ _ _ Hok). change (0 <? 0) with false.
  cbn [ret got_packet pkt flags pkt_side_data pkt_data].
  rewrite <- app_assoc. repeat split.
  unfold wanted, passed_types. apply flat_map_ext. intros [ft pt].
  unfold wanted1. cbn [fst snd].
  destruct (frame_side_data pic ft) as [[|x d]|]; reflexivity.
Qed.

(** A 2x1 frame with captions, an AFD entry, no bar data and one
    unregistered SEI message. *)
Definition ex_pic_sd (afd : list Z) : AVFrame :=
  mkAVFrame AV_PIX_FMT_YUV422P 0
    (fun i => plane_of [16; 17]) (fun i => 2) 9000
    (fun t => match t with
              | AV_FRAME_DATA_A53_CC => Some [252; 148; 44]
              | AV_FRAME_DATA_AFD => Some afd
              | AV_FRAME_DATA_SEI_UNREGISTERED => Some [9]
              | _ => None
              end).

(** A packet that has been used before: it comes with data, a flag and a
    side-data entry. *)
Definition ex_pkt_used : AVPacket :=
  mkAVPacket [1; 2; 3] 2 [(AV_PKT_DATA_BARDATA, [7])].

(** An allocator that gives the packet its buffer and leaves the rest of
    the packet alone. *)
Definition ex_alloc_keep (p : AVPacket) (size min_size : Z)
  : Z * AVPacket :=
  (0, mkAVPacket (repeat 255 (Z.to_nat size)) (flags p) (pkt_side_data p)).

Lemma X5_witness :
  let size := 1 * stride_of 2 in
  let p1 := snd (ex_alloc_keep ex_pkt_used size size) in
  exists o,
    encode_frame ex_alloc_keep ex_side_data (ex_avctx 2 1) (ex_pic_sd [])
      ex_pkt_used 5 = Some o
    /\ ret o = 0 /\ got_packet o = 1
    /\ flags (pkt o) = Z.lor (flags p1) AV_PKT_FLAG_KEY
    /\ pkt_side_data (pkt o)
       = pkt_side_data p1
         ++ (if ex_side_data AV_PKT_DATA_ORIG_PTS 8
             then [(AV_PKT_DATA_ORIG_PTS, [pkt_pts (ex_pic_sd [])])] else [])
         ++ wanted (ex_pic_sd [])
    /\ wanted (ex_pic_sd [])
       = flat_map
           (fun b => match frame_side_data (ex_pic_sd []) (fst b) with
                     | Some [] | None => []
                     | Some d => [(snd b, d)]
                     end)
           [(AV_FRAME_DATA_A53_CC, AV_PKT_DATA_A53_CC);
            (AV_FRAME_DATA_AFD, AV_PKT_DATA_AFD);
            (AV_FRAME_DATA_BARDATA, AV_PKT_DATA_BARDATA);
            (AV_FRAME_DATA_PIPELINE_STATS, AV_PKT_DATA_PIPELINE_STATS);
            (AV_FRAME_DATA_SEI_UNREGISTERED, AV_PKT_DATA_SEI_UNREGISTERED)].
Proof.
  apply (X5_side_data_passed_on ex_alloc_keep ex_side_data (ex_avctx 2 1)
           (ex_pic_sd []) ex_pkt_used 5).
  - unfold valid_call.
    repeat split; try apply packer_ok_c; cbn; try lia; auto.
  - intros pt d _. reflexivity.
Defined.

(** The flags and the entries the packet ends up with: after an allocator
    that leaves them alone, and after one that clears them as the
    library's does. *)
Example side_data_passed_on :
  option_map (fun o => (flags (pkt o), pkt_side_data (pkt o)))
    (encode_frame ex_alloc_keep ex_side_data (ex_avctx 2 1) (ex_pic_sd [])
       ex_pkt_used 5)
  = Some (3, [(AV_PKT_DATA_BARDATA, [7]);
              (AV_PKT_DATA_ORIG_PTS, [9000]);
              (AV_PKT_DATA_A53_CC, [252; 148; 44]);
              (AV_PKT_DATA_SEI_UNREGISTERED, [9])])
  /\ option_map (fun o => (flags (pkt o), pkt_side_data (pkt o)))
       (encode_frame ex_alloc ex_side_data (ex_avctx 2 1) (ex_pic_sd [])
          ex_pkt_used 5)
     = Some (1, [(AV_PKT_DATA_ORIG_PTS, [9000]);
                 (AV_PKT_DATA_A53_CC, [252; 148; 44]);
                 (AV_PKT_DATA_SEI_UNREGISTERED, [9])]).
Proof. split; vm_compute; reflexivity. Qed.

(** X6.  When the allocation for one of the entries the frame asks for
    fails, the call returns [AVERROR(ENOMEM)] at once: [got_packet] is left
    as the caller had it, the packet flags as the allocator of the packet
    left them (no key flag is added), the packet keeps the side data that
    allocator left and the entries attached before the failing one, and
    none after it, and its data is the whole encoded frame, which was
    written before any side data was looked at. *)
Theorem X6_side_data_failure
    (ff_alloc_packet2 : AVPacket -> Z -> Z -> Z * AVPacket)
    (av_packet_new_side_data : AVPacketSideDataType -> Z -> bool)
    (avctx : AVCodecContext) (pic : AVFrame) (pkt0 : AVPacket) (got0 : Z)
    (l1 l2 : list (AVPacketSideDataType * list Z))
    (pt : AVPacketSideDataType) (d : list Z) :
  let size := height avctx * stride_of (width avctx) in
  let p1 := snd (ff_alloc_packet2 pkt0 size size) in
  valid_call ff_alloc_packet2 avctx pic pkt0 ->
  wanted pic = l1 ++ (pt, d) :: l2 ->
  (forall pt' d', In (pt', d') l1 ->
     av_packet_new_side_data pt' (Z.of_nat (length d')) = true) ->
  av_packet_new_side_data pt (Z.of_nat (length d)) = false ->
  exists o,
    encode_frame ff_alloc_packet2 av_packet_new_side_data avctx pic pkt0 got0
    = Some o
    /\ ret o = AVERROR ENOMEM /\ got_packet o = got0
    /\ flags (pkt o) = flags p1
    /\ pkt_data (pkt o) = frame_bytes avctx pic
    /\ pkt_side_data (pkt o)
       = pkt_side_data p1
         ++ (if av_packet_new_side_data AV_PKT_DATA_ORIG_PTS 8
             then [(AV_PKT_DATA_ORIG_PTS, [pkt_pts pic])] else [])
         ++ l1.
Proof.
  intros size p1 Hv Hw H1 H2. eexists.
  split; [now apply encode_frame_attach|].
  fold size. fold p1. cbv zeta.
  rewrite Hw, (attach_fails _ _ _ _ _ _ H1 H2).
  change (AVERROR ENOMEM <? 0) with true.
  cbn [ret got_packet pkt flags pkt_side_data pkt_data].
  rewrite <- app_assoc. repeat split.
Qed.

(** An allocator of side data that has no room for an AFD entry. *)
Definition ex_side_data_no_afd (t : AVPacketSideDataType) (n : Z) : bool :=
  match t with AV_PKT_DATA_AFD => false | _ => true end.

Lemma X6_witness :
  let size := 1 * stride_of 2 in
  let p1 := snd (ex_alloc_keep ex_pkt_used size size) in
  exists o,
    encode_frame ex_alloc_keep ex_side_data_no_afd (ex_avctx 2 1)
      (ex_pic_sd [8]) ex_pkt_used 5 = Some o
    /\ ret o = AVERROR ENOMEM /\ got_packet o = 5
    /\ flags (pkt o) = flags p1
    /\ pkt_data (pkt o) = frame_bytes (ex_avctx 2 1) (ex_pic_sd [8])
    /\ pkt_side_data (pkt o)
       = pkt_side_data p1
         ++ (if ex_side_data_no_afd AV_PKT_DATA_ORIG_PTS 8
             then [(AV_PKT_DATA_ORIG_PTS, [pkt_pts (ex_pic_sd [8])])]
             else [])
         ++ [(AV_PKT_DATA_A53_CC, [252; 148; 44])].
Proof.
  apply (X6_side_data_failure ex_alloc_keep ex_side_data_no_afd
           (ex_avctx 2 1) (ex_pic_sd [8]) ex_pkt_used 5
           [(AV_PKT_DATA_A53_CC, [252; 148; 44])]
           [(AV_PKT_DATA_SEI_UNREGISTERED, [9])] AV_PKT_DATA_AFD [8]).
  - unfold valid_call.
    repeat split; try apply packer_ok_c; cbn; try lia; auto.
  - reflexivity.
  - intros pt' d' [H | []]. now inversion H.
  - reflexivity.
Defined.

(** X7.  Whatever the call is given (any width, any format, any
    allocator), when it returns it either returns 0 with [got_packet] set to
    1 and the key flag added to the flags the allocator of the packet left,
    or returns a negative code with [got_packet] as the caller had it and
    the flags as that allocator left them; it never returns a positive
    value.  When the packet cannot be allocated the allocator's code is
    returned and the packet comes back as the allocator left it: nothing is
    stored into it.  And a call that returns with the packet allocated has
    not divided by a sample factor of 0. *)
Theorem X7_return_and_got_packet
    (ff_alloc_packet2 : AVPacket -> Z -> Z -> Z * AVPacket)
    (av_packet_new_side_data : AVPacketSideDataType -> Z -> bool)
    (avctx : AVCodecContext) (pic : AVFrame) (pkt0 : AVPacket) (got0 : Z)
    (o : outcome) :
  encode_frame ff_alloc_packet2 av_packet_new_side_data avctx pic pkt0 got0
  = Some o ->
  let size := height avctx * stride_of (width avctx) in
  let r := fst (ff_alloc_packet2 pkt0 size size) in
  let p1 := snd (ff_alloc_packet2 pkt0 size size) in
  (r < 0 -> o = mkOutcome r p1 got0)
  /\ (ret o = 0 /\ got_packet o = 1
      /\ flags (pkt o) = Z.lor (flags p1) AV_PKT_FLAG_KEY
      \/ ret o < 0 /\ got_packet o = got0 /\ flags (pkt o) = flags p1)
  /\ (0 <= r ->
      match format pic with
      | AV_PIX_FMT_YUV422P10 => sample_factor_10 (priv_data avctx) <> 0
      | AV_PIX_FMT_YUV422P | AV_PIX_FMT_YUV420P =>
          sample_factor_8 (priv_data avctx) <> 0
      | AV_PIX_FMT_NONE => True
      end).
Proof.
  cbv zeta. unfold encode_frame.
  destruct (ff_alloc_packet2 _ _ _) as [r p1]. cbn [fst snd].
  destruct (r <? 0) eqn:E.
  - intros [= <-]. apply Z.ltb_lt in E. cbn.
    split; [auto|]. split; [right; auto|]. lia.
  - apply Z.ltb_ge in E.
    destruct (encode_pixels avctx pic (pkt_data p1)) as [b|] eqn:EP;
      [|discriminate].
    assert (F0 : match format pic with
                 | AV_PIX_FMT_YUV422P10 =>
                     sample_factor_10 (priv_data avctx) <> 0
                 | AV_PIX_FMT_YUV422P | AV_PIX_FMT_YUV420P =>
                     sample_factor_8 (priv_data avctx) <> 0
                 | AV_PIX_FMT_NONE => True
                 end).
    { unfold encode_pixels in EP. destruct (format pic); trivial.
      - destruct (6 * sample_factor_10 (priv_data avctx) =? 0) eqn:Z0;
          [discriminate|]. apply Z.eqb_neq in Z0. lia.
      - destruct (12 * sample_factor_8 (priv_data avctx) =? 0) eqn:Z0;
          [discriminate|]. apply Z.eqb_neq in Z0. lia.
      - destruct (12 * sample_factor_8 (priv_data avctx) =? 0) eqn:Z0;
          [discriminate|]. apply Z.eqb_neq in Z0. lia. }
    match goal with
    | |- context [copy_all_side_data _ _ ?p] =>
        destruct (copy_all_side_data_cases av_packet_new_side_data pic p)
          as (p' & _ & F & [-> | [-> _]])
    end.
    + change (0 <? 0) with false. cbv iota. intros [= <-].
      cbn [ret got_packet pkt flags] in *. split; [lia|].
      split; [|intros _; exact F0]. left. rewrite F. auto.
    + change (AVERROR ENOMEM <? 0) with true. cbv iota. intros [= <-].
      cbn [ret got_packet pkt flags] in *. split; [lia|].
      split; [|intros _; exact F0]. right. rewrite F. repeat split.
Qed.

(** An allocator that has no memory for the packet and hands it back. *)
Definition ex_alloc_fails (p : AVPacket) (size min_size : Z)
  : Z * AVPacket :=
  (AVERROR ENOMEM, p).

(** Both ways out: the packet not allocated, at an odd width; and a 2x1
    frame encoded, the key flag added to the flag the packet came with. *)
Lemma X7_witness :
  (let size := 1 * stride_of 7 in
   let r := fst (ex_alloc_fails ex_pkt_used size size) in
   let p1 := snd (ex_alloc_fails ex_pkt_used size size) in
   let o := mkOutcome (AVERROR ENOMEM) ex_pkt_used 5 in
   (r < 0 -> o = mkOutcome r p1 5)
   /\ (ret o = 0 /\ got_packet o = 1
       /\ flags (pkt o) = Z.lor (flags p1) AV_PKT_FLAG_KEY
       \/ ret o < 0 /\ got_packet o = 5 /\ flags (pkt o) = flags p1)
   /\ (0 <= r -> sample_factor_8 (priv_data (ex_avctx 7 1)) <> 0))
  /\
  (let size := 1 * stride_of 2 in
   let r := fst (ex_alloc_keep ex_pkt_used size size) in
   let p1 := snd (ex_alloc_keep ex_pkt_used size size) in
   let o := mkOutcome 0
              (mkAVPacket (frame_bytes (ex_avctx 2 1) (ex_pic_sd []))
                 3 [(AV_PKT_DATA_BARDATA, [7]);
                    (AV_PKT_DATA_ORIG_PTS, [9000]);
                    (AV_PKT_DATA_A53_CC, [252; 148; 44]);
                    (AV_PKT_DATA_SEI_UNREGISTERED, [9])]) 1 in
   (r < 0 -> o = mkOutcome r p1 5)
   /\ (ret o = 0 /\ got_packet o = 1
       /\ flags (pkt o) = Z.lor (flags p1) AV_PKT_FLAG_KEY
       \/ ret o < 0 /\ got_packet o = 5 /\ flags (pkt o) = flags p1)
   /\ (0 <= r -> sample_factor_8 (priv_data (ex_avctx 2 1)) <> 0)).
Proof.
  split.
  - apply (X7_return_and_got_packet ex_alloc_fails ex_side_data
             (ex_avctx 7 1) ex_pic_8 ex_pkt_used 5
             (mkOutcome (AVERROR ENOMEM) ex_pkt_used 5)).
    reflexivity.
  - apply (X7_return_and_got_packet ex_alloc_keep ex_side_data
             (ex_avctx 2 1) (ex_pic_sd []) ex_pkt_used 5
             (mkOutcome 0
                (mkAVPacket (frame_bytes (ex_avctx 2 1) (ex_pic_sd []))
                   3 [(AV_PKT_DATA_BARDATA, [7]);
                      (AV_PKT_DATA_ORIG_PTS, [9000]);
                      (AV_PKT_DATA_A53_CC, [252; 148; 44]);
                      (AV_PKT_DATA_SEI_UNREGISTERED, [9])]) 1)).
    vm_compute. reflexivity.
Defined.

(** With a sample factor of 0 in the context the call does not return: the
    row count of the bulk packer is a division by it. *)
Example sample_factor_0 :
  encode_frame ex_alloc ex_side_data
    (mkAVCodecContext 8 1 AV_PICTURE_TYPE_I 20 0
       (mkV210EncContext v210_planar_pack_8_c v210_planar_pack_10_c 0 0))
    ex_pic_8 ex_pkt 0
  = None.
Proof. reflexivity. Qed.

(** ** Initialisation, then a frame *)

(** X8.  For a width that is even and not negative, [encode_init] returns 0
    and leaves a context of the same width and height with 20 bits per coded
    sample, whatever the private data held before; a frame of a listed
    format handed to [encode_frame] with that context is encoded into a
    packet of [height * stride] bytes.  On x86 this needs the packers that
    [ff_v210enc_init_x86] installs to agree with the C ones. *)
Theorem X8_init_then_encode (ARCH_X86 : bool)
    (ff_v210enc_init_x86 : V210EncContext -> V210EncContext)
    (FF_API_CODED_FRAME : bool)
    (ff_guess_coded_bitrate : AVCodecContext -> Z)
    (ff_alloc_packet2 : AVPacket -> Z -> Z -> Z * AVPacket)
    (av_packet_new_side_data : AVPacketSideDataType -> Z -> bool)
    (avctx : AVCodecContext) (pic : AVFrame) (pkt0 : AVPacket) (got0 : Z) :
  let size := height avctx * stride_of (width avctx) in
  (ARCH_X86 = true ->
   packer_ok (ff_v210enc_init_x86
                (mkV210EncContext v210_planar_pack_8_c v210_planar_pack_10_c
                   1 1))) ->
  0 <= width avctx -> width avctx mod 2 = 0 -> 0 <= height avctx ->
  In (format pic) pix_fmts ->
  0 <= fst (ff_alloc_packet2 pkt0 size size) ->
  Z.of_nat (length (pkt_data (snd (ff_alloc_packet2 pkt0 size size))))
  = size ->
  exists avctx' o,
    encode_init ARCH_X86 ff_v210enc_init_x86 FF_API_CODED_FRAME
      ff_guess_coded_bitrate avctx = (0, avctx')
    /\ width avctx' = width avctx /\ height avctx' = height avctx
    /\ bits_per_coded_sample avctx' = 20
    /\ encode_frame ff_alloc_packet2 av_packet_new_side_data avctx' pic pkt0
         got0 = Some o
    /\ pkt_data (pkt o) = frame_bytes avctx pic
    /\ Z.of_nat (length (pkt_data (pkt o))) = size.
Proof.
  intros size Hx HW He HH Hf Hr Hl. unfold encode_init.
  rewrite land_1_odd, Bool.negb_involutive.
  assert (Z.odd (width avctx) = false) as ->.
  { rewrite Zmod_odd in He. now destruct (Z.odd (width avctx)). }
  eexists. 
  match goal with
  | |- exists o, (0, ?c) = (0, ?c') /\ _ =>
      assert (Hv : valid_call ff_alloc_packet2 c pic pkt0)
  end.
  { unfold valid_call. cbn [width height priv_data].
    refine (conj _ (conj HW (conj He (conj HH (conj Hf (conj Hr Hl)))))).
    unfold ff_v210enc_init. destruct ARCH_X86.
    - now apply Hx.
    - apply packer_ok_c. }
  destruct (valid_call_run _ av_packet_new_side_data _ _ pkt0 got0 Hv)
    as (o & E & D & _).
  exists o. split; [reflexivity|]. cbn [width height bits_per_coded_sample].
  repeat split; try assumption.
  rewrite D. now apply frame_bytes_length.
Qed.

(** A context as the framework hands it to [encode_init]: the private data
    not yet set up. *)
Definition ex_avctx_raw (w h : Z) : AVCodecContext :=
  mkAVCodecContext w h 0 0 0
    (mkV210EncContext (fun _ _ _ _ _ _ _ _ _ => None)
       (fun _ _ _ _ _ _ _ _ _ => None) 0 0).

Lemma X8_witness :
  exists avctx' o,
    encode_init false (fun s => s) true (fun _ => 3000) (ex_avctx_raw 8 1)
    = (0, avctx')
    /\ width avctx' = 8 /\ height avctx' = 1
    /\ bits_per_coded_sample avctx' = 20
    /\ encode_frame ex_alloc ex_side_data avctx' ex_pic_8 ex_pkt 0 = Some o
    /\ pkt_data (pkt o) = frame_bytes (ex_avctx_raw 8 1) ex_pic_8
    /\ Z.of_nat (length (pkt_data (pkt o))) = 1 * stride_of 8.
Proof.
  apply (X8_init_then_encode false (fun s => s) true (fun _ => 3000) ex_alloc
           ex_side_data (ex_avctx_raw 8 1) ex_pic_8 ex_pkt 0).
  - discriminate.
  - cbn; lia.
  - reflexivity.
  - cbn; lia.
  - simpl; auto.
  - cbn; lia.
  - reflexivity.
Defined.

(** ** The bulk packers on any count *)

Lemma group_words_bytes (f : Z -> Z) (Yp Up Vp : plane) (W y u v : Z)
    (n : nat) :
  6 * Z.of_nat n <= W ->
  words_bytes f Yp Up Vp W y u v 0 (4 * n)
  = flat_map le32
      (flat_map (fun g => group_words f Yp Up Vp
                            (y + 6 * g) (u + 3 * g) (v + 3 * g))
         (zseq 0 n)).
Proof.
  revert W. induction n as [|n IH]; intros W Hn; [reflexivity|].
  replace (S n) with (n + 1)%nat by lia.
  replace (4 * (n + 1))%nat with (4 * n + 4)%nat by lia.
  rewrite <- (words_bytes_app f Yp Up Vp W y u v 0 (4 * Z.of_nat n)) by lia.
  rewrite IH by lia. rewrite zseq_app, !flat_map_app. f_equal.
  cbn [zseq flat_map]. rewrite !app_nil_r. unfold words_bytes.
  rewrite <- (group_words_word f Yp Up Vp W) by lia.
  replace (0 + Z.of_nat n) with (Z.of_nat n) by lia. reflexivity.
Qed.

Section AnyCount.

Variables Yp Up Vp : plane.

Lemma pack_10_loop_any (count y u v val : Z) (pre rest : list Z) :
  0 <= count ->
  (Z.to_nat (16 * (count / 6)) <= length rest)%nat ->
  exists val',
    v210_planar_pack_10_loop Yp Up Vp (at_out (y, u, v) val pre rest) count
    = Some (6 * (count / 6),
            at_out (cur y u v (count / 6)) val'
              (pre ++ words_bytes field10 Yp Up Vp count y u v 0
                        (Z.to_nat (4 * (count / 6))))
              (skipn (Z.to_nat (16 * (count / 6))) rest)).
Proof.
  intros Hc Hlen. unfold v210_planar_pack_10_loop.
  set (n := count / 6) in *.
  assert (Hn : 0 <= n /\ 6 * n <= count < 6 * n + 6)
    by (unfold n; Z.div_mod_to_equations; lia).
  destruct (block_loop_emits field10 Yp Up Vp count y u v count 1
              (gen_group field10 Yp Up Vp) ltac:(lia)
              (fun a H => gen_group_row field10 Yp Up Vp count y u v a
                            ltac:(lia))
              (Z.to_nat n) (fuel_for 0 count) 0 ltac:(lia)
              ltac:(unfold fuel_for; lia) ltac:(lia) ltac:(lia) ltac:(lia)
              val pre rest ltac:(lia))
    as [val' E].
  exists val'.
  replace (at_out (y, u, v) val pre rest)
    with (at_out (cur y u v 0) val pre rest)
    by (apply at_out_eq; trivial; unfold cur; f_equal; [f_equal|]; lia).
  change (6 * 1 - 1) with 5 in E. change (6 * 1) with 6 in E.
  change (6 * 0) with 0 in E.
  rewrite (for_loop_ext _ _ _ (fun _ => gen_group field10 Yp Up Vp))
    by (intros; apply group6_gen).
  rewrite E.
  replace (0 + 1 * Z.of_nat (Z.to_nat n)) with n by lia.
  change (4 * 0) with 0.
  replace (Z.to_nat (4 * 1) * Z.to_nat n)%nat with (Z.to_nat (4 * n)) by lia.
  replace (Z.to_nat (16 * 1) * Z.to_nat n)%nat with (Z.to_nat (16 * n)) by lia.
  reflexivity.
Qed.

Lemma pack_8_loop_any (count y u v val : Z) (pre rest : list Z) :
  0 <= count ->
  (Z.to_nat (32 * (count / 12)) <= length rest)%nat ->
  exists val',
    v210_planar_pack_8_loop Yp Up Vp (at_out (y, u, v) val pre rest) count
    = Some (12 * (count / 12),
            at_out (cur y u v (2 * (count / 12))) val'
              (pre ++ words_bytes field8 Yp Up Vp count y u v 0
                        (Z.to_nat (8 * (count / 12))))
              (skipn (Z.to_nat (32 * (count / 12))) rest)).
Proof.
  intros Hc Hlen. unfold v210_planar_pack_8_loop.
  set (n := count / 12) in *.
  assert (Hn : 0 <= n /\ 12 * n <= count < 12 * n + 12)
    by (unfold n; Z.div_mod_to_equations; lia).
  destruct (block_loop_emits field8 Yp Up Vp count y u v count 2
              (fun s => s1 <- gen_group field8 Yp Up Vp s ;;
                        gen_group field8 Yp Up Vp s1) ltac:(lia)
              (fun a H => gen_group2_row field8 Yp Up Vp count y u v a
                            ltac:(lia))
              (Z.to_nat n) (fuel_for 0 count) 0 ltac:(lia)
              ltac:(unfold fuel_for; lia) ltac:(lia) ltac:(lia) ltac:(lia)
              val pre rest ltac:(lia))
    as [val' E].
  exists val'.
  replace (at_out (y, u, v) val pre rest)
    with (at_out (cur y u v 0) val pre rest)
    by (apply at_out_eq; trivial; unfold cur; f_equal; [f_equal|]; lia).
  change (6 * 2 - 1) with 11 in E. change (6 * 2) with 12 in E.
  change (6 * 0) with 0 in E.
  rewrite (for_loop_ext _ _ _
             (fun _ s => s1 <- gen_group field8 Yp Up Vp s ;;
                         gen_group field8 Yp Up Vp s1))
    by (intros; apply group12_8_gen).
  rewrite E.
  replace (0 + 2 * Z.of_nat (Z.to_nat n)) with (2 * n) by lia.
  change (4 * 0) with 0.
  replace (Z.to_nat (4 * 2) * Z.to_nat n)%nat with (Z.to_nat (8 * n)) by lia.
  replace (Z.to_nat (16 * 2) * Z.to_nat n)%nat with (Z.to_nat (32 * n)) by lia.
  replace (12 * n) with (6 * (2 * n)) at 1 by lia.
  reflexivity.
Qed.

End AnyCount.

(** X9.  On any sample count the bulk packers store whole groups only: the
    10-bit packer the four words of each of the [count / 6] groups of six
    samples, the 8-bit packer, whose loop takes two groups per turn, the
    words of [2 (count / 12)] groups,
    word 1 = clip8(U)<<2 | clip8(Y)<<12 | clip8(V)<<22 and so on.  The
    samples left over are not packed and the buffer after the groups is not
    touched; on fewer than 6 (or 12) samples, and on a negative count, the
    buffer comes back as it was. *)
Theorem X9_bulk_packers_any_count (Yp Up Vp : plane) (y u v count : Z)
    (pre rest : list Z) :
  (Z.to_nat (16 * (count / 6)) <= length rest)%nat ->
  v210_planar_pack_10_c Yp Up Vp y u v (Z.of_nat (length pre)) (pre ++ rest)
    count
  = Some (pre
          ++ flat_map le32
               (flat_map (fun g => group_of_6 Yp Up Vp
                                     (y + 6 * g) (u + 3 * g) (v + 3 * g))
                  (zseq 0 (Z.to_nat (count / 6))))
          ++ skipn (Z.to_nat (16 * (count / 6))) rest)
  /\ v210_planar_pack_8_c Yp Up Vp y u v (Z.of_nat (length pre))
       (pre ++ rest) count
     = Some (pre
             ++ flat_map le32
                  (flat_map (fun g => group_of_6_8 Yp Up Vp
                                        (y + 6 * g) (u + 3 * g) (v + 3 * g))
                     (zseq 0 (Z.to_nat (2 * (count / 12)))))
             ++ skipn (Z.to_nat (32 * (count / 12))) rest)
  /\ (count < 6 ->
      v210_planar_pack_10_c Yp Up Vp y u v (Z.of_nat (length pre))
        (pre ++ rest) count = Some (pre ++ rest))
  /\ (count < 12 ->
      v210_planar_pack_8_c Yp Up Vp y u v (Z.of_nat (length pre))
        (pre ++ rest) count = Some (pre ++ rest)).
Proof.
  intros Hlen.
  assert (S10 : count < 6 ->
            v210_planar_pack_10_c Yp Up Vp y u v (Z.of_nat (length pre))
              (pre ++ rest) count = Some (pre ++ rest)).
  { intros Hc. unfold v210_planar_pack_10_c, v210_planar_pack_10_loop,
      fuel_for. cbn [for_loop].
    destruct (0 <? count - 5) eqn:E; [apply Z.ltb_lt in E; lia|].
    reflexivity. }
  assert (S8 : count < 12 ->
            v210_planar_pack_8_c Yp Up Vp y u v (Z.of_nat (length pre))
              (pre ++ rest) count = Some (pre ++ rest)).
  { intros Hc. unfold v210_planar_pack_8_c, v210_planar_pack_8_loop,
      fuel_for. cbn [for_loop].
    destruct (0 <? count - 11) eqn:E; [apply Z.ltb_lt in E; lia|].
    reflexivity. }
  split; [|split; [|split; assumption]].
  - destruct (Z.lt_ge_cases count 0) as [Hc | Hc].
    + rewrite S10 by lia.
      replace (Z.to_nat (count / 6)) with 0%nat
        by (Z.div_mod_to_equations; lia).
      replace (Z.to_nat (16 * (count / 6))) with 0%nat
        by (Z.div_mod_to_equations; lia).
      reflexivity.
    + unfold v210_planar_pack_10_c.
      destruct (pack_10_loop_any Yp Up Vp count y u v 0 pre rest Hc Hlen)
        as [val' E].
      change (mkState y u v 0 (Z.of_nat (length pre)) (pre ++ rest))
        with (at_out (y, u, v) 0 pre rest).
      rewrite E. cbn [snd]. rewrite st_buf_at_out, <- app_assoc.
      do 3 f_equal.
      replace (Z.to_nat (4 * (count / 6)))
        with (4 * Z.to_nat (count / 6))%nat
        by (Z.div_mod_to_equations; lia).
      apply (group_words_bytes field10).
      Z.div_mod_to_equations; lia.
  - destruct (Z.lt_ge_cases count 0) as [Hc | Hc].
    + rewrite S8 by lia.
      replace (Z.to_nat (2 * (count / 12))) with 0%nat
        by (Z.div_mod_to_equations; lia).
      replace (Z.to_nat (32 * (count / 12))) with 0%nat
        by (Z.div_mod_to_equations; lia).
      reflexivity.
    + unfold v210_planar_pack_8_c.
      destruct (pack_8_loop_any Yp Up Vp count y u v 0 pre rest Hc
                  ltac:(Z.div_mod_to_equations; lia))
        as [val' E].
      change (mkState y u v 0 (Z.of_nat (length pre)) (pre ++ rest))
        with (at_out (y, u, v) 0 pre rest).
      rewrite E. cbn [snd]. rewrite st_buf_at_out, <- app_assoc.
      do 3 f_equal.
      replace (Z.to_nat (8 * (count / 12)))
        with (4 * Z.to_nat (2 * (count / 12)))%nat
        by (Z.div_mod_to_equations; lia).
      rewrite (group_words_bytes field8) by (Z.div_mod_to_equations; lia).
      do 2 f_equal.
Qed.

(** The 8-bit packer on 23 samples of [ex_pic_8]'s planes: one turn of the
    loop, two groups, 32 bytes; the 17 bytes of 0xff after them stay. *)
Lemma X9_witness :
  v210_planar_pack_10_c (data ex_pic_8 0) (data ex_pic_8 1) (data ex_pic_8 2)
    0 0 0 (Z.of_nat (length [7; 7])) ([7; 7] ++ repeat 255 49) 23
  = Some ([7; 7]
          ++ flat_map le32
               (flat_map (fun g => group_of_6 (data ex_pic_8 0)
                                     (data ex_pic_8 1) (data ex_pic_8 2)
                                     (0 + 6 * g) (0 + 3 * g) (0 + 3 * g))
                  (zseq 0 (Z.to_nat (23 / 6))))
          ++ skipn (Z.to_nat (16 * (23 / 6))) (repeat 255 49))
  /\ v210_planar_pack_8_c (data ex_pic_8 0) (data ex_pic_8 1)
       (data ex_pic_8 2) 0 0 0 (Z.of_nat (length [7; 7]))
       ([7; 7] ++ repeat 255 49) 23
     = Some ([7; 7]
             ++ flat_map le32
                  (flat_map (fun g => group_of_6_8 (data ex_pic_8 0)
                                        (data ex_pic_8 1) (data ex_pic_8 2)
                                        (0 + 6 * g) (0 + 3 * g) (0 + 3 * g))
                     (zseq 0 (Z.to_nat (2 * (23 / 12)))))
             ++ skipn (Z.to_nat (32 * (23 / 12))) (repeat 255 49))
  /\ (23 < 6 ->
      v210_planar_pack_10_c (data ex_pic_8 0) (data ex_pic_8 1)
        (data ex_pic_8 2) 0 0 0 (Z.of_nat (length [7; 7]))
        ([7; 7] ++ repeat 255 49) 23 = Some ([7; 7] ++ repeat 255 49))
  /\ (23 < 12 ->
      v210_planar_pack_8_c (data ex_pic_8 0) (data ex_pic_8 1)
        (data ex_pic_8 2) 0 0 0 (Z.of_nat (length [7; 7]))
        ([7; 7] ++ repeat 255 49) 23 = Some ([7; 7] ++ repeat 255 49)).
Proof.
  apply (X9_bulk_packers_any_count (data ex_pic_8 0) (data ex_pic_8 1)
           (data ex_pic_8 2) 0 0 0 23 [7; 7] (repeat 255 49)).
  vm_compute. lia.
Defined.

(** ** The packers installed and their sample factors *)

(** X10.  The packet does not depend on which bulk packers the context
    holds nor on their sample factors, as long as they pack as the C ones
    do on the multiples of their group size: the columns a bulk packer with
    a larger factor leaves over are packed by the C packer and the tail of
    the row, to the same bytes. *)
Theorem X10_packers_do_not_matter
    (ff_alloc_packet2 : AVPacket -> Z -> Z -> Z * AVPacket)
    (av_packet_new_side_data : AVPacketSideDataType -> Z -> bool)
    (avctx avctx' : AVCodecContext) (pic : AVFrame) (pkt0 : AVPacket)
    (got0 : Z) :
  valid_call ff_alloc_packet2 avctx pic pkt0 ->
  packer_ok (priv_data avctx') ->
  width avctx' = width avctx -> height avctx' = height avctx ->
  exists o o',
    encode_frame ff_alloc_packet2 av_packet_new_side_data avctx pic pkt0 got0
    = Some o
    /\ encode_frame ff_alloc_packet2 av_packet_new_side_data avctx' pic pkt0
         got0 = Some o'
    /\ pkt_data (pkt o') = pkt_data (pkt o).
Proof.
  intros Hv Hp HW HH.
  assert (Hv' : valid_call ff_alloc_packet2 avctx' pic pkt0).
  { destruct Hv as (H1 & H2 & H3 & H4 & H5 & H6 & H7).
    unfold valid_call. rewrite HW, HH.
    exact (conj Hp (conj H2 (conj H3 (conj H4 (conj H5 (conj H6 H7)))))). }
  destruct (valid_call_run ff_alloc_packet2 av_packet_new_side_data avctx pic
              pkt0 got0 Hv) as (o & E & D & _).
  destruct (valid_call_run ff_alloc_packet2 av_packet_new_side_data avctx'
              pic pkt0 got0 Hv') as (o' & E' & D' & _).
  exists o, o'. split; [exact E|]. split; [exact E'|]. rewrite D, D'.
  unfold frame_bytes, line_bytes. now rewrite HW, HH.
Qed.

(** A context whose packers take groups of 24 samples (8 bits) and 18
    samples (10 bits) at a time, as a vectorised build would. *)
Definition wide_context : V210EncContext :=
  mkV210EncContext v210_planar_pack_8_c v210_planar_pack_10_c 2 3.

Lemma X10_witness :
  exists o o',
    encode_frame ex_alloc ex_side_data (ex_avctx 40 2) ex_pic_8 ex_pkt 0
    = Some o
    /\ encode_frame ex_alloc ex_side_data
         (mkAVCodecContext 40 2 AV_PICTURE_TYPE_I 20 0 wide_context) ex_pic_8
         ex_pkt 0 = Some o'
    /\ pkt_data (pkt o') = pkt_data (pkt o).
Proof.
  apply (X10_packers_do_not_matter ex_alloc ex_side_data (ex_avctx 40 2)
           (mkAVCodecContext 40 2 AV_PICTURE_TYPE_I 20 0 wide_context)
           ex_pic_8 ex_pkt 0).
  - apply ex_valid_call; [lia | reflexivity | lia | simpl; auto].
  - repeat split; cbn; lia.
  - reflexivity.
  - reflexivity.
Defined.

(** ** The top bits and the bytes of the packet *)

Lemma le32_bytes (w b : Z) : In b (le32 w) -> 0 <= b <= 255.
Proof.
  intros H. cbn [le32 In] in H.
  assert (R : forall x, 0 <= Z.land x 255 <= 255).
  { intros x. assert (Z.land x 255 = x mod 256) as ->
      by (change 255 with (Z.ones 8); now rewrite Z.land_ones by lia).
    Z.div_mod_to_equations. lia. }
  destruct H as [<- | [<- | [<- | [<- | []]]]]; apply R.
Qed.

Lemma frame_bytes_bytes (avctx : AVCodecContext) (pic : AVFrame) (b : Z) :
  In b (frame_bytes avctx pic) -> 0 <= b <= 255.
Proof.
  unfold frame_bytes. intros H. apply in_flat_map in H.
  destruct H as (h & _ & H). unfold line_bytes in H.
  destruct (row_ptrs pic h) as [[y u] v]. unfold row_bytes in H.
  apply in_app_or in H. destruct H as [H | H].
  - unfold words_bytes in H. apply in_flat_map in H.
    destruct H as (w & _ & H). now apply le32_bytes in H.
  - apply repeat_spec in H. lia.
Qed.

(** X11.  In every 32-bit word of every line of the packet, those of the
    padding and the partly filled last word included, bits 30 and 31 are
    zero; and every element of the packet is a byte. *)
Theorem X11_top_bits_clear
    (ff_alloc_packet2 : AVPacket -> Z -> Z -> Z * AVPacket)
    (av_packet_new_side_data : AVPacketSideDataType -> Z -> bool)
    (avctx : AVCodecContext) (pic : AVFrame) (pkt0 : AVPacket) (got0 : Z) :
  valid_call ff_alloc_packet2 avctx pic pkt0 ->
  exists o,
    encode_frame ff_alloc_packet2 av_packet_new_side_data avctx pic pkt0 got0
    = Some o
    /\ (forall h k, 0 <= h < height avctx ->
          0 <= k -> 4 * k + 4 <= stride_of (width avctx) ->
          0 <= out_word avctx (pkt_data (pkt o)) h k < 2 ^ 30
          /\ Z.testbit (out_word avctx (pkt_data (pkt o)) h k) 30 = false
          /\ Z.testbit (out_word avctx (pkt_data (pkt o)) h k) 31 = false)
    /\ (forall b, In b (pkt_data (pkt o)) -> 0 <= b <= 255).
Proof.
  intros Hv.
  destruct (valid_call_run ff_alloc_packet2 av_packet_new_side_data avctx pic
              pkt0 got0 Hv) as (o & E & D & _).
  destruct Hv as (_ & HW & _ & HH & _).
  exists o. split; [exact E|]. rewrite D.
  split; [|intros b; apply frame_bytes_bytes].
  intros h k Hh Hk Hs.
  assert (B : 0 <= out_word avctx (frame_bytes avctx pic) h k < 2 ^ 30).
  { destruct (Z.lt_ge_cases k (nwords (width avctx))) as [Hn | Hn].
    - rewrite frame_word by (try assumption; lia).
      destruct (row_ptrs pic h) as [[y u] v]. apply word_range.
    - unfold out_word, rd32.
      rewrite <- !Z.add_assoc.
      rewrite !(frame_pad avctx pic HW HH h) by (try assumption; lia).
      change (2 ^ 30) with 1073741824. lia. }
  split; [exact B|].
  split; apply (testbit_small _ 30); lia.
Qed.

Lemma X11_witness :
  exists o,
    encode_frame ex_alloc ex_side_data (ex_avctx 8 1) ex_pic_8 ex_pkt 0
    = Some o
    /\ (forall h k, 0 <= h < 1 ->
          0 <= k -> 4 * k + 4 <= stride_of 8 ->
          0 <= out_word (ex_avctx 8 1) (pkt_data (pkt o)) h k < 2 ^ 30
          /\ Z.testbit (out_word (ex_avctx 8 1) (pkt_data (pkt o)) h k) 30
             = false
          /\ Z.testbit (out_word (ex_avctx 8 1) (pkt_data (pkt o)) h k) 31
             = false)
    /\ (forall b, In b (pkt_data (pkt o)) -> 0 <= b <= 255).
Proof.
  apply (X11_top_bits_clear ex_alloc ex_side_data (ex_avctx 8 1) ex_pic_8
           ex_pkt 0).
  apply ex_valid_call; [lia | reflexivity | lia | simpl; auto].
Defined.

(** * The frame handed to the DeckLink card *)

(** The byte the card finds [i] bytes into a buffer. *)
Definition buffer_byte (b : buffer) (i : Z) : Z :=
  match b with
  | in_frame p off => p (off + i)
  | in_packet d => byte_at d i
  end.

Lemma GetRowBytes_packet (f : decklink_frame) :
  _codec_id f <> AV_CODEC_ID_WRAPPED_AVFRAME ->
  GetRowBytes f = Some (stride_of (GetWidth f)).
Proof.
  intros Hc. unfold GetRowBytes.
  destruct (_codec_id f); [contradiction| |];
    cbn [is_wrapped]; f_equal; unfold stride_of, aligned_width_of;
    replace (Z.quot (GetWidth f + 47) 48 * 48 * 8)
      with (Z.quot (GetWidth f + 47) 48 * 128 * 3) by lia;
    now rewrite Z.quot_mul by lia.
Qed.

Lemma int_of_in (x : Z) : INT_MIN <= x <= INT_MAX -> int_of x = Some x.
Proof.
  intros [H1 H2]. unfold int_of.
  apply Z.leb_le in H1, H2. now rewrite H1, H2.
Qed.

Lemma int_of_out (x : Z) : x < INT_MIN \/ INT_MAX < x -> int_of x = None.
Proof.
  intros H. unfold int_of.
  destruct (INT_MIN <=? x) eqn:E1; [|reflexivity].
  destruct (x <=? INT_MAX) eqn:E2; [|reflexivity].
  apply Z.leb_le in E1, E2. lia.
Qed.

(** The widths for which no step of the stride leaves the [int] range:
    there the stride of the model is the stride of the program. *)
Lemma int_stride_in (w : Z) :
  0 <= w <= 268435440 ->
  int_stride w = Some (stride_of w) /\ 0 <= stride_of w <= 715827840.
Proof.
  intros Hw. unfold int_stride, stride_of, aligned_width_of.
  assert (Hq : Z.quot (w + 47) 48 = (w + 47) / 48)
    by (apply Z.quot_div_nonneg; lia).
  assert (Hb : 0 <= (w + 47) / 48 <= 5592405)
    by (Z.div_mod_to_equations; lia).
  rewrite (int_of_in (w + 47)) by (unfold INT_MIN, INT_MAX; lia).
  cbv beta iota. rewrite Hq.
  rewrite (int_of_in ((w + 47) / 48 * 48))
    by (unfold INT_MIN, INT_MAX; lia).
  cbv beta iota.
  rewrite (int_of_in ((w + 47) / 48 * 48 * 8))
    by (unfold INT_MIN, INT_MAX; lia).
  split; [reflexivity|].
  rewrite Z.quot_div_nonneg by lia. Z.div_mod_to_equations. lia.
Qed.

(** X12.  For a frame that wraps a packet, the row size the card is told,
    [((width + 47) / 48) * 128], is the stride [encode_frame] computes for
    that width, for every width from 0 to 268435440: those for which the
    encoder's [int] computation, [aligned_width * 8] above all, does not
    overflow.  Both values then fit an [int]. *)
Theorem X12_row_bytes_is_stride (f : decklink_frame) :
  _codec_id f <> AV_CODEC_ID_WRAPPED_AVFRAME ->
  0 <= GetWidth f <= 268435440 ->
  exists rb,
    GetRowBytes f = Some rb /\ int_stride (GetWidth f) = Some rb
    /\ rb = stride_of (GetWidth f) /\ 0 <= rb <= INT_MAX.
Proof.
  intros Hc Hw. exists (stride_of (GetWidth f)).
  destruct (int_stride_in (GetWidth f) Hw) as [Hs Hr].
  split; [now apply GetRowBytes_packet|]. split; [exact Hs|].
  split; [reflexivity|]. unfold INT_MAX. lia.
Qed.

Lemma X12_witness :
  exists rb,
    GetRowBytes (decklink_frame_of_avpacket ex_pkt AV_CODEC_ID_V210 1080 1921)
    = Some rb
    /\ int_stride
         (GetWidth (decklink_frame_of_avpacket ex_pkt AV_CODEC_ID_V210 1080
                      1921)) = Some rb
    /\ rb = stride_of
              (GetWidth (decklink_frame_of_avpacket ex_pkt AV_CODEC_ID_V210
                           1080 1921))
    /\ 0 <= rb <= INT_MAX.
Proof.
  apply (X12_row_bytes_is_stride
           (decklink_frame_of_avpacket ex_pkt AV_CODEC_ID_V210 1080 1921)).
  - discriminate.
  - cbn. lia.
Defined.

(** One past the last such width [aligned_width * 8] no longer fits: the
    encoder's stride is undefined, while the card is told a row size. *)
Example stride_overflow :
  int_stride 268435441 = None
  /\ GetRowBytes (decklink_frame_of_avpacket ex_pkt AV_CODEC_ID_V210 1
                    268435441) = Some 715827968.
Proof. split; reflexivity. Qed.

(** X13.  The packet [encode_frame] produces, wrapped for a card whose mode
    has the codec's width and height, is handed over as 10-bit YUV, not
    flipped, with [GetHeight * GetRowBytes] equal to the size of the packet,
    and the [GetRowBytes] bytes of row [r] from [GetBytes] on are line [r] of
    the encoded frame. *)
Theorem X13_packet_rows_for_the_card
    (ff_alloc_packet2 : AVPacket -> Z -> Z -> Z * AVPacket)
    (av_packet_new_side_data : AVPacketSideDataType -> Z -> bool)
    (avctx : AVCodecContext) (pic : AVFrame) (pkt0 : AVPacket) (got0 : Z) :
  valid_call ff_alloc_packet2 avctx pic pkt0 ->
  exists o rb buf,
    encode_frame ff_alloc_packet2 av_packet_new_side_data avctx pic pkt0 got0
    = Some o /\
    let f := decklink_frame_of_avpacket (pkt o) AV_CODEC_ID_V210
               (height avctx) (width avctx) in
    GetPixelFormat f = bmdFormat10BitYUV
    /\ GetFlags f = Some bmdFrameFlagDefault
    /\ GetRowBytes f = Some rb /\ GetBytes f = Some buf
    /\ GetHeight f * rb = Z.of_nat (length (pkt_data (pkt o)))
    /\ forall r i, 0 <= r < GetHeight f -> 0 <= i < rb ->
         buffer_byte buf (r * rb + i)
         = nth (Z.to_nat i) (line_bytes avctx pic r) 0.
Proof.
  intros Hv.
  destruct (valid_call_run ff_alloc_packet2 av_packet_new_side_data avctx pic
              pkt0 got0 Hv) as (o & E & D & _).
  destruct Hv as (_ & HW & _ & HH & _).
  exists o, (stride_of (width avctx)), (in_packet (pkt_data (pkt o))).
  split; [exact E|]. cbv zeta.
  split; [reflexivity|]. split; [reflexivity|].
  split; [now apply GetRowBytes_packet|].
  split; [reflexivity|]. rewrite D. split.
  - now rewrite frame_bytes_length.
  - intros r i Hr Hi. cbn [buffer_byte].
    now apply frame_byte.
Qed.

Lemma X13_witness :
  exists o rb buf,
    encode_frame ex_alloc ex_side_data (ex_avctx 8 2) ex_pic_8 ex_pkt 0
    = Some o /\
    let f := decklink_frame_of_avpacket (pkt o) AV_CODEC_ID_V210 2 8 in
    GetPixelFormat f = bmdFormat10BitYUV
    /\ GetFlags f = Some bmdFrameFlagDefault
    /\ GetRowBytes f = Some rb /\ GetBytes f = Some buf
    /\ GetHeight f * rb = Z.of_nat (length (pkt_data (pkt o)))
    /\ forall r i, 0 <= r < GetHeight f -> 0 <= i < rb ->
         buffer_byte buf (r * rb + i)
         = nth (Z.to_nat i) (line_bytes (ex_avctx 8 2) ex_pic_8 r) 0.
Proof.
  apply (X13_packet_rows_for_the_card ex_alloc ex_side_data (ex_avctx 8 2)
           ex_pic_8 ex_pkt 0).
  apply ex_valid_call; [lia | reflexivity | lia | simpl; auto].
Defined.

(** X14.  A wrapped frame whose line size is an [int] other than the least
    one (whose negation is no [int]) is handed to the card with a row size
    that is never negative, the absolute value of its line size.  When the
    line size is negative (the frame is stored bottom-up) and the offset of
    the last row, [linesize * (height - 1)], fits an [int], the buffer
    starts at the row lowest in memory, the frame's last, so that row [r] of
    the buffer is row [height - 1 - r] of the frame, and the frame is
    flagged as flipped; otherwise row [r] of the buffer is row [r] of the
    frame and the flag is the default. *)
Theorem X14_wrapped_frame_rows (fr : AVFrame_h) (height width : Z) :
  let f := decklink_frame_of_avframe fr AV_CODEC_ID_WRAPPED_AVFRAME height
             width in
  let ls := linesize (avframe fr) 0 in
  INT_MIN < ls <= INT_MAX ->
  (ls < 0 ->
   INT_MIN <= avframe_height fr - 1 <= INT_MAX
   /\ INT_MIN <= ls * (avframe_height fr - 1) <= INT_MAX) ->
  exists rb buf,
    GetRowBytes f = Some rb /\ GetBytes f = Some buf
    /\ rb = Z.abs ls /\ 0 <= rb <= INT_MAX
    /\ GetPixelFormat f = bmdFormat8BitYUV
    /\ (ls < 0 ->
        GetFlags f = Some bmdFrameFlagFlipVertical
        /\ forall r i,
             buffer_byte buf (r * rb + i)
             = data (avframe fr) 0 ((avframe_height fr - 1 - r) * ls + i))
    /\ (0 <= ls ->
        GetFlags f = Some bmdFrameFlagDefault
        /\ forall r i,
             buffer_byte buf (r * rb + i)
             = data (avframe fr) 0 (r * ls + i)).
Proof.
  cbv zeta. intros Hls Hoff.
  unfold GetRowBytes, GetBytes, GetFlags, GetPixelFormat,
    decklink_frame_of_avframe.
  cbn [_codec_id is_wrapped _avframe].
  destruct (linesize (avframe fr) 0 <? 0) eqn:E;
    [apply Z.ltb_lt in E | apply Z.ltb_ge in E].
  - destruct (Hoff E) as [Hh Hp].
    rewrite (int_of_in (- linesize (avframe fr) 0))
      by (unfold INT_MIN, INT_MAX in *; lia).
    rewrite (int_of_in _ Hh), (int_of_in _ Hp).
    do 2 eexists. split; [reflexivity|]. split; [reflexivity|].
    split; [lia|]. split; [unfold INT_MIN, INT_MAX in *; lia|].
    split; [reflexivity|]. split; [|intros; lia].
    intros _. split; [reflexivity|]. intros r i.
    cbn [buffer_byte]. f_equal; lia.
  - do 2 eexists. split; [reflexivity|]. split; [reflexivity|].
    split; [lia|]. split; [lia|].
    split; [reflexivity|]. split; [intros; lia|].
    intros _. split; [reflexivity|]. intros r i.
    cbn [buffer_byte]. f_equal; lia.
Qed.

(** A packed 8-bit frame of 4 rows of 16 bytes, stored bottom-up. *)
Definition ex_wrapped_flipped : AVFrame_h :=
  mkAVFrame_h
    (mkAVFrame AV_PIX_FMT_NONE 0 (fun i k => 1000 + k) (fun i => -16) 0
       (fun _ => None))
    4.

Lemma X14_witness :
  let f := decklink_frame_of_avframe ex_wrapped_flipped
             AV_CODEC_ID_WRAPPED_AVFRAME 4 8 in
  let ls := linesize (avframe ex_wrapped_flipped) 0 in
  exists rb buf,
    GetRowBytes f = Some rb /\ GetBytes f = Some buf
    /\ rb = Z.abs ls /\ 0 <= rb <= INT_MAX
    /\ GetPixelFormat f = bmdFormat8BitYUV
    /\ (ls < 0 ->
        GetFlags f = Some bmdFrameFlagFlipVertical
        /\ forall r i,
             buffer_byte buf (r * rb + i)
             = data (avframe ex_wrapped_flipped) 0
                 ((avframe_height ex_wrapped_flipped - 1 - r) * ls + i))
    /\ (0 <= ls ->
        GetFlags f = Some bmdFrameFlagDefault
        /\ forall r i,
             buffer_byte buf (r * rb + i)
             = data (avframe ex_wrapped_flipped) 0 (r * ls + i)).
Proof.
  apply (X14_wrapped_frame_rows ex_wrapped_flipped 4 8).
  - cbn. unfold INT_MIN, INT_MAX. lia.
  - intros _. cbn. unfold INT_MIN, INT_MAX. lia.
Defined.

(** The card's first row of that frame is the frame's last, 48 bytes below
    [data[0]]. *)
Example wrapped_flipped_first_row :
  option_map (fun b => buffer_byte b 0)
    (GetBytes (decklink_frame_of_avframe ex_wrapped_flipped
                 AV_CODEC_ID_WRAPPED_AVFRAME 4 8))
  = Some (data (avframe ex_wrapped_flipped) 0 (-48)).
Proof. reflexivity. Qed.

(** A line size of [INT_MIN] has no row size: its negation is no [int]. *)
Example wrapped_least_linesize :
  GetRowBytes
    (decklink_frame_of_avframe
       (mkAVFrame_h
          (mkAVFrame AV_PIX_FMT_NONE 0 (fun i k => 0) (fun i => INT_MIN) 0
             (fun _ => None)) 4)
       AV_CODEC_ID_WRAPPED_AVFRAME 4 8)
  = None.
Proof. reflexivity. Qed.

(** ** The stride and the padding *)

Lemma field_of_low (pic : AVFrame) (x : Z) : 4 <= field_of pic x.
Proof.
  unfold field_of. destruct (format pic);
    try (rewrite field8_eq; pose proof (CLIP8_range x); lia).
  unfold field10. pose proof (CLIP_range x). lia.
Qed.

(** The last content word of a line is not zero: its first field holds a
    clamped sample. *)
Lemma last_word_pos (avctx : AVCodecContext) (pic : AVFrame) (y u v : Z) :
  0 < width avctx ->
  0 < word (field_of pic) (data pic 0) (data pic 1) (data pic 2)
        (width avctx) y u v (nwords (width avctx) - 1).
Proof.
  intros HW. unfold word.
  rewrite word3_add by apply field_range.
  pose proof (field_range avctx pic y u v
                (3 * (nwords (width avctx) - 1) + 1)) as R1.
  pose proof (field_range avctx pic y u v
                (3 * (nwords (width avctx) - 1) + 2)) as R2.
  assert (4 <= field (field_of pic) (data pic 0) (data pic 1) (data pic 2)
                 (width avctx) y u v (3 * (nwords (width avctx) - 1))).
  { unfold field.
    destruct (3 * (nwords (width avctx) - 1) <? 2 * width avctx) eqn:E.
    - unfold component.
      destruct (_ mod 2 =? 1); [apply field_of_low|].
      destruct (_ mod 4 =? 0); apply field_of_low.
    - apply Z.ltb_ge in E. unfold nwords in E.
      Z.div_mod_to_equations. lia. }
  lia.
Qed.

(** X15.  In the packet of a frame whose sizes fit an [int] (a width up to
    268435440, [height * stride] up to [INT_MAX]) every line takes [stride]
    bytes, a multiple of 128 that covers the [width * 8 / 3] bytes of the
    samples: the content words, the last of which is not zero, then a
    padding of zero bytes that is a multiple of 4 between 0 and 120 and is
    empty exactly when the width is a multiple of 48. *)
Theorem X15_stride_and_padding_bounds
    (ff_alloc_packet2 : AVPacket -> Z -> Z -> Z * AVPacket)
    (av_packet_new_side_data : AVPacketSideDataType -> Z -> bool)
    (avctx : AVCodecContext) (pic : AVFrame) (pkt0 : AVPacket) (got0 : Z) :
  let W := width avctx in
  let stride := stride_of W in
  let pad := line_padding_of W in
  valid_call ff_alloc_packet2 avctx pic pkt0 ->
  W <= 268435440 -> height avctx * stride <= INT_MAX ->
  exists o,
    encode_frame ff_alloc_packet2 av_packet_new_side_data avctx pic pkt0 got0
    = Some o
    /\ int_stride W = Some stride
    /\ int_of (height avctx * stride) = Some (height avctx * stride)
    /\ Z.of_nat (length (pkt_data (pkt o))) = height avctx * stride
    /\ stride mod 128 = 0 /\ W * 8 <= 3 * stride
    /\ pad = stride - 4 * ((W * 8 + 11) / 12)
    /\ 0 <= pad <= 120 /\ pad mod 4 = 0
    /\ (pad = 0 <-> W mod 48 = 0)
    /\ (forall h, 0 <= h < height avctx ->
          (forall i, stride - pad <= i < stride ->
             byte_at (pkt_data (pkt o)) (h * stride + i) = 0)
          /\ (0 < W ->
              0 < out_word avctx (pkt_data (pkt o)) h
                    ((W * 8 + 11) / 12 - 1))).
Proof.
  intros W stride pad Hv HWmax Hsize.
  destruct (valid_call_run ff_alloc_packet2 av_packet_new_side_data avctx pic
              pkt0 got0 Hv) as (o & E & D & _).
  destruct Hv as (_ & HW & He & HH & _). fold W in HW, He.
  destruct (int_stride_in W ltac:(lia)) as [Hi Hr]. fold stride in Hi, Hr.
  assert (Hp : pad = stride - 4 * nwords W)
    by (unfold pad, stride; now apply line_padding_of_eq).
  assert (Hs : stride = 128 * ((W + 47) / 48))
    by (unfold stride; now apply stride_of_eq).
  exists o. split; [exact E|]. split; [exact Hi|].
  split; [apply int_of_in; unfold INT_MIN; nia|]. rewrite D.
  split; [now apply frame_bytes_length|].
  unfold nwords in Hp.
  split; [Z.div_mod_to_equations; lia|].
  split; [Z.div_mod_to_equations; lia|].
  split; [exact Hp|].
  split; [Z.div_mod_to_equations; lia|].
  split; [Z.div_mod_to_equations; lia|].
  split; [Z.div_mod_to_equations; lia|].
  intros h Hh. split.
  - intros i Hi'. apply frame_pad; try assumption.
    unfold nwords. fold W. fold stride. lia.
  - intros HWp. fold (nwords W).
    rewrite frame_word; try assumption.
    + destruct (row_ptrs pic h) as [[y u] v]. now apply last_word_pos.
    + fold W. unfold nwords. Z.div_mod_to_equations. lia.
Qed.

Lemma X15_witness :
  let W := 1920 in
  let stride := stride_of W in
  let pad := line_padding_of W in
  exists o,
    encode_frame ex_alloc ex_side_data (ex_avctx 1920 2) ex_pic_8 ex_pkt 0
    = Some o
    /\ int_stride W = Some stride
    /\ int_of (2 * stride) = Some (2 * stride)
    /\ Z.of_nat (length (pkt_data (pkt o))) = 2 * stride
    /\ stride mod 128 = 0 /\ W * 8 <= 3 * stride
    /\ pad = stride - 4 * ((W * 8 + 11) / 12)
    /\ 0 <= pad <= 120 /\ pad mod 4 = 0
    /\ (pad = 0 <-> W mod 48 = 0)
    /\ (forall h, 0 <= h < 2 ->
          (forall i, stride - pad <= i < stride ->
             byte_at (pkt_data (pkt o)) (h * stride + i) = 0)
          /\ (0 < W ->
              0 < out_word (ex_avctx 1920 2) (pkt_data (pkt o)) h
                    ((W * 8 + 11) / 12 - 1))).
Proof.
  apply (X15_stride_and_padding_bounds ex_alloc ex_side_data
           (ex_avctx 1920 2) ex_pic_8 ex_pkt 0).
  - apply ex_valid_call; [lia | reflexivity | lia | simpl; auto].
  - cbn. lia.
  - vm_compute. discriminate.
Defined.

(** ** An odd width

    [encode_init] turns an odd width down; [encode_frame] itself does not
    look.  What follows is what its rows do when the width is odd. *)

Lemma odd_width_cases (W : Z) :
  0 <= W -> W mod 2 = 1 ->
  (W = 6 * (W / 6) + 1 /\ nwords W = 4 * (W / 6) + 1)
  \/ (W = 6 * (W / 6) + 3 /\ nwords W = 4 * (W / 6) + 2)
  \/ (W = 6 * (W / 6) + 5 /\ nwords W = 4 * (W / 6) + 4).
Proof.
  intros H0 He. unfold nwords. Z.div_mod_to_equations. lia.
Qed.

Section OddScheme.

Variable f : Z -> Z.
Variables Yp Up Vp : plane.

(** The words of a row that lie within a narrower row are the words of
    that row. *)
Lemma words_bytes_width (W W' y u v k : Z) (n : nat) :
  0 <= k -> 3 * (k + Z.of_nat n) <= 2 * W' -> W' <= W ->
  words_bytes f Yp Up Vp W y u v k n = words_bytes f Yp Up Vp W' y u v k n.
Proof.
  intros Hk Hn HW. unfold words_bytes. f_equal.
  apply map_ext_in. intros j Hj. apply In_zseq in Hj.
  assert (F : forall c, c < 2 * W' ->
            field f Yp Up Vp W y u v c = field f Yp Up Vp W' y u v c).
  { intros c Hc. unfold field.
    destruct (c <? 2 * W) eqn:E1; [|apply Z.ltb_ge in E1; lia].
    destruct (c <? 2 * W') eqn:E2; [reflexivity|apply Z.ltb_ge in E2; lia]. }
  unfold word. now rewrite !F by lia.
Qed.

(** With three samples left the tail stores one word and reads one more
    luma sample, which goes nowhere. *)
Lemma gen_tail_3 (width w y u v : Z) :
  width - w = 3 ->
  emits (gen_tail f Yp Up Vp width w) (y, u, v) (y + 2, u + 1, v + 1)
    (le32 (word3 (f (Up u)) (f (Yp y)) (f (Vp v)))).
Proof.
  intros H val pre rest Hlen. rewrite le32_length in Hlen. unfold gen_tail.
  destruct (w <? width - 1) eqn:E1; [|apply Z.ltb_ge in E1; lia].
  destruct (w <? width - 3) eqn:E2; [apply Z.ltb_lt in E2; lia|].
  destruct (w =? width - 2) eqn:E3; [apply Z.eqb_eq in E3; lia|].
  destruct (gen_write_uyv f Yp Up Vp y u v val pre rest)
    as [val1 W1]; [rewrite le32_length; lia|].
  rewrite W1. cbv beta iota.
  rewrite deref_y. cbv beta iota. rewrite set_val_at_out.
  eexists. f_equal. apply at_out_eq; trivial.
  apply f_equal2; [apply f_equal2|]; lia.
Qed.

(** With five samples left it stores three words, as with four; the fifth
    sample is not read. *)
Lemma gen_tail_5 (width w y u v : Z) :
  width - w = 5 ->
  emits (gen_tail f Yp Up Vp width w) (y, u, v) (y + 4, u + 2, v + 2)
    (flat_map le32
       [word3 (f (Up u)) (f (Yp y)) (f (Vp v));
        word3 (f (Yp (y + 1))) (f (Up (u + 1))) (f (Yp (y + 2)));
        Z.lor (f (Vp (v + 1))) (Z.shiftl (f (Yp (y + 3))) 10)]).
Proof.
  intros H val pre rest Hlen. rewrite flat_map_le32_length in Hlen.
  cbn [length] in Hlen. unfold gen_tail.
  destruct (w <? width - 1) eqn:E1; [|apply Z.ltb_ge in E1; lia].
  destruct (w <? width - 3) eqn:E2; [|apply Z.ltb_ge in E2; lia].
  destruct (w =? width - 2) eqn:E3; [apply Z.eqb_eq in E3; lia|].
  destruct (gen_write_uyv f Yp Up Vp y u v val pre rest)
    as [val1 W1]; [rewrite le32_length; lia|].
  rewrite W1. cbv beta iota.
  rewrite deref_y. cbv beta iota. rewrite set_val_at_out.
  rewrite deref_u. cbv beta iota. rewrite deref_y. cbv beta iota.
  rewrite set_val_at_out, st_val_at_out.
  rewrite flush_at_out by (rewrite length_skipn, le32_length; lia).
  rewrite deref_v. cbv beta iota. rewrite deref_y. cbv beta iota.
  rewrite set_val_at_out.
  rewrite flush_at_out by (rewrite !length_skipn, le32_length; lia).
  eexists. f_equal. apply at_out_eq.
  - apply f_equal2; [apply f_equal2|]; lia.
  - cbn [flat_map]. rewrite app_nil_r, <- !app_assoc. unfold word3.
    replace (y + 1 + 1) with (y + 2) by lia.
    replace (y + 2 + 1) with (y + 3) by lia.
    reflexivity.
  - now rewrite !skipn_skipn.
Qed.

Lemma tail_words_3 (y u v q : Z) :
  map (word f Yp Up Vp (6 * q + 2) y u v) (zseq (4 * q) 1)
  = [word3 (f (Up (u + 3 * q))) (f (Yp (y + 6 * q))) (f (Vp (v + 3 * q)))].
Proof.
  pose proof (tail_words_2 f Yp Up Vp (6 * q + 2) y u v q eq_refl) as H.
  cbn [zseq map] in *. now inversion H.
Qed.

(** The tail from the boundary [6q] of an odd width stores the words of the
    row one pixel narrower, but for the last word when that one would hold a
    single luma sample. *)
Lemma gen_tail_emits_odd (width y u v q : Z) (n : nat) :
  (width = 6 * q + 1 /\ n = 0%nat) \/ (width = 6 * q + 3 /\ n = 1%nat)
  \/ (width = 6 * q + 5 /\ n = 3%nat) ->
  0 <= q ->
  emits (gen_tail f Yp Up Vp width (6 * q)) (cur y u v q)
    (y + width - 1, u + width / 2, v + width / 2)
    (words_bytes f Yp Up Vp (width - 1) y u v (4 * q) n).
Proof.
  intros [[Hw ->] | [[Hw ->] | [Hw ->]]] Hq; unfold cur, words_bytes.
  - eapply emits_eq; [| |apply gen_tail_0; lia]; [|reflexivity].
    f_equal; [f_equal|]; (Z.div_mod_to_equations; lia).
  - eapply emits_eq; [| |apply gen_tail_3; lia].
    + f_equal; [f_equal|]; (Z.div_mod_to_equations; lia).
    + replace (width - 1) with (6 * q + 2) by lia.
      rewrite tail_words_3. cbn [flat_map]. now rewrite app_nil_r.
  - eapply emits_eq; [| |apply gen_tail_5; lia].
    + f_equal; [f_equal|]; (Z.div_mod_to_equations; lia).
    + now rewrite (tail_words_4 f Yp Up Vp (width - 1)) by lia.
Qed.

Variable W : Z.
Hypothesis W_nonneg : 0 <= W.
Hypothesis W_odd : W mod 2 = 1.

Lemma scalar_part_emits_odd (y u v nb : Z) :
  0 <= nb -> 6 * nb <= W ->
  emits (scalar_part f Yp Up Vp W (6 * nb)) (cur y u v nb)
    (y + W - 1, u + W / 2, v + W / 2)
    (words_bytes f Yp Up Vp (W - 1) y u v (4 * nb)
       (Z.to_nat (nwords W - 1 - 4 * nb))).
Proof.
  intros Hnb Hle val pre rest Hlen. rewrite words_bytes_length in Hlen.
  set (q := W / 6).
  assert (Hq : 6 * q <= W < 6 * q + 6)
    by (unfold q; Z.div_mod_to_equations; lia).
  pose proof (odd_width_cases W W_nonneg W_odd) as Hc. fold q in Hc.
  assert (Hnq : nb <= q) by lia.
  set (nt := Z.to_nat (nwords W - 1 - 4 * q)).
  assert (Hsplit : Z.to_nat (nwords W - 1 - 4 * nb)
                   = (Z.to_nat (4 * 1) * Z.to_nat (q - nb) + nt)%nat)
    by (unfold nt; lia).
  destruct (block_loop_emits f Yp Up Vp (W - 1) y u v W 1
              (gen_group f Yp Up Vp) ltac:(lia)
              (fun a H => gen_group_row f Yp Up Vp (W - 1) y u v a
                            ltac:(lia))
              (Z.to_nat (q - nb)) (fuel_for (6 * nb) W) nb Hnb
              ltac:(unfold fuel_for; lia) ltac:(lia) ltac:(lia) ltac:(lia)
              val pre rest ltac:(lia))
    as [val1 E1].
  change (6 * 1 - 1) with 5 in E1. change (6 * 1) with 6 in E1.
  replace (nb + 1 * Z.of_nat (Z.to_nat (q - nb))) with q in E1 by lia.
  unfold scalar_part. rewrite E1. cbn [fst snd].
  destruct (gen_tail_emits_odd W y u v q nt) with (val := val1)
    (pre := pre ++ words_bytes f Yp Up Vp (W - 1) y u v (4 * nb)
                     (Z.to_nat (4 * 1) * Z.to_nat (q - nb)))
    (rest := skipn (Z.to_nat (16 * 1) * Z.to_nat (q - nb)) rest)
    as [val2 E2].
  { unfold nt.
    destruct Hc as [[? ?]|[[? ?]|[? ?]]]; [left|right; left|right; right];
      split; trivial; lia. }
  { lia. }
  { rewrite words_bytes_length, length_skipn. lia. }
  exists val2. rewrite E2. f_equal. apply at_out_eq; trivial.
  - rewrite <- app_assoc, words_bytes_app by lia. now rewrite Hsplit.
  - rewrite skipn_skipn, !words_bytes_length. f_equal. lia.
Qed.

(** The bytes of a line when the width is odd: one word short. *)
Definition odd_row_bytes (y u v : Z) : list Z :=
  words_bytes f Yp Up Vp (W - 1) y u v 0 (Z.to_nat (nwords W - 1))
  ++ repeat 0 (Z.to_nat (line_padding_of W)).

Lemma odd_row_bytes_length (y u v : Z) :
  length (odd_row_bytes y u v) = Z.to_nat (stride_of W - 4).
Proof.
  unfold odd_row_bytes.
  rewrite length_app, words_bytes_length, repeat_length.
  pose proof (line_padding_nonneg W W_nonneg).
  rewrite line_padding_of_eq in * by assumption.
  assert (1 <= nwords W) by (unfold nwords; Z.div_mod_to_equations; lia).
  lia.
Qed.

End OddScheme.

Section OddRows.

Variable avctx : AVCodecContext.
Variable pic : AVFrame.

Hypothesis Hpack : packer_ok (priv_data avctx).
Hypothesis W_nonneg : 0 <= width avctx.
Hypothesis W_odd : width avctx mod 2 = 1.

(** A 10-bit row of odd width: the luma pointer ends one sample short of
    the next row. *)
Lemma row_10_emits_odd (y u v : Z) :
  emits (row_10 avctx pic (6 * sample_factor_10 (priv_data avctx))
           (Z.quot (width avctx)
              (6 * sample_factor_10 (priv_data avctx))))
    (y, u, v)
    (y + (Z.quot (linesize pic 0) 2 - 1), u + Z.quot (linesize pic 1) 2,
     v + Z.quot (linesize pic 2) 2)
    (odd_row_bytes field10 (data pic 0) (data pic 1) (data pic 2)
       (width avctx) y u v).
Proof.
  destruct Hpack as (_ & HF & _ & _).
  destruct (quot_bulk (width avctx) (6 * sample_factor_10 (priv_data avctx))
              W_nonneg ltac:(lia)) as [Hsw Hle].
  set (sw := Z.quot (width avctx)
               (6 * sample_factor_10 (priv_data avctx))) in *.
  assert (Hnb : 0 <= sw * sample_factor_10 (priv_data avctx)) by nia.
  assert (Hn6 : 6 * (sw * sample_factor_10 (priv_data avctx))
                <= width avctx - 1)
    by (assert (sw * (6 * sample_factor_10 (priv_data avctx))
                = 6 * (sw * sample_factor_10 (priv_data avctx))) by lia;
        Z.div_mod_to_equations; lia).
  assert (Hnw : 4 * (sw * sample_factor_10 (priv_data avctx))
                <= nwords (width avctx) - 1)
    by (unfold nwords; Z.div_mod_to_equations; lia).
  eapply emits_ext; [apply row_10_steps|]. fold sw.
  eapply emits_eq;
    [| | eapply emits_seq;
           [apply (bulk_10_emits avctx pic Hpack W_nonneg sw y u v Hsw Hle)|];
         eapply emits_seq;
           [replace (sw * (6 * sample_factor_10 (priv_data avctx)))
              with (6 * (sw * sample_factor_10 (priv_data avctx))) by lia;
            apply (scalar_part_emits_odd field10 (data pic 0) (data pic 1)
                     (data pic 2) (width avctx) W_nonneg W_odd
                     y u v (sw * sample_factor_10 (priv_data avctx)) Hnb);
            lia|];
         eapply emits_seq;
           [apply (pad_with_emits (line_padding_of (width avctx)));
            apply line_padding_nonneg; assumption|];
         apply advance_emits ].
  - rewrite (Z.quot_div_nonneg (width avctx) 2) by lia.
    apply f_equal2; [apply f_equal2|]; lia.
  - rewrite app_nil_r, app_assoc.
    rewrite (words_bytes_width field10 (data pic 0) (data pic 1) (data pic 2)
               (width avctx) (width avctx - 1)) by lia.
    rewrite words_bytes_app by lia. unfold odd_row_bytes.
    do 2 f_equal. lia.
Qed.

Lemma row_8_core_emits_odd (y u v : Z) :
  emits (row_8_core avctx pic) (y, u, v)
    (y + (linesize pic 0 - 1), u + linesize pic 1, v + linesize pic 2)
    (odd_row_bytes field8 (data pic 0) (data pic 1) (data pic 2)
       (width avctx) y u v).
Proof.
  destruct Hpack as (HF & _ & _ & _).
  destruct (quot_bulk (width avctx) (12 * sample_factor_8 (priv_data avctx))
              W_nonneg ltac:(lia)) as [Hsw Hle].
  set (sw := Z.quot (width avctx)
               (12 * sample_factor_8 (priv_data avctx))) in *.
  assert (Hnb : 0 <= 2 * (sw * sample_factor_8 (priv_data avctx))) by nia.
  assert (Hn6 : 6 * (2 * (sw * sample_factor_8 (priv_data avctx)))
                <= width avctx - 1)
    by (assert (sw * (12 * sample_factor_8 (priv_data avctx))
                = 6 * (2 * (sw * sample_factor_8 (priv_data avctx)))) by lia;
        Z.div_mod_to_equations; lia).
  assert (Hnw : 4 * (2 * (sw * sample_factor_8 (priv_data avctx)))
                <= nwords (width avctx) - 1)
    by (unfold nwords; Z.div_mod_to_equations; lia).
  unfold row_8_core. fold sw.
  eapply emits_eq;
    [| | eapply emits_seq;
           [apply (bulk_8_emits avctx pic Hpack W_nonneg sw y u v Hsw Hle)|];
         eapply emits_seq;
           [replace (sw * (12 * sample_factor_8 (priv_data avctx)))
              with (6 * (2 * (sw * sample_factor_8 (priv_data avctx)))) by lia;
            apply (scalar_part_emits_odd field8 (data pic 0) (data pic 1)
                     (data pic 2) (width avctx) W_nonneg W_odd
                     y u v (2 * (sw * sample_factor_8 (priv_data avctx)))
                     Hnb); lia|];
         eapply emits_seq;
           [apply (pad_with_emits (line_padding_of (width avctx)));
            apply line_padding_nonneg; assumption|];
         apply advance_emits ].
  - rewrite (Z.quot_div_nonneg (width avctx) 2) by lia.
    apply f_equal2; [apply f_equal2|]; lia.
  - rewrite app_nil_r, app_assoc.
    rewrite (words_bytes_width field8 (data pic 0) (data pic 1) (data pic 2)
               (width avctx) (width avctx - 1)) by lia.
    rewrite words_bytes_app by lia. unfold odd_row_bytes.
    do 2 f_equal. lia.
Qed.

End OddRows.

(** Where the samples of output row [h] start when the width is odd: the
    luma pointer has fallen one sample behind with every row before. *)
Definition odd_row_ptrs (pic : AVFrame) (h : Z) : Z * Z * Z :=
  match format pic with
  | AV_PIX_FMT_YUV422P10 =>
      (h * (Z.quot (linesize pic 0) 2 - 1), h * Z.quot (linesize pic 1) 2,
       h * Z.quot (linesize pic 2) 2)
  | _ =>
      (h * (linesize pic 0 - 1), chroma_row pic h * linesize pic 1,
       chroma_row pic h * linesize pic 2)
  end.

Definition odd_line_bytes (avctx : AVCodecContext) (pic : AVFrame) (h : Z)
  : list Z :=
  let '(y, u, v) := odd_row_ptrs pic h in
  odd_row_bytes (field_of pic) (data pic 0) (data pic 1) (data pic 2)
    (width avctx) y u v.

Lemma odd_line_bytes_length (avctx : AVCodecContext) (pic : AVFrame)
    (h : Z) :
  0 <= width avctx -> width avctx mod 2 = 1 ->
  length (odd_line_bytes avctx pic h)
  = Z.to_nat (stride_of (width avctx) - 4).
Proof.
  intros H Ho. unfold odd_line_bytes.
  destruct (odd_row_ptrs pic h) as [[y u] v].
  now apply odd_row_bytes_length.
Qed.

Section OddFrame.

Variable avctx : AVCodecContext.
Variable pic : AVFrame.

Hypothesis Hpack : packer_ok (priv_data avctx).
Hypothesis W_nonneg : 0 <= width avctx.
Hypothesis W_odd : width avctx mod 2 = 1.
Hypothesis H_nonneg : 0 <= height avctx.

Lemma odd_stride : 128 <= stride_of (width avctx).
Proof.
  rewrite stride_of_eq by assumption. Z.div_mod_to_equations. lia.
Qed.

Lemma encode_pixels_odd_10 (buf : list Z) :
  format pic = AV_PIX_FMT_YUV422P10 ->
  Z.of_nat (length buf) = height avctx * stride_of (width avctx) ->
  encode_pixels avctx pic buf
  = Some (flat_map (odd_line_bytes avctx pic)
            (zseq 0 (Z.to_nat (height avctx)))
          ++ skipn (Z.to_nat (stride_of (width avctx) - 4)
                    * Z.to_nat (height avctx)) buf).
Proof.
  intros Hfmt Hlen. unfold encode_pixels. rewrite Hfmt.
  pose proof odd_stride as Hs.
  destruct (6 * sample_factor_10 (priv_data avctx) =? 0) eqn:E0;
    [apply Z.eqb_eq in E0; destruct Hpack as (_ & HF & _); lia|].
  destruct (row_loop
              (fun _ : Z =>
                 row_10 avctx pic (6 * sample_factor_10 (priv_data avctx))
                   (Z.quot (width avctx)
                      (6 * sample_factor_10 (priv_data avctx))))
              (fun h pre rest st =>
                 exists val,
                   st = at_out (h * (Z.quot (linesize pic 0) 2 - 1),
                                h * Z.quot (linesize pic 1) 2,
                                h * Z.quot (linesize pic 2) 2) val pre rest)
              (odd_line_bytes avctx pic)
              (Z.to_nat (stride_of (width avctx) - 4))
              (height avctx))
    with (n := Z.to_nat (height avctx))
         (fuel := fuel_for 0 (height avctx)) (h0 := 0)
         (s := mkState 0 0 0 0 0 buf) (pre := @nil Z) (rest := buf)
    as (st & E & val & ->).
  - intros h. now apply odd_line_bytes_length.
  - intros h st pre rest Hh Hroom [val ->].
    destruct (row_10_emits_odd avctx pic Hpack W_nonneg W_odd
                (h * (Z.quot (linesize pic 0) 2 - 1))
                (h * Z.quot (linesize pic 1) 2)
                (h * Z.quot (linesize pic 2) 2) val pre rest) as [val' E].
    { rewrite odd_row_bytes_length by assumption. exact Hroom. }
    eexists. split; [exact E|]. exists val'.
    rewrite odd_row_bytes_length by assumption.
    apply at_out_eq; trivial.
    + apply f_equal2; [apply f_equal2|]; lia.
    + unfold odd_line_bytes, odd_row_ptrs, field_of. now rewrite Hfmt.
  - lia.
  - lia.
  - unfold fuel_for. lia.
  - nia.
  - exists 0. reflexivity.
  - rewrite E. cbn [snd]. rewrite st_buf_at_out. reflexivity.
Qed.

Lemma encode_pixels_odd_8 (buf : list Z) :
  format pic = AV_PIX_FMT_YUV422P \/ format pic = AV_PIX_FMT_YUV420P ->
  Z.of_nat (length buf) = height avctx * stride_of (width avctx) ->
  encode_pixels avctx pic buf
  = Some (flat_map (odd_line_bytes avctx pic)
            (zseq 0 (Z.to_nat (height avctx)))
          ++ skipn (Z.to_nat (stride_of (width avctx) - 4)
                    * Z.to_nat (height avctx)) buf).
Proof.
  intros Hfmt Hlen.
  pose proof odd_stride as Hs.
  destruct (row_loop
              (row_8 avctx pic (12 * sample_factor_8 (priv_data avctx))
                 (Z.quot (width avctx)
                    (12 * sample_factor_8 (priv_data avctx))))
              (fun h pre rest (t : state8) =>
                 exists u v ue ve val,
                   t = (at_out (h * (linesize pic 0 - 1), u, v) val pre rest,
                        ue, ve)
                   /\ chroma_inv pic (linesize pic 1) h u ue
                   /\ chroma_inv pic (linesize pic 2) h v ve)
              (odd_line_bytes avctx pic)
              (Z.to_nat (stride_of (width avctx) - 4))
              (height avctx))
    with (n := Z.to_nat (height avctx))
         (fuel := fuel_for 0 (height avctx)) (h0 := 0)
         (s := (mkState 0 0 0 0 0 buf, 0, 0)) (pre := @nil Z) (rest := buf)
    as (t & E & u & v & ue & ve & val & -> & _).
  - intros h. now apply odd_line_bytes_length.
  - intros h t pre rest Hh Hroom (u & v & ue & ve & val & -> & Iu & Iv).
    rewrite row_8_steps, select_chroma_at_out. cbn [fst snd].
    destruct (chroma_inv_step pic _ h u ue ltac:(lia) Iu) as [Su Iu'].
    destruct (chroma_inv_step pic _ h v ve ltac:(lia) Iv) as [Sv Iv'].
    assert (Hline : odd_line_bytes avctx pic h
                    = odd_row_bytes field8 (data pic 0) (data pic 1)
                        (data pic 2) (width avctx) (h * (linesize pic 0 - 1))
                        (fst (select1 pic h u ue)) (fst (select1 pic h v ve))).
    { unfold odd_line_bytes, odd_row_ptrs, field_of. rewrite Su, Sv.
      destruct Hfmt as [-> | ->]; reflexivity. }
    destruct (row_8_core_emits_odd avctx pic Hpack W_nonneg W_odd
                (h * (linesize pic 0 - 1)) (fst (select1 pic h u ue))
                (fst (select1 pic h v ve)) val pre rest) as [val' E].
    { rewrite odd_row_bytes_length by assumption. exact Hroom. }
    rewrite E.
    eexists. split; [reflexivity|].
    exists (fst (select1 pic h u ue) + linesize pic 1),
           (fst (select1 pic h v ve) + linesize pic 2),
           (snd (select1 pic h u ue)), (snd (select1 pic h v ve)), val'.
    split; [|split; assumption].
    rewrite Hline, odd_row_bytes_length by assumption.
    do 2 f_equal. apply at_out_eq; trivial.
    do 2 f_equal. lia.
  - lia.
  - lia.
  - unfold fuel_for. lia.
  - nia.
  - exists 0, 0, 0, 0, 0. repeat split; apply chroma_inv_0.
  - unfold encode_pixels.
    assert (E0 : (12 * sample_factor_8 (priv_data avctx) =? 0) = false)
      by (apply Z.eqb_neq; destruct Hpack as (HF & _); lia).
    destruct Hfmt as [Hf | Hf]; rewrite Hf; rewrite E0; rewrite E;
      cbn [fst snd]; rewrite st_buf_at_out; reflexivity.
Qed.

Lemma encode_pixels_odd (buf : list Z) :
  In (format pic) pix_fmts ->
  Z.of_nat (length buf) = height avctx * stride_of (width avctx) ->
  encode_pixels avctx pic buf
  = Some (flat_map (odd_line_bytes avctx pic)
            (zseq 0 (Z.to_nat (height avctx)))
          ++ skipn (Z.to_nat (stride_of (width avctx) - 4)
                    * Z.to_nat (height avctx)) buf).
Proof.
  intros Hin Hlen. unfold pix_fmts in Hin. cbn [In] in Hin.
  destruct Hin as [E | [E | [E | []]]]; symmetry in E.
  - now apply encode_pixels_odd_10.
  - apply encode_pixels_odd_8; auto.
  - apply encode_pixels_odd_8; auto.
Qed.

End OddFrame.

(** X16.  [encode_frame] has no width check of its own, and on an odd
    width every row comes out one word short: it stores the words of the
    row one pixel narrower (without its last word when [width mod 6 = 3]),
    then the line padding, [stride - 4] bytes in all, so that line [h]
    starts at [h * (stride - 4)]; the luma pointer falls one sample behind
    with every row; and the last [4 * height] bytes of the packet are left
    as the allocator handed them out.  The call still returns as for an
    even width. *)
Theorem X16_odd_width_rows
    (ff_alloc_packet2 : AVPacket -> Z -> Z -> Z * AVPacket)
    (av_packet_new_side_data : AVPacketSideDataType -> Z -> bool)
    (avctx : AVCodecContext) (pic : AVFrame) (pkt0 : AVPacket) (got0 : Z) :
  let stride := stride_of (width avctx) in
  let size := height avctx * stride in
  packer_ok (priv_data avctx) ->
  0 <= width avctx -> width avctx mod 2 = 1 -> 0 <= height avctx ->
  In (format pic) pix_fmts ->
  0 <= fst (ff_alloc_packet2 pkt0 size size) ->
  Z.of_nat (length (pkt_data (snd (ff_alloc_packet2 pkt0 size size))))
  = size ->
  exists o,
    encode_frame ff_alloc_packet2 av_packet_new_side_data avctx pic pkt0 got0
    = Some o
    /\ pkt_data (pkt o)
       = flat_map (odd_line_bytes avctx pic)
           (zseq 0 (Z.to_nat (height avctx)))
         ++ skipn (Z.to_nat (height avctx * (stride - 4)))
              (pkt_data (snd (ff_alloc_packet2 pkt0 size size)))
    /\ (forall h, Z.of_nat (length (odd_line_bytes avctx pic h)) = stride - 4)
    /\ (forall i, height avctx * (stride - 4) <= i < size ->
          byte_at (pkt_data (pkt o)) i
          = byte_at (pkt_data (snd (ff_alloc_packet2 pkt0 size size)))
              i)
    /\ (ret o = 0 \/ ret o = AVERROR ENOMEM).
Proof.
  intros stride size Hp HW Ho HH Hf Hr Hl. unfold encode_frame.
  fold stride. fold size.
  destruct (ff_alloc_packet2 pkt0 size size) as [r p1]. cbn [fst snd] in *.
  set (buf := pkt_data p1) in *.
  destruct (r <? 0) eqn:E; [apply Z.ltb_lt in E; lia|].
  rewrite (encode_pixels_odd avctx pic Hp HW Ho HH buf Hf Hl).
  pose proof (odd_stride avctx HW Ho) as Hs. fold stride in Hs.
  assert (Hlines : forall h,
            Z.of_nat (length (odd_line_bytes avctx pic h)) = stride - 4).
  { intros h. rewrite odd_line_bytes_length by assumption.
    fold stride. lia. }
  set (lines := flat_map (odd_line_bytes avctx pic)
                  (zseq 0 (Z.to_nat (height avctx)))).
  assert (Hlen : length lines = Z.to_nat (height avctx * (stride - 4))).
  { unfold lines.
    rewrite (flat_map_const_length _ (Z.to_nat (stride - 4)))
      by (intros h; specialize (Hlines h); lia).
    rewrite zseq_length. nia. }
  replace (Z.to_nat (stride_of (width avctx) - 4)
           * Z.to_nat (height avctx))%nat
    with (Z.to_nat (height avctx * (stride - 4))) by (fold stride; nia).
  assert (Hbytes : forall i, height avctx * (stride - 4) <= i < size ->
            byte_at (lines ++ skipn (Z.to_nat (height avctx * (stride - 4)))
                                buf) i
            = byte_at buf i).
  { intros i Hi. unfold byte_at.
    rewrite app_nth2 by lia. rewrite nth_skipn. f_equal. lia. }
  match goal with
  | |- context [copy_all_side_data _ _ ?p] =>
      destruct (copy_all_side_data_cases av_packet_new_side_data pic p)
        as (p' & D & F & [-> | [-> N]])
  end; cbn [pkt_data] in D.
  - change (0 <? 0) with false. cbv iota.
    eexists. split; [reflexivity|]. cbn [pkt pkt_data ret]. rewrite D.
    repeat split; auto.
  - change (AVERROR ENOMEM <? 0) with true. cbv iota.
    eexists. split; [reflexivity|]. cbn [pkt pkt_data ret]. rewrite D.
    repeat split; auto.
Qed.

(** An 8-bit 4:2:2 frame of 3x2 pixels. *)
Definition ex_pic_odd : AVFrame :=
  mkAVFrame AV_PIX_FMT_YUV422P 0
    (fun i => if i =? 0 then plane_of [16; 32; 48; 64; 80; 96]
              else if i =? 1 then plane_of [100; 110]
              else plane_of [200; 210])
    (fun i => if i =? 0 then 3 else 1) 0 (fun _ => None).

Lemma X16_witness :
  let stride := stride_of 3 in
  let size := 2 * stride in
  exists o,
    encode_frame ex_alloc ex_side_data (ex_avctx 3 2) ex_pic_odd ex_pkt 0
    = Some o
    /\ pkt_data (pkt o)
       = flat_map (odd_line_bytes (ex_avctx 3 2) ex_pic_odd)
           (zseq 0 (Z.to_nat 2))
         ++ skipn (Z.to_nat (2 * (stride - 4)))
              (pkt_data (snd (ex_alloc ex_pkt size size)))
    /\ (forall h,
          Z.of_nat (length (odd_line_bytes (ex_avctx 3 2) ex_pic_odd h))
          = stride - 4)
    /\ (forall i, 2 * (stride - 4) <= i < size ->
          byte_at (pkt_data (pkt o)) i
          = byte_at (pkt_data (snd (ex_alloc ex_pkt size size))) i)
    /\ (ret o = 0 \/ ret o = AVERROR ENOMEM).
Proof.
  apply (X16_odd_width_rows ex_alloc ex_side_data (ex_avctx 3 2) ex_pic_odd
           ex_pkt 0).
  - apply packer_ok_c.
  - cbn; lia.
  - reflexivity.
  - cbn; lia.
  - simpl; auto.
  - cbn; lia.
  - reflexivity.
Defined.

(** In that packet line 1 starts at byte 124 with the word of U, Y, V read
    one luma sample early (48, the third sample of row 0, for 64), and the
    last 8 bytes are the 0xff of the allocator. *)
Example odd_width_packet :
  option_map (fun o => (rd32 (pkt_data (pkt o)) 0,
                        rd32 (pkt_data (pkt o)) 124,
                        skipn 248 (pkt_data (pkt o))))
    (encode_frame ex_alloc ex_side_data (ex_avctx 3 2) ex_pic_odd ex_pkt 0)
  = Some (word3 (field8 100) (field8 16) (field8 200),
          word3 (field8 110) (field8 48) (field8 210),
          repeat 255 8).
Proof. vm_compute. reflexivity. Qed.

(** ** Formats and sizes at the edge *)

(** X17.  [encode_frame] does not look at the format beyond its two
    branches: for a frame of a format the codec does not list, no pixel is
    packed, the packet data is the buffer as the allocator handed it out,
    and the call still reports a packet (or [ENOMEM] from the side data),
    whatever the width and the height. *)
Theorem X17_unlisted_format
    (ff_alloc_packet2 : AVPacket -> Z -> Z -> Z * AVPacket)
    (av_packet_new_side_data : AVPacketSideDataType -> Z -> bool)
    (avctx : AVCodecContext) (pic : AVFrame) (pkt0 : AVPacket) (got0 : Z) :
  let size := height avctx * stride_of (width avctx) in
  format pic = AV_PIX_FMT_NONE ->
  0 <= fst (ff_alloc_packet2 pkt0 size size) ->
  exists o,
    encode_frame ff_alloc_packet2 av_packet_new_side_data avctx pic pkt0 got0
    = Some o
    /\ pkt_data (pkt o)
       = pkt_data (snd (ff_alloc_packet2 pkt0 size size))
    /\ (ret o = 0 /\ got_packet o = 1
        \/ ret o = AVERROR ENOMEM
           /\ exists pt n, av_packet_new_side_data pt n = false).
Proof.
  intros size Hf Hr. unfold encode_frame. fold size.
  destruct (ff_alloc_packet2 pkt0 size size) as [r p1]. cbn [fst snd] in *.
  destruct (r <? 0) eqn:E; [apply Z.ltb_lt in E; lia|].
  unfold encode_pixels. rewrite Hf.
  match goal with
  | |- context [copy_all_side_data _ _ ?p] =>
      destruct (copy_all_side_data_cases av_packet_new_side_data pic p)
        as (p' & D & F & [-> | [-> N]])
  end; cbn [pkt_data] in D.
  - change (0 <? 0) with false. cbv iota.
    eexists. split; [reflexivity|]. cbn. split; [exact D|]. now left.
  - change (AVERROR ENOMEM <? 0) with true. cbv iota.
    eexists. split; [reflexivity|]. cbn. split; [exact D|]. now right.
Qed.

(** A frame of some other format. *)
Definition ex_pic_other : AVFrame :=
  mkAVFrame AV_PIX_FMT_NONE 0 (fun i => plane_of [1; 2; 3]) (fun i => 3) 0
    (fun _ => None).

Lemma X17_witness :
  let size := 1 * stride_of 3 in
  exists o,
    encode_frame ex_alloc ex_side_data (ex_avctx 3 1) ex_pic_other ex_pkt 0
    = Some o
    /\ pkt_data (pkt o) = pkt_data (snd (ex_alloc ex_pkt size size))
    /\ (ret o = 0 /\ got_packet o = 1
        \/ ret o = AVERROR ENOMEM
           /\ exists pt n, ex_side_data pt n = false).
Proof.
  apply (X17_unlisted_format ex_alloc ex_side_data (ex_avctx 3 1)
           ex_pic_other ex_pkt 0).
  - reflexivity.
  - cbn; lia.
Defined.

(** X18.  A frame with no pixels is encoded without complaint: the packet
    is empty exactly when the width or the height is 0, and a packet is
    still reported. *)
Theorem X18_empty_frame
    (ff_alloc_packet2 : AVPacket -> Z -> Z -> Z * AVPacket)
    (av_packet_new_side_data : AVPacketSideDataType -> Z -> bool)
    (avctx : AVCodecContext) (pic : AVFrame) (pkt0 : AVPacket) (got0 : Z) :
  valid_call ff_alloc_packet2 avctx pic pkt0 ->
  exists o,
    encode_frame ff_alloc_packet2 av_packet_new_side_data avctx pic pkt0 got0
    = Some o
    /\ (pkt_data (pkt o) = [] <-> width avctx = 0 \/ height avctx = 0)
    /\ ((forall pt n, av_packet_new_side_data pt n = true) ->
        ret o = 0 /\ got_packet o = 1).
Proof.
  intros Hv.
  destruct (valid_call_run ff_alloc_packet2 av_packet_new_side_data avctx pic
              pkt0 got0 Hv) as (o & E & D & R).
  destruct Hv as (_ & HW & _ & HH & _).
  exists o. split; [exact E|]. split.
  - pose proof (frame_bytes_length avctx pic HW HH) as L. rewrite <- D in L.
    rewrite stride_of_eq in L by assumption.
    split.
    + intros N. rewrite N in L. cbn [length] in L.
      assert (width avctx = 0 \/ 0 < width avctx) as [?|P] by lia; [now left|].
      right.
      assert (0 < (width avctx + 47) / 48) by (Z.div_mod_to_equations; lia).
      nia.
    + intros Z0. destruct (pkt_data (pkt o)) as [|b l]; [reflexivity|].
      cbn [length] in L. exfalso.
      destruct Z0 as [Z0 | Z0]; rewrite Z0 in L.
      * change ((0 + 47) / 48) with 0 in L. lia.
      * lia.
  - intros Hall. destruct R as [R | [_ (pt & n & N)]]; [exact R|].
    rewrite Hall in N. discriminate.
Qed.

Lemma X18_witness :
  exists o,
    encode_frame ex_alloc ex_side_data (ex_avctx 0 4) ex_pic_8 ex_pkt 0
    = Some o
    /\ (pkt_data (pkt o) = [] <-> 0 = 0 \/ 4 = 0)
    /\ ((forall pt n, ex_side_data pt n = true) ->
        ret o = 0 /\ got_packet o = 1).
Proof.
  apply (X18_empty_frame ex_alloc ex_side_data (ex_avctx 0 4) ex_pic_8
           ex_pkt 0).
  apply ex_valid_call; [lia | reflexivity | lia | simpl; auto].
Defined.

(** ** The chroma lines a 4:2:0 frame is read at *)

(** X19.  For a 4:2:0 frame every output row [h] is packed from chroma line
    [c = h / 2], or [c = 2 (h / 4) + h mod 2] when the frame is marked
    interlaced.  That line is below [ceil(height / 2)], the number of chroma
    lines of such a frame, except for an interlaced frame whose height is 2
    modulo 4: there the last row is packed from chroma line [height / 2]. *)
Theorem X19_chroma_lines_read
    (ff_alloc_packet2 : AVPacket -> Z -> Z -> Z * AVPacket)
    (av_packet_new_side_data : AVPacketSideDataType -> Z -> bool)
    (avctx : AVCodecContext) (pic : AVFrame) (pkt0 : AVPacket) (got0 : Z) :
  valid_call ff_alloc_packet2 avctx pic pkt0 ->
  format pic = AV_PIX_FMT_YUV420P ->
  exists o,
    encode_frame ff_alloc_packet2 av_packet_new_side_data avctx pic pkt0 got0
    = Some o /\
    forall h, 0 <= h < height avctx ->
      let c := if interlaced_frame pic =? 1 then 2 * (h / 4) + h mod 2
               else h / 2 in
      (forall j, 0 <= j < width avctx / 2 ->
         out_cb avctx (pkt_data (pkt o)) h j
         = Z.shiftl (CLIP8 (data pic 1 (c * linesize pic 1 + j))) 2
         /\ out_cr avctx (pkt_data (pkt o)) h j
            = Z.shiftl (CLIP8 (data pic 2 (c * linesize pic 2 + j))) 2)
      /\ 0 <= c
      /\ (interlaced_frame pic <> 1 \/ height avctx mod 4 <> 2 ->
          c < (height avctx + 1) / 2)
      /\ (interlaced_frame pic = 1 -> height avctx mod 4 = 2 ->
          h = height avctx - 1 ->
          c = height avctx / 2 /\ c = (height avctx + 1) / 2).
Proof.
  intros Hv Hfmt.
  destruct (valid_call_run ff_alloc_packet2 av_packet_new_side_data avctx pic
              pkt0 got0 Hv) as (o & E & D & _).
  destruct Hv as (_ & HW & _ & HH & _).
  exists o. split; [exact E|]. rewrite D. intros h Hh. cbv zeta.
  split; [|split; [|split]].
  - intros j Hj. rewrite frame_cb, frame_cr by assumption.
    unfold row_ptrs, field_of, chroma_row. rewrite Hfmt. cbn [fst snd].
    split; reflexivity.
  - destruct (interlaced_frame pic =? 1); Z.div_mod_to_equations; lia.
  - intros Hc. destruct (interlaced_frame pic =? 1) eqn:Ei.
    + apply Z.eqb_eq in Ei. Z.div_mod_to_equations. lia.
    + Z.div_mod_to_equations. lia.
  - intros Hi Hm ->. rewrite Hi. change (1 =? 1) with true. cbv iota.
    Z.div_mod_to_equations. lia.
Qed.

(** A 2x2 interlaced 4:2:0 frame: one chroma line, and what lies after it
    in the planes. *)
Definition ex_pic_420i_2 : AVFrame :=
  mkAVFrame AV_PIX_FMT_YUV420P 1
    (fun i => if i =? 0 then plane_of [100; 101; 102; 103]
              else if i =? 1 then plane_of [10; 77]
              else plane_of [40; 88])
    (fun i => if i =? 0 then 2 else 1) 0 (fun _ => None).

Lemma X19_witness :
  exists o,
    encode_frame ex_alloc ex_side_data (ex_avctx 2 2) ex_pic_420i_2 ex_pkt 0
    = Some o /\
    forall h, 0 <= h < 2 ->
      let c := if interlaced_frame ex_pic_420i_2 =? 1
               then 2 * (h / 4) + h mod 2 else h / 2 in
      (forall j, 0 <= j < 2 / 2 ->
         out_cb (ex_avctx 2 2) (pkt_data (pkt o)) h j
         = Z.shiftl (CLIP8 (data ex_pic_420i_2 1 (c * 1 + j))) 2
         /\ out_cr (ex_avctx 2 2) (pkt_data (pkt o)) h j
            = Z.shiftl (CLIP8 (data ex_pic_420i_2 2 (c * 1 + j))) 2)
      /\ 0 <= c
      /\ (interlaced_frame ex_pic_420i_2 <> 1 \/ 2 mod 4 <> 2 ->
          c < (2 + 1) / 2)
      /\ (interlaced_frame ex_pic_420i_2 = 1 -> 2 mod 4 = 2 ->
          h = 2 - 1 ->
          c = 2 / 2 /\ c = (2 + 1) / 2).
Proof.
  apply (X19_chroma_lines_read ex_alloc ex_side_data (ex_avctx 2 2)
           ex_pic_420i_2 ex_pkt 0).
  - apply ex_valid_call; [lia | reflexivity | lia | simpl; auto].
  - reflexivity.
Defined.

(** Row 1 of that frame carries the chroma found after the frame's one
    chroma line. *)
Example interlaced_420_height_2 :
  option_map (fun o => (out_cb (ex_avctx 2 2) (pkt_data (pkt o)) 1 0,
                        out_cr (ex_avctx 2 2) (pkt_data (pkt o)) 1 0))
    (encode_frame ex_alloc ex_side_data (ex_avctx 2 2) ex_pic_420i_2 ex_pkt 0)
  = Some (Z.shiftl 77 2, Z.shiftl 88 2).
Proof. vm_compute. reflexivity. Qed.

(** ** 4:2:0 input as 4:2:2 input *)

(** X20.  A 4:2:0 frame encodes to the packet of the 4:2:2 frame with the
    same luma whose chroma line [h] is the chroma line the 4:2:0 frame is
    read at for row [h]: line [h / 2], or [2 (h / 4) + h mod 2] when it is
    marked interlaced.  The encoder upsamples the chroma by repeating
    lines, nothing else. *)
Theorem X20_420_is_422_with_lines_repeated
    (ff_alloc_packet2 : AVPacket -> Z -> Z -> Z * AVPacket)
    (av_packet_new_side_data : AVPacketSideDataType -> Z -> bool)
    (avctx : AVCodecContext) (pic pic' : AVFrame) (pkt0 : AVPacket)
    (got0 : Z) :
  valid_call ff_alloc_packet2 avctx pic pkt0 ->
  format pic = AV_PIX_FMT_YUV420P -> format pic' = AV_PIX_FMT_YUV422P ->
  (forall h x, 0 <= h < height avctx -> 0 <= x < width avctx ->
     data pic' 0 (h * linesize pic' 0 + x)
     = data pic 0 (h * linesize pic 0 + x)) ->
  (forall i h j, i = 1 \/ i = 2 ->
     0 <= h < height avctx -> 0 <= j < width avctx / 2 ->
     data pic' i (h * linesize pic' i + j)
     = data pic i
         ((if interlaced_frame pic =? 1 then 2 * (h / 4) + h mod 2
           else h / 2) * linesize pic i + j)) ->
  exists o o',
    encode_frame ff_alloc_packet2 av_packet_new_side_data avctx pic pkt0 got0
    = Some o
    /\ encode_frame ff_alloc_packet2 av_packet_new_side_data avctx pic' pkt0
         got0 = Some o'
    /\ pkt_data (pkt o') = pkt_data (pkt o).
Proof.
  intros Hv Hf Hf' Hy Hc.
  assert (Hv' : valid_call ff_alloc_packet2 avctx pic' pkt0).
  { destruct Hv as (H1 & H2 & H3 & H4 & H5 & H6 & H7).
    unfold valid_call. rewrite Hf'.
    refine (conj H1 (conj H2 (conj H3 (conj H4 (conj _ (conj H6 H7)))))).
    cbn. auto. }
  destruct (valid_call_run ff_alloc_packet2 av_packet_new_side_data avctx pic
              pkt0 got0 Hv) as (o & E & D & _).
  destruct (valid_call_run ff_alloc_packet2 av_packet_new_side_data avctx pic'
              pkt0 got0 Hv') as (o' & E' & D' & _).
  destruct Hv as (_ & HW & He & HH & _).
  exists o, o'. split; [exact E|]. split; [exact E'|]. rewrite D, D'.
  symmetry. apply frame_bytes_ext. intros h c Hh Hcc.
  destruct (component_src pic (width avctx) h c Hcc He) as (-> & B1 & B2).
  destruct (component_src pic' (width avctx) h c Hcc He) as (-> & _ & _).
  unfold field_of, src_luma, src_cb, src_cr, row_ptrs, chroma_row.
  rewrite Hf, Hf'. cbn [fst snd]. f_equal.
  destruct (c mod 2 =? 1) eqn:E2.
  - symmetry. now apply Hy.
  - apply Z.eqb_neq in E2.
    assert (c mod 2 = 0) as M by (Z.div_mod_to_equations; lia).
    destruct (c mod 4 =? 0); symmetry; apply Hc; auto.
Qed.

(** [ex_pic_420i] as a 4:2:2 frame: the four luma rows, and the chroma lines
    10, 20, 10, 20 and 40, 50, 40, 50. *)
Definition ex_pic_420i_as_422 : AVFrame :=
  mkAVFrame AV_PIX_FMT_YUV422P 0
    (fun i => if i =? 0 then plane_of [100; 101; 102; 103; 104; 105; 106; 107]
              else if i =? 1 then plane_of [10; 20; 10; 20]
              else plane_of [40; 50; 40; 50])
    (fun i => if i =? 0 then 2 else 1) 0 (fun _ => None).

Lemma X20_witness :
  exists o o',
    encode_frame ex_alloc ex_side_data (ex_avctx 2 4) ex_pic_420i ex_pkt 0
    = Some o
    /\ encode_frame ex_alloc ex_side_data (ex_avctx 2 4) ex_pic_420i_as_422
         ex_pkt 0 = Some o'
    /\ pkt_data (pkt o') = pkt_data (pkt o).
Proof.
  apply (X20_420_is_422_with_lines_repeated ex_alloc ex_side_data
           (ex_avctx 2 4) ex_pic_420i ex_pic_420i_as_422 ex_pkt 0).
  - apply ex_valid_call; [lia | reflexivity | lia | simpl; auto].
  - reflexivity.
  - reflexivity.
  - intros h x Hh Hx. reflexivity.
  - intros i h j Hi Hh Hj. cbn [ex_avctx height width] in Hh, Hj.
    change (2 / 2) with 1 in Hj. assert (j = 0) as -> by lia.
    assert (h = 0 \/ h = 1 \/ h = 2 \/ h = 3) as C by lia.
    destruct Hi as [-> | ->]; destruct C as [-> | [-> | [-> | ->]]];
      vm_compute; reflexivity.
Defined.
